(** * The Proxmox cloud driver of saltext-proxmox-v9x, embedded and checked

    The driver ([src/saltext/proxmox_v9x/clouds/proxmox_v9x.py]) is a
    sequence of blocking calls against a REST API, interleaved with reads of
    the wall clock and sleeps.  It is embedded here as follows.

    - JSON payloads, keyword dictionaries and the few other Python objects
      the driver touches are values of [PyVal]; the dynamic operations the
      driver applies to them ([x[k]], [k in x], [x == y], [bool(x)],
      iteration) are functions that return a [Result], a value or an
      exception, so that the exceptions Python raises are part of the model.
    - The driver's effects live in a small reader/state/exception monad [M]:
      the state is the [World] (wall clock in milliseconds, the record of
      everything the driver did, and the [__opts__] dictionary); the reader
      part is the [Env], which answers HTTP requests and stands for the
      collaborators the driver is handed by Salt.
    - Every HTTP exchange takes a strictly positive time, so the loops of the
      form [while time.time() < start_time + timeout] advance the clock.
      They are run with a budget computed from the distance to the deadline;
      exhausting the budget is the outcome [Diverge], and [driver_is_total]
      shows that no operation of the driver produces it.

    Console output ([print], [pprint]) is not part of the model, and neither
    are the listing of locations and images, [list_nodes_select], and the
    functions that only read the provider's configuration. *)

From Stdlib Require Import ZArith List String Ascii Bool Lia.
Import ListNotations.

Set Warnings "-register-all".

Local Open Scope string_scope.
Local Open Scope Z_scope.

(** ** Python values *)

Inductive PyVal : Type :=
| PNone
| PBool (b : bool)
| PInt (z : Z)
| PStr (s : string)
| PList (l : list PyVal)
| PDict (d : list (PyVal * PyVal))
| PResponse (status_code : Z) (body : PyVal).

(** Exceptions the driver raises itself or lets through. *)
Inductive Exn : Type :=
| SaltCloudExecutionTimeout (msg : string)
| SaltCloudNotFound (msg : string) (subject : PyVal)
| SaltCloudSystemExit (msg : string)
| SystemExit
| RequestException
| HTTPError
| JSONDecodeError
| ValueError
| KeyError
| IndexError
| TypeError
| AttributeError
| UnboundLocalError.

(** What evaluating an expression gives: a value or an exception. *)
Inductive Result (A : Type) : Type :=
| Ok (a : A)
| Raise (e : Exn).

Arguments Ok {A} a.
Arguments Raise {A} e.

(** What running a statement gives: a result, or [Diverge] when a loop has
    used up its budget. *)
Inductive Outcome (A : Type) : Type :=
| Done (r : Result A)
| Diverge.

Arguments Done {A} r.
Arguments Diverge {A}.

Coercion Done : Result >-> Outcome.

Definition obind {A B} (o : Result A) (f : A -> Result B) : Result B :=
  match o with
  | Ok a => f a
  | Raise e => Raise e
  end.

(** [except ValueError] also catches the subclasses of [ValueError]. *)
Definition is_ValueError (e : Exn) : bool :=
  match e with
  | ValueError | JSONDecodeError => true
  | _ => false
  end.

Module Py.

(** Python's [==].  [True == 1] holds, dictionaries compare without regard
    to order.  Response objects have no [__eq__]; they are compared by
    content here, which the driver never relies on. *)
Fixpoint eq (a b : PyVal) {struct a} : bool :=
  match a, b with
  | PNone, PNone => true
  | PBool x, PBool y => Bool.eqb x y
  | PBool x, PInt y => (if x then 1 else 0) =? y
  | PInt x, PBool y => x =? (if y then 1 else 0)
  | PInt x, PInt y => x =? y
  | PStr x, PStr y => String.eqb x y
  | PList x, PList y =>
      (fix pointwise (x y : list PyVal) {struct x} : bool :=
         match x, y with
         | [], [] => true
         | a' :: x', b' :: y' => eq a' b' && pointwise x' y'
         | _, _ => false
         end) x y
  | PDict x, PDict y =>
      Nat.eqb (List.length x) (List.length y) &&
      (fix every (x : list (PyVal * PyVal)) {struct x} : bool :=
         match x with
         | [] => true
         | (k, v) :: x' =>
             (fix lookup (y : list (PyVal * PyVal)) : bool :=
                match y with
                | [] => false
                | (k', v') :: y' => if eq k k' then eq v v' else lookup y'
                end) y && every x'
         end) x
  | PResponse c x, PResponse c' y => (c =? c') && eq x y
  | _, _ => false
  end.

(** [bool(x)] *)
Definition truthy (v : PyVal) : bool :=
  match v with
  | PNone => false
  | PBool b => b
  | PInt z => negb (z =? 0)
  | PStr s => negb (String.eqb s EmptyString)
  | PList l => match l with [] => false | _ => true end
  | PDict d => match d with [] => false | _ => true end
  | PResponse c _ => (c <? 400)
  end.

(** *** Dictionaries: insertion-ordered association lists *)

Fixpoint dict_get (d : list (PyVal * PyVal)) (k : PyVal) : option PyVal :=
  match d with
  | [] => None
  | (k', v) :: d' => if eq k' k then Some v else dict_get d' k
  end.

(** [d[k] = v]: an existing key keeps its position. *)
Fixpoint dict_set (d : list (PyVal * PyVal)) (k v : PyVal) : list (PyVal * PyVal) :=
  match d with
  | [] => [(k, v)]
  | (k', v') :: d' =>
      if eq k' k then (k', v) :: d' else (k', v') :: dict_set d' k v
  end.

Fixpoint dict_remove (d : list (PyVal * PyVal)) (k : PyVal) : list (PyVal * PyVal) :=
  match d with
  | [] => []
  | (k', v') :: d' => if eq k' k then d' else (k', v') :: dict_remove d' k
  end.

(** [a.update(b)] *)
Definition dict_update (a b : list (PyVal * PyVal)) : list (PyVal * PyVal) :=
  fold_left (fun acc kv => dict_set acc (fst kv) (snd kv)) b a.

(** [x.get(k)]: only dictionaries have the method. *)
Definition get (x k : PyVal) : Result PyVal :=
  match x with
  | PDict d => Ok (match dict_get d k with Some v => v | None => PNone end)
  | _ => Raise AttributeError
  end.

Definition chars (s : string) : list PyVal :=
  map (fun c => PStr (String c EmptyString)) (list_ascii_of_string s).

(** Indexing a sequence with Python's negative indices. *)
Definition seq_index {A} (l : list A) (i : Z) : option A :=
  let n := Z.of_nat (List.length l) in
  let j := if i <? 0 then i + n else i in
  if (0 <=? j) && (j <? n) then nth_error l (Z.to_nat j) else None.

(** [x[k]] *)
Definition getitem (x k : PyVal) : Result PyVal :=
  match x with
  | PDict d =>
      match dict_get d k with Some v => Ok v | None => Raise KeyError end
  | PList l =>
      match k with
      | PInt i =>
          match seq_index l i with Some v => Ok v | None => Raise IndexError end
      | PBool b =>
          match seq_index l (if b then 1 else 0) with
          | Some v => Ok v
          | None => Raise IndexError
          end
      | _ => Raise TypeError
      end
  | PStr s =>
      match k with
      | PInt i =>
          match seq_index (chars s) i with Some v => Ok v | None => Raise IndexError end
      | PBool b =>
          match seq_index (chars s) (if b then 1 else 0) with
          | Some v => Ok v
          | None => Raise IndexError
          end
      | _ => Raise TypeError
      end
  | _ => Raise TypeError
  end.

(** [x[k] = v] on a dictionary held in a local variable: the new value of
    the variable. *)
Definition setitem (x k v : PyVal) : Result PyVal :=
  match x with
  | PDict d => Ok (PDict (dict_set d k v))
  | _ => Raise TypeError
  end.

Fixpoint substring_of (needle hay : string) : bool :=
  String.prefix needle hay ||
  match hay with
  | EmptyString => false
  | String _ rest => substring_of needle rest
  end.

(** [k in x] *)
Definition contains (x k : PyVal) : Result bool :=
  match x with
  | PDict d => Ok (match dict_get d k with Some _ => true | None => false end)
  | PList l => Ok (existsb (fun v => eq v k) l)
  | PStr s =>
      match k with
      | PStr n => Ok (substring_of n s)
      | _ => Raise TypeError
      end
  | _ => Raise TypeError
  end.

(** [for v in x] *)
Definition iter (x : PyVal) : Result (list PyVal) :=
  match x with
  | PList l => Ok l
  | PDict d => Ok (map fst d)
  | PStr s => Ok (chars s)
  | _ => Raise TypeError
  end.

(** [x + 1] for the operand types that occur as ids. *)
Definition add_one (x : PyVal) : Result PyVal :=
  match x with
  | PInt z => Ok (PInt (z + 1))
  | PBool b => Ok (PInt ((if b then 1 else 0) + 1))
  | _ => Raise TypeError
  end.

(** *** Ordering, for [sorted]

    [<] is modelled on numbers and on strings.  [None] and dictionaries
    are unordered in Python and raise [TypeError]; so do operands of
    different kinds.  Nested lists, which Python orders lexicographically,
    are reported as [TypeError] as well. *)
Fixpoint str_lt (a b : string) : bool :=
  match a, b with
  | _, EmptyString => false
  | EmptyString, String _ _ => true
  | String x a', String y b' =>
      (nat_of_ascii x <? nat_of_ascii y)%nat ||
      ((nat_of_ascii x =? nat_of_ascii y)%nat && str_lt a' b')
  end.

Definition as_number (v : PyVal) : option Z :=
  match v with
  | PInt z => Some z
  | PBool b => Some (if b then 1 else 0)
  | _ => None
  end.

Definition lt (a b : PyVal) : Result bool :=
  match as_number a, as_number b with
  | Some x, Some y => Ok (x <? y)
  | _, _ =>
      match a, b with
      | PStr x, PStr y => Ok (str_lt x y)
      | _, _ => Raise TypeError
      end
  end.

Fixpoint insert_sorted (v : PyVal) (l : list PyVal) : Result (list PyVal) :=
  match l with
  | [] => Ok [v]
  | x :: l' =>
      obind (lt v x) (fun b =>
        if b then Ok (v :: x :: l')
        else obind (insert_sorted v l') (fun r => Ok (x :: r)))
  end.

(** [sorted(l)]: a new list; the argument is left as it is. *)
Fixpoint sorted (l : list PyVal) : Result (list PyVal) :=
  match l with
  | [] => Ok []
  | x :: l' => obind (sorted l') (insert_sorted x)
  end.

(** *** Strings *)

(** [s.split(sep)] for a one-character separator. *)
Fixpoint split (sep : ascii) (s : string) : list string :=
  match s with
  | EmptyString => [EmptyString]
  | String c rest =>
      if Ascii.eqb c sep then EmptyString :: split sep rest
      else match split sep rest with
           | hd :: tl => String c hd :: tl
           | [] => [String c EmptyString]
           end
  end.

(** The ASCII characters for which [str.isspace] holds. *)
Definition is_space (c : ascii) : bool :=
  let n := nat_of_ascii c in
  ((9 <=? n) && (n <=? 13) || (28 <=? n) && (n <=? 32))%nat.

Fixpoint lstrip (s : string) : string :=
  match s with
  | String c rest => if is_space c then lstrip rest else s
  | EmptyString => EmptyString
  end.

Fixpoint rstrip (s : string) : string :=
  match s with
  | EmptyString => EmptyString
  | String c rest =>
      match rstrip rest with
      | EmptyString => if is_space c then EmptyString else String c EmptyString
      | r => String c r
      end
  end.

(** [s.strip()] *)
Definition strip (s : string) : string := rstrip (lstrip s).

(** [dict(pairs)] where every element of [pairs] is a list: an element
    that does not have exactly two members raises [ValueError]. *)
Fixpoint dict_of_lists (pairs : list (list string)) (acc : list (PyVal * PyVal))
  : Result (list (PyVal * PyVal)) :=
  match pairs with
  | [] => Ok acc
  | [k; v] :: rest => dict_of_lists rest (dict_set acc (PStr k) (PStr v))
  | _ :: _ => Raise ValueError
  end.

End Py.

(** [str(v)].  Exact on [None], booleans, integers and strings; containers
    are rendered element by element, strings inside them in single quotes
    without Python's escaping. *)
Module PyStr.

Fixpoint digits (fuel : nat) (n : Z) (acc : string) : string :=
  match fuel with
  | O => acc
  | S fuel' =>
      let d := ascii_of_nat (48 + Z.to_nat (n mod 10)) in
      if n <? 10 then String d acc else digits fuel' (n / 10) (String d acc)
  end.

Definition of_Z (z : Z) : string :=
  if z <? 0 then String "-"%char (digits (S (Z.to_nat (Z.log2 (- z)))) (- z) EmptyString)
  else digits (S (Z.to_nat (Z.log2 z))) z EmptyString.

Definition join (sep : string) (l : list string) : string :=
  match l with
  | [] => EmptyString
  | x :: rest => fold_left (fun acc s => acc ++ sep ++ s)%string rest x
  end.

Fixpoint repr (v : PyVal) : string :=
  match v with
  | PNone => "None"
  | PBool b => if b then "True" else "False"
  | PInt z => of_Z z
  | PStr s => ("'" ++ s ++ "'")%string
  | PList l => ("[" ++ join ", " (map repr l) ++ "]")%string
  | PDict d =>
      ("{" ++ join ", " (map (fun kv => repr (fst kv) ++ ": " ++ repr (snd kv)) d)
           ++ "}")%string
  | PResponse c _ => ("<Response [" ++ of_Z c ++ "]>")%string
  end.

Definition str (v : PyVal) : string :=
  match v with
  | PStr s => s
  | _ => repr v
  end.

End PyStr.

(** ** The remote API and the world *)

(** The paths the driver formats.  The interpolated values are kept as they
    are: [nodes/{node}/{type}/{vmid}/...] is [EpVm... node type vmid]. *)
Inductive Endpoint : Type :=
| EpClusterResources                        (* cluster/resources?type=vm *)
| EpClusterNextId                           (* /cluster/nextid *)
| EpVm (node kind vmid : PyVal)             (* nodes/{node}/{type}/{vmid} *)
| EpVmConfig (node kind vmid : PyVal)       (* .../config *)
| EpVmStatusCurrent (node kind vmid : PyVal) (* .../status/current *)
| EpVmStatus (node kind vmid : PyVal) (action : string) (* .../status/{status} *)
| EpVmClone (node kind vmid : PyVal)        (* .../clone *)
| EpVmAgentInterfaces (node kind vmid : PyVal). (* .../agent/network-get-interfaces *)

(** What [requests] does with one request: it raises, or it hands back a
    response with a status code and, when the body is JSON, its content. *)
Inductive Transport : Type :=
| RaisedHTTPError
| RaisedRequestException
| Responded (status_code : Z) (body : option PyVal).

Record Exchange : Type := mkExchange {
  reply : Transport;
  latency : positive   (* milliseconds the call blocked *)
}.

Inductive Event : Type :=
| EvRequest (method : string) (ep : Endpoint) (data : PyVal) (r : Transport)
| EvSleep (ms : Z)
| EvLog (level msg : string)
| EvFire (what tag : string) (args : PyVal)
| EvProbe (host : PyVal) (port : Z)
| EvBootstrap (vm_ : PyVal).

(** [ip_interface(x).ip], as far as the driver looks at it. *)
Record IPAddress : Type := mkIP {
  ip_text : string;       (* str(ip) *)
  is_private : bool       (* ip.is_private *)
}.

(** The environment: the cluster behind the REST API, whose answer may
    depend on the time and on everything that happened before, the
    [ipaddress] library, and Salt's [__utils__]. *)
Record Env : Type := mkEnv {
  http : Z -> list Event -> string -> Endpoint -> PyVal -> Exchange;
  ip_interface : PyVal -> option IPAddress;   (* [None]: raises ValueError *)
  cloud_filter_event : string -> PyVal -> list string -> PyVal;
  cloud_wait_for_port : Z -> list Event -> PyVal -> Z -> Z -> Result PyVal * positive;
  cloud_bootstrap : PyVal -> list (PyVal * PyVal) -> Result PyVal
}.

Record World : Type := mkWorld {
  now : Z;                           (* time.time(), in milliseconds *)
  trace : list Event;                (* newest first *)
  opts : list (PyVal * PyVal)        (* __opts__ *)
}.

Definition seconds (n : Z) : Z := 1000 * n.

(** ** The monad *)

Definition M (A : Type) : Type := Env -> World -> Outcome A * World.

Definition ret {A} (a : A) : M A := fun _ w => (Done (Ok a), w).

Definition bind {A B} (m : M A) (k : A -> M B) : M B :=
  fun E w =>
    match m E w with
    | (Done (Ok a), w') => k a E w'
    | (Done (Raise e), w') => (Done (Raise e), w')
    | (Diverge, w') => (Diverge, w')
    end.

Definition raise {A} (e : Exn) : M A := fun _ w => (Done (Raise e), w).

Definition lift {A} (o : Result A) : M A := fun _ w => (Done o, w).

Notation "x <- m ;; k" := (bind m (fun x => k))
  (at level 61, m at next level, right associativity).
Notation "m ;;; k" := (bind m (fun _ => k))
  (at level 61, right associativity).

Definition record (ev : Event) : M unit :=
  fun _ w => (Done (Ok tt), mkWorld (now w) (ev :: trace w) (opts w)).

Definition tick (ms : Z) : M unit :=
  fun _ w => (Done (Ok tt), mkWorld (now w + ms) (trace w) (opts w)).

(** [time.time()] *)
Definition time_time : M Z := fun _ w => (Done (Ok (now w)), w).

(** [time.sleep(d)]: a negative length raises [ValueError]. *)
Definition time_sleep (ms : Z) : M unit :=
  if ms <? 0 then raise ValueError
  else record (EvSleep ms) ;;; tick ms.

Definition log (level msg : string) : M unit := record (EvLog level msg).

(** [__opts__[k]] and [__opts__[k] = v] *)
Definition opts_get (k : string) : M PyVal :=
  fun _ w =>
    match Py.dict_get (opts w) (PStr k) with
    | Some v => (Done (Ok v), w)
    | None => (Done (Raise KeyError), w)
    end.

Definition opts_set (k : string) (v : PyVal) : M unit :=
  fun _ w => (Done (Ok tt), mkWorld (now w) (trace w) (Py.dict_set (opts w) (PStr k) v)).

(** Loops.  The body of a loop either goes round again with new values of
    the loop's variables or leaves the enclosing function with [return]. *)
Inductive Step (St R : Type) : Type :=
| Continue (s : St)
| Return (r : R).

Arguments Continue {St R} s.
Arguments Return {St R} r.

Fixpoint while_loop {St R} (budget : nat) (cond : St -> M bool)
         (body : St -> M (Step St R)) (s : St) : M (Step St R) :=
  match budget with
  | O => fun _ w => (Diverge, w)
  | S budget' =>
      c <- cond s ;;
      if c then
        r <- body s ;;
        match r with
        | Continue s' => while_loop budget' cond body s'
        | Return v => ret (Return v)
        end
      else ret (Continue s)
  end.

(** [time.time() < deadline] *)
Definition before (deadline : Z) {St} (_ : St) : M bool :=
  t <- time_time ;; ret (t <? deadline).

(** [while time.time() < deadline: body].  Each of the driver's bodies
    blocks for at least a millisecond, so [deadline - now] rounds suffice. *)
Definition while_time_lt {St R} (deadline : Z)
           (body : St -> M (Step St R)) (s : St) : M (Step St R) :=
  fun E w =>
    while_loop (S (Z.to_nat (deadline - now w))) (before deadline) body s E w.

(** [for x in l: body], with the loop's variables threaded through. *)
Fixpoint for_each {St} (l : list PyVal) (body : PyVal -> St -> M St) (s : St) : M St :=
  match l with
  | [] => ret s
  | x :: rest => s' <- body x s ;; for_each rest body s'
  end.

(** ** The driver *)

(** [response.raise_for_status(); return response.json().get("data")] *)
Definition response_data (status_code : Z) (body : option PyVal) : Result PyVal :=
  if (400 <=? status_code) && (status_code <? 600) then Raise HTTPError
  else match body with
       | None => Raise JSONDecodeError
       | Some j => Py.get j (PStr "data")
       end.

(** What [_query] hands back for a given behaviour of [requests], and
    whether it logs an error first. *)
Definition query_result (method : string) (r : Transport) : bool * Result PyVal :=
  if String.eqb method "RAWGET" then
    match r with
    | RaisedHTTPError => (false, Raise HTTPError)
    | RaisedRequestException => (false, Raise RequestException)
    | Responded c body =>
        (false, if negb (c =? 500)
                then Ok (PResponse c (match body with Some j => j | None => PNone end))
                else Ok (PInt c))
    end
  else if String.eqb method "GET" then
    match r with
    | RaisedHTTPError => (false, Raise AttributeError)
    | RaisedRequestException => (true, Ok PNone)
    | Responded c body => (false, response_data c body)
    end
  else
    match r with
    | RaisedHTTPError | RaisedRequestException => (true, Ok PNone)
    | Responded c body => (false, response_data c body)
    end.

(** [_query(method, path, data)].  The URL and the token come from the
    configuration provider and play no part in what follows. *)
Definition _query (method : string) (path : Endpoint) (data : PyVal) : M PyVal :=
  fun E w =>
    let x := http E (now w) (trace w) method path data in
    let w' := mkWorld (now w + Z.pos (latency x))
                      (EvRequest method path data (reply x) :: trace w) (opts w) in
    let (logs, res) := query_result method (reply x) in
    (Done res,
     if logs
     then mkWorld (now w') (EvLog "error" "Error in query to %s\n%s\n%s\n" :: trace w')
                  (opts w')
     else w').

(** [nodes/{vm['node']}/{vm['type']}/{vm['vmid']}] *)
Definition vm_address (vm : PyVal) : Result (PyVal * PyVal * PyVal) :=
  obind (Py.getitem vm (PStr "node")) (fun node =>
  obind (Py.getitem vm (PStr "type")) (fun kind =>
  obind (Py.getitem vm (PStr "vmid")) (fun vmid =>
  Ok (node, kind, vmid)))).

(** [for vm in vms: if vm["name"] == name: return vm] *)
Fixpoint scan_by_name (vms : list PyVal) (name : PyVal) : Result (option PyVal) :=
  match vms with
  | [] => Ok None
  | vm :: rest =>
      obind (Py.getitem vm (PStr "name")) (fun n =>
        if Py.eq n name then Ok (Some vm) else scan_by_name rest name)
  end.

(** [_get_vm_by_name(name, interval, max, message)]; [max] is overwritten
    with 60 on entry. *)
Definition _get_vm_by_name (name : PyVal) (interval : Z) (max : Z)
           (message : option string) : M PyVal :=
  let counter := 0 in
  let max := 60 in
  r <- while_loop (S (Z.to_nat (max - counter)))
         (fun counter => ret (counter <? max))
         (fun counter =>
            vms <- _query "GET" EpClusterResources PNone ;;
            l <- lift (Py.iter vms) ;;
            found <- lift (scan_by_name l name) ;;
            match found with
            | Some vm => ret (Return vm)
            | None =>
                match message with
                | Some _ => log "info" "Waiting for cloning to finish [%d/%d]"
                | None => ret tt
                end ;;;
                time_sleep interval ;;;
                ret (Continue (counter + 1))
            end)
         counter ;;
  match r with
  | Return vm => ret vm
  | Continue _ =>
      raise (SaltCloudNotFound
               "The specified VM with name '{name}' could not be found." name)
  end.

(** [_get_vm_by_id(vmid)] *)
Fixpoint scan_by_id (vms : list PyVal) (vmid : PyVal) : Result (option PyVal) :=
  match vms with
  | [] => Ok None
  | vm :: rest =>
      obind (Py.getitem vm (PStr "vmid")) (fun i =>
        if Py.eq i vmid then Ok (Some vm) else scan_by_id rest vmid)
  end.

Definition _get_vm_by_id (vmid : PyVal) : M PyVal :=
  vms <- _query "GET" EpClusterResources PNone ;;
  l <- lift (Py.iter vms) ;;
  found <- lift (scan_by_id l vmid) ;;
  match found with
  | Some vm => ret vm
  | None =>
      raise (SaltCloudNotFound
               "The specified VM with vmid '{vmid}' could not be found." vmid)
  end.

(** [_set_vm_status(name, status, kwargs)] *)
Definition _set_vm_status (name : PyVal) (status : string) (kwargs : PyVal) : M unit :=
  vm <- _get_vm_by_name name (seconds 1) 2 None ;;
  a <- lift (vm_address vm) ;;
  let '(node, kind, vmid) := a in
  _query "POST" (EpVmStatus node kind vmid status) kwargs ;;;
  ret tt.

(** [response = _query("GET", f".../status/current")] *)
Definition fetch_status (vm : PyVal) : M PyVal :=
  a <- lift (vm_address vm) ;;
  let '(node, kind, vmid) := a in
  _query "GET" (EpVmStatusCurrent node kind vmid) PNone.

(** The body of the loops that only fetch, once or twice a round. *)
Definition fetch_once (vm : PyVal) (_ : unit) : M (Step unit PyVal) :=
  fetch_status vm ;;; ret (Continue tt).

Definition fetch_twice (vm : PyVal) (_ : unit) : M (Step unit PyVal) :=
  fetch_status vm ;;; fetch_status vm ;;; ret (Continue tt).

(** The body of the last loop (lines 749-754). *)
Definition fetch_and_compare (vm status : PyVal) (interval : Z) (_ : unit)
  : M (Step unit PyVal) :=
  response <- fetch_status vm ;;
  s <- lift (Py.getitem response (PStr "status")) ;;
  if Py.eq s status then ret (Return (PBool true))
  else time_sleep interval ;;; ret (Continue tt).

(** [_wait_for_vm_status(name, status, timeout, interval)], loop for loop:
    eight loops that each take a new [start_time], then three that share
    the last one. *)
Definition _wait_for_vm_status (name status : PyVal) (timeout interval : Z) : M PyVal :=
  vm <- _get_vm_by_name name (seconds 5) 12 (Some "Waiting for VM to be ready") ;;
  start_time <- time_time ;;
  while_time_lt (start_time + timeout) (fetch_once vm) tt ;;;
  start_time <- time_time ;;
  while_time_lt (start_time + timeout) (fetch_once vm) tt ;;;
  start_time <- time_time ;;
  while_time_lt (start_time + timeout) (fetch_twice vm) tt ;;;
  start_time <- time_time ;;
  while_time_lt (start_time + timeout) (fetch_once vm) tt ;;;
  start_time <- time_time ;;
  while_time_lt (start_time + timeout) (fetch_once vm) tt ;;;
  start_time <- time_time ;;
  while_time_lt (start_time + timeout) (fetch_once vm) tt ;;;
  start_time <- time_time ;;
  while_time_lt (start_time + timeout) (fetch_once vm) tt ;;;
  start_time <- time_time ;;
  while_time_lt (start_time + timeout) (fetch_twice vm) tt ;;;
  while_time_lt (start_time + timeout) (fetch_twice vm) tt ;;;
  r <- while_time_lt (start_time + timeout) (fetch_and_compare vm status interval) tt ;;
  match r with
  | Return v => ret v
  | Continue _ =>
      raise (SaltCloudExecutionTimeout "Timeout to wait for VM status reached.")
  end.

(** [_wait_for_ip(name, timeout, interval)] *)
Definition _wait_for_ip (name : PyVal) (timeout interval : Z) : M PyVal :=
  vm <- _get_vm_by_name name (seconds 1) 2 None ;;
  start_time <- time_time ;;
  log "info" "Waiting for VM to get IP address assigned" ;;;
  _wait_for_vm_status name (PStr "running") (seconds 300) (seconds 5) ;;;
  r <- while_time_lt (start_time + timeout)
         (fun _ : unit =>
            a <- lift (vm_address vm) ;;
            let '(node, kind, vmid) := a in
            response <- _query "RAWGET" (EpVmAgentInterfaces node kind vmid) PNone ;;
            if negb (Py.eq response (PInt 500)) then
              a <- lift (vm_address vm) ;;
              let '(node, kind, vmid) := a in
              res <- _query "GET" (EpVmAgentInterfaces node kind vmid) PNone ;;
              has <- lift (Py.contains res (PStr "result")) ;;
              (if has : bool
               then log "info"
                        "Found running qemu guest agent on VM and it has an IP address"
               else ret tt) ;;;
              ret (Return res)
            else
              time_sleep interval ;;; ret (Continue tt))
         tt ;;
  match r with
  | Return res => ret res
  | Continue _ =>
      raise (SaltCloudExecutionTimeout "Timeout to wait for VM status reached.")
  end.

Definition ask : M Env := fun E w => (Done (Ok E), w).

Definition is_None (v : PyVal) : bool :=
  match v with PNone => true | _ => false end.

(** [d[k] = v] where [k] is computed: lists and dictionaries are unhashable. *)
Definition store (d : list (PyVal * PyVal)) (k v : PyVal)
  : Result (list (PyVal * PyVal)) :=
  match k with
  | PList _ | PDict _ => Raise TypeError
  | _ => Ok (Py.dict_set d k v)
  end.

(** [x[k1][k2] = v] *)
Definition setitem2 (x : PyVal) (k1 k2 : string) (v : PyVal) : Result PyVal :=
  obind (Py.getitem x (PStr k1)) (fun inner =>
  obind (Py.setitem inner (PStr k2) v) (fun inner' =>
  Py.setitem x (PStr k1) inner')).

(** [x[k1][k2]] *)
Definition getitem2 (x : PyVal) (k1 k2 : string) : Result PyVal :=
  obind (Py.getitem x (PStr k1)) (fun inner => Py.getitem inner (PStr k2)).

(** [x[k1].pop(k2)] *)
Definition pop2 (x : PyVal) (k1 k2 : string) : Result PyVal :=
  obind (Py.getitem x (PStr k1)) (fun inner =>
    match inner with
    | PDict d =>
        match Py.dict_get d (PStr k2) with
        | Some _ => Py.setitem x (PStr k1) (PDict (Py.dict_remove d (PStr k2)))
        | None => Raise KeyError
        end
    | _ => Raise AttributeError
    end).

(** [_stringlist_to_dictionary(input_string)] *)
Definition _stringlist_to_dictionary (input_string : PyVal) : Result PyVal :=
  match input_string with
  | PStr s =>
      let items :=
        filter (fun item => negb (String.eqb item EmptyString)) (Py.split "," s) in
      obind (Py.dict_of_lists (map (fun item => Py.split "=" (Py.strip item)) items) [])
            (fun d => Ok (PDict d))
  | _ => Raise AttributeError
  end.

(** [[v for k, v in vm_config.items() if k.startswith(prefix)]] *)
Fixpoint values_with_prefix (prefix : string) (items : list (PyVal * PyVal))
  : Result (list PyVal) :=
  match items with
  | [] => Ok []
  | (PStr k, v) :: rest =>
      obind (values_with_prefix prefix rest) (fun l =>
        Ok (if String.prefix prefix k then v :: l else l))
  | _ :: _ => Raise AttributeError
  end.

(** The local variables of [_parse_ips] that its loop changes;
    [ip_with_netmask] has no value until the first assignment. *)
Record ParseIps : Type := mkParseIps {
  private_ips : list PyVal;
  public_ips : list PyVal;
  ip_with_netmask : option PyVal
}.

(** The [except ValueError] clause: it formats [ip_with_netmask]. *)
Definition ignore_invalid_ip (st : ParseIps) : M ParseIps :=
  match ip_with_netmask st with
  | None => raise UnboundLocalError
  | Some v =>
      log "error" ("Ignoring '" ++ PyStr.str v ++ "' because it is not a valid IP") ;;;
      ret st
  end.

(** One round of the loop of [_parse_ips]: the [try] block and its handler. *)
Definition parse_ip_config (ip_config : PyVal) (st : ParseIps) : M ParseIps :=
  E <- ask ;;
  match _stringlist_to_dictionary ip_config with
  | Ok d =>
      match Py.get d (PStr "ip") with
      | Ok v =>
          let st := mkParseIps (private_ips st) (public_ips st) (Some v) in
          match ip_interface E v with
          | Some ip =>
              if is_private ip
              then ret (mkParseIps (private_ips st ++ [PStr (ip_text ip)])
                                   (public_ips st) (ip_with_netmask st))
              else ret (mkParseIps (private_ips st)
                                   (public_ips st ++ [PStr (ip_text ip)])
                                   (ip_with_netmask st))
          | None => ignore_invalid_ip st
          end
      | Raise e => if is_ValueError e then ignore_invalid_ip st else raise e
      end
  | Raise e => if is_ValueError e then ignore_invalid_ip st else raise e
  end.

(** [_parse_ips(vm_config, vm_type)] *)
Definition _parse_ips (vm_config vm_type : PyVal) : M (list PyVal * list PyVal) :=
  match vm_config with
  | PDict items =>
      ip_configs <- lift (if Py.eq vm_type (PStr "lxc")
                          then values_with_prefix "net" items
                          else values_with_prefix "ipconfig" items) ;;
      st <- for_each ip_configs parse_ip_config (mkParseIps [] [] None) ;;
      ret (private_ips st, public_ips st)
  | _ => raise AttributeError
  end.

(** One round of the loop of [list_nodes] (lines 318-333). *)
Definition list_nodes_entry (vm : PyVal) (ret_ : list (PyVal * PyVal))
  : M (list (PyVal * PyVal)) :=
  has <- lift (Py.contains vm (PStr "name")) ;;
  if negb has then ret ret_ else
  n <- lift (Py.getitem vm (PStr "name")) ;;
  if negb (is_None n) then ret ret_ else
  n <- lift (Py.getitem vm (PStr "name")) ;;
  if Py.eq n (PStr EmptyString) then ret ret_ else
  name <- lift (Py.getitem vm (PStr "name")) ;;
  lift (store ret_ name (PDict [])) ;;;
  vmid <- lift (Py.getitem vm (PStr "vmid")) ;;
  let entry := [(PStr "id", PStr (PyStr.str vmid));
                (PStr "image", PStr EmptyString); (PStr "size", PStr EmptyString)] in
  status <- lift (Py.getitem vm (PStr "status")) ;;
  let entry := Py.dict_set entry (PStr "state") (PStr (PyStr.str status)) in
  a <- lift (vm_address vm) ;;
  let '(node, kind, vmid) := a in
  config <- _query "GET" (EpVmConfig node kind vmid) PNone ;;
  kind <- lift (Py.getitem vm (PStr "type")) ;;
  ips <- _parse_ips config kind ;;
  let entry := Py.dict_set entry (PStr "private_ips") (PList (fst ips)) in
  let entry := Py.dict_set entry (PStr "public_ips") (PList (snd ips)) in
  lift (store ret_ name (PDict entry)).

(** [list_nodes(call)] *)
Definition list_nodes (call : PyVal) : M PyVal :=
  vms <- _query "GET" EpClusterResources PNone ;;
  l <- lift (Py.iter vms) ;;
  ret_ <- for_each l list_nodes_entry [] ;;
  ret (PDict ret_).

(** [list_nodes_full(call)] *)
Definition list_nodes_full (call : PyVal) : M PyVal :=
  if Py.eq call (PStr "action") then
    raise (SaltCloudSystemExit
             "The list_nodes_full function must be called with -f or --function.")
  else
    vms <- _query "GET" EpClusterResources PNone ;;
    l <- lift (Py.iter vms) ;;
    ret_ <- for_each l
              (fun vm ret_ =>
                 name <- lift (Py.getitem vm (PStr "name")) ;;
                 a <- lift (vm_address vm) ;;
                 let '(node, kind, vmid) := a in
                 config <- _query "GET" (EpVmConfig node kind vmid) PNone ;;
                 ret_ <- lift (store ret_ name vm) ;;
                 vm' <- lift (Py.setitem vm (PStr "config") config) ;;
                 lift (store ret_ name vm'))
              [] ;;
    ret (PDict ret_).

(** [for k, v in d.items(): if k == name: return v] *)
Fixpoint first_with_key (d : list (PyVal * PyVal)) (name : PyVal) : option PyVal :=
  match d with
  | [] => None
  | (k, v) :: rest => if Py.eq k name then Some v else first_with_key rest name
  end.

(** [show_instance(name, call)] *)
Definition show_instance (name call : PyVal) : M PyVal :=
  if negb (Py.eq call (PStr "action")) then
    raise (SaltCloudSystemExit
             "The show_instance action must be called with -a or --action.")
  else
    full <- list_nodes_full PNone ;;
    match full with
    | PDict d =>
        match first_with_key d name with
        | Some v => ret v
        | None =>
            raise (SaltCloudNotFound
                     "The specified VM named '{name}' could not be found." name)
        end
    | _ => raise AttributeError
    end.

Definition action_result (state action : string) : PyVal :=
  PDict [(PStr "success", PBool true); (PStr "state", PStr state);
         (PStr "action", PStr action)].

(** [start(name, kwargs, call)] *)
Definition start (name kwargs call : PyVal) : M PyVal :=
  if negb (Py.eq call (PStr "action")) then
    raise (SaltCloudSystemExit "The start action must be called with -a or --action.")
  else
    _set_vm_status name "start" kwargs ;;;
    _wait_for_vm_status name (PStr "running") (seconds 300) (seconds 1) ;;;
    ret (action_result "running" "start").

(** [stop(name, kwargs, call)] *)
Definition stop (name kwargs call : PyVal) : M PyVal :=
  if negb (Py.eq call (PStr "action")) then
    raise (SaltCloudSystemExit "The stop action must be called with -a or --action.")
  else
    _set_vm_status name "stop" kwargs ;;;
    ret (action_result "stopped" "stop").

(** [shutdown(name, kwargs, call)] *)
Definition shutdown (name kwargs call : PyVal) : M PyVal :=
  if negb (Py.eq call (PStr "action")) then
    raise (SaltCloudSystemExit "The shutdown action must be called with -a or --action.")
  else
    _set_vm_status name "shutdown" kwargs ;;;
    _wait_for_vm_status name (PStr "stopped") (seconds 300) (seconds 1) ;;;
    ret (action_result "stopped" "shutdown").

(** [__utils__["cloud.fire_event"]("event", what, tag, args=...,
    sock_dir=__opts__["sock_dir"], transport=__opts__["transport"])] *)
Definition fire_event (what tag : string) (args : PyVal) : M unit :=
  opts_get "sock_dir" ;;;
  opts_get "transport" ;;;
  record (EvFire what tag args).

(** [destroy(name, kwargs, call)] *)
Definition destroy (name kwargs call : PyVal) : M unit :=
  if Py.eq call (PStr "function") then
    raise (SaltCloudSystemExit
             "The destroy action must be called with -d, --destroy, -a or --action.")
  else
    stop name kwargs call ;;;
    fire_event "destroying instance"
               ("salt/cloud/" ++ PyStr.str name ++ "/destroying")
               (PDict [(PStr "name", name)]) ;;;
    vm <- _get_vm_by_name name (seconds 1) 2 None ;;
    _wait_for_vm_status name (PStr "stopped") (seconds 20) (seconds 2) ;;;
    a <- lift (vm_address vm) ;;
    let '(node, kind, vmid) := a in
    _query "DELETE" (EpVm node kind vmid) kwargs ;;;
    fire_event "destroyed instance"
               ("salt/cloud/" ++ PyStr.str name ++ "/destroyed")
               (PDict [(PStr "name", name)]).

(** [clone(kwargs, call)] *)
Definition clone (kwargs call : PyVal) : M PyVal :=
  let kwargs := match kwargs with PDict _ => kwargs | _ => PDict [] end in
  vmid <- lift (Py.get kwargs (PStr "vmid")) ;;
  vm <- _get_vm_by_id vmid ;;
  node <- lift (Py.getitem vm (PStr "node")) ;;
  kind <- lift (Py.getitem vm (PStr "type")) ;;
  _query "POST" (EpVmClone node kind vmid) kwargs ;;;
  raise (SaltCloudExecutionTimeout "Timeout to wait for VM cloning reached").

(** [__utils__["cloud.wait_for_port"](host=..., port=22, timeout=300)] *)
Definition wait_for_port (host : PyVal) (port timeout : Z) : M PyVal :=
  fun E w =>
    let (r, d) := cloud_wait_for_port E (now w) (trace w) host port timeout in
    (Done r, mkWorld (now w + Z.pos d) (EvProbe host port :: trace w) (opts w)).

(** [__utils__["cloud.bootstrap"](vm_, __opts__)] *)
Definition bootstrap (vm_ : PyVal) : M PyVal :=
  fun E w =>
    (Done (cloud_bootstrap E vm_ (opts w)),
     mkWorld (now w) (EvBootstrap vm_ :: trace w) (opts w)).

(** Lines 853-857 of [create]: the ids of the inventory in the order they
    are listed, a call of [sorted] whose result is dropped, and the last
    element plus one. *)
Fixpoint collect_vmids (vmlist : list PyVal) : Result (list PyVal) :=
  match vmlist with
  | [] => Ok []
  | x :: rest =>
      obind (Py.getitem x (PStr "vmid")) (fun i =>
      obind (collect_vmids rest) (fun l => Ok (i :: l)))
  end.

Definition fresh_newid (vmlist : PyVal) : Result PyVal :=
  obind (Py.iter vmlist) (fun l =>
  obind (collect_vmids l) (fun tmpvmid =>
  obind (Py.sorted tmpvmid) (fun _ =>
  obind (Py.getitem (PList tmpvmid) (PInt (-1))) Py.add_one))).

(** Lines 846-865 of [create]: the path taken without clone options. *)
Definition create_fresh (vm_ : PyVal) : M PyVal :=
  newvmname <- lift (Py.getitem vm_ (PStr "name")) ;;
  image <- lift (Py.getitem vm_ (PStr "image")) ;;
  vm_ <- lift (Py.setitem vm_ (PStr "name") image) ;;
  vm_ <- lift (setitem2 vm_ "create" "name" newvmname) ;;
  vm_ <- lift (pop2 vm_ "create" "full") ;;
  vmlist <- _query "GET" EpClusterResources PNone ;;
  newid <- lift (fresh_newid vmlist) ;;
  vm_ <- lift (setitem2 vm_ "create" "newid" newid) ;;
  node <- lift (getitem2 vm_ "create" "node") ;;
  vmid <- lift (getitem2 vm_ "create" "vmid") ;;
  data <- lift (Py.getitem vm_ (PStr "create")) ;;
  res <- _query "POST" (EpVmClone node (PStr "qemu") vmid) data ;;
  if is_None res then raise SystemExit else ret vm_.

(** Lines 886-892 of [create]. *)
Definition require_result (vm_ res : PyVal) : M unit :=
  has <- lift (Py.contains res (PStr "result")) ;;
  if negb has then
    log "error"
        "No IP address found on new VM - Is qemu guest agent installed and set to run on VM template?" ;;;
    name <- lift (getitem2 vm_ "create" "name") ;;
    raise (SaltCloudNotFound
             "The specified VM with vmid '{name}' does not have an IP - cannot bootstrap."
             name)
  else ret tt.

(** Lines 898-901 of [create]: the addresses of one interface. *)
Definition note_ipv4 (i : PyVal) (_ : unit) : M unit :=
  has <- lift (Py.contains i (PStr "ip-address-type")) ;;
  if has then
    t <- lift (Py.getitem i (PStr "ip-address-type")) ;;
    if Py.eq t (PStr "ipv4") then
      a <- lift (Py.getitem i (PStr "ip-address")) ;;
      opts_set "ssh_host" a
    else ret tt
  else ret tt.

(** Lines 896-901 of [create]: one reported interface. *)
Definition note_interface (nic : PyVal) (_ : unit) : M unit :=
  hw <- lift (Py.getitem nic (PStr "hardware-address")) ;;
  if negb (Py.eq hw (PStr "00:00:00:00:00:00")) then
    ip <- lift (Py.getitem nic (PStr "ip-addresses")) ;;
    l <- lift (Py.iter ip) ;;
    for_each l note_ipv4 tt
  else ret tt.

(** Lines 895-901 of [create]: the loop over the reported interfaces. *)
Definition select_ssh_host (res : PyVal) : M unit :=
  result <- lift (Py.getitem res (PStr "result")) ;;
  nics <- lift (Py.iter result) ;;
  for_each nics note_interface tt.

(** Lines 904-912 of [create].  [time.Sleep] is not an attribute of the
    [time] module, so a round that does not break raises. *)
Fixpoint probe_ssh (rounds : list Z) : M unit :=
  match rounds with
  | [] => ret tt
  | _ :: rest =>
      host <- opts_get "ssh_host" ;;
      ssh_answers <- wait_for_port host 22 300 ;;
      match ssh_answers with
      | PBool true => ret tt
      | _ => (raise AttributeError : M unit) ;;; probe_ssh rest
      end
  end.

Definition created_fields : list string := ["name"; "profile"; "provider"; "driver"].

(** [create(vm_)] *)
Definition create (vm_ : PyVal) : M PyVal :=
  image_name <- lift (Py.get vm_ (PStr "image")) ;;
  image <- _get_vm_by_name image_name (seconds 1) 2 None ;;
  vm_ <- lift (Py.setitem vm_ (PStr "create") (PDict [])) ;;
  node <- lift (Py.getitem image (PStr "node")) ;;
  vm_ <- lift (setitem2 vm_ "create" "node" node) ;;
  vmid <- lift (Py.getitem image (PStr "vmid")) ;;
  vm_ <- lift (setitem2 vm_ "create" "vmid" vmid) ;;
  newid <- _query "GET" EpClusterNextId PNone ;;
  vm_ <- lift (setitem2 vm_ "create" "newid" newid) ;;
  vm_ <- lift (setitem2 vm_ "create" "full" (PBool true)) ;;
  newname <- lift (Py.getitem vm_ (PStr "name")) ;;
  vm_ <- lift (setitem2 vm_ "create" "name" newname) ;;
  E <- ask ;;
  fire_event "starting create"
             ("salt/cloud/" ++ PyStr.str newname ++ "/creating")
             (cloud_filter_event E "creating" vm_ created_fields) ;;;
  clone_options <- lift (Py.get vm_ (PStr "clone")) ;;
  let should_clone := Py.truthy clone_options in
  vm_ <- (if should_clone
          then clone clone_options (PStr "function") ;;; ret vm_
          else create_fresh vm_) ;;
  name <- lift (getitem2 vm_ "create" "name") ;;
  start name PNone (PStr "action") ;;;
  key <- lift (Py.get vm_ (PStr "ssh_private_key")) ;;
  vm_ <- (if is_None key then ret vm_
          else k <- lift (Py.get vm_ (PStr "ssh_key")) ;;
               lift (Py.setitem vm_ (PStr "private_key") k)) ;;
  u <- lift (Py.get vm_ (PStr "ssh_username")) ;;
  vm_ <- lift (Py.setitem vm_ (PStr "username") u) ;;
  h <- lift (Py.get vm_ (PStr "ssh_host")) ;;
  vm_ <- lift (Py.setitem vm_ (PStr "hostname") h) ;;
  name <- lift (getitem2 vm_ "create" "name") ;;
  _wait_for_vm_status name (PStr "running") (seconds 60) (seconds 2) ;;;
  name <- lift (getitem2 vm_ "create" "name") ;;
  res <- _wait_for_ip name (seconds 10) (seconds 2) ;;
  require_result vm_ res ;;;
  select_ssh_host res ;;;
  probe_ssh [1; 2; 3; 4; 5] ;;;
  name <- lift (getitem2 vm_ "create" "name") ;;
  vm_ <- lift (Py.setitem vm_ (PStr "name") name) ;;
  ret_ <- bootstrap vm_ ;;
  match ret_ with
  | PDict r =>
      name <- lift (getitem2 vm_ "create" "name") ;;
      shown <- show_instance name (PStr "action") ;;
      match shown with
      | PDict s =>
          let ret_ := PDict (Py.dict_update r s) in
          fire_event "created instance"
                     ("salt/cloud/" ++ PyStr.str name ++ "/created")
                     (cloud_filter_event E "created" vm_ created_fields) ;;;
          ret ret_
      | _ => raise TypeError
      end
  | _ => raise AttributeError
  end.

(** ** What an execution did, read off its record *)

Definition is_delete (ev : Event) : bool :=
  match ev with
  | EvRequest m _ _ _ => String.eqb m "DELETE"
  | _ => false
  end.

Definition is_status_poll (ev : Event) : bool :=
  match ev with
  | EvRequest _ (EpVmStatusCurrent _ _ _) _ _ => true
  | _ => false
  end.

Definition delete_issued (tr : list Event) : bool := existsb is_delete tr.
Definition status_polled (tr : list Event) : bool := existsb is_status_poll tr.

(** The payload of the most recent creation request. *)
Fixpoint submitted_clone (tr : list Event) : option PyVal :=
  match tr with
  | [] => None
  | EvRequest m (EpVmClone _ _ _) data _ :: older =>
      if String.eqb m "POST" then Some data else submitted_clone older
  | _ :: older => submitted_clone older
  end.

(** A world with the same clock and options and an empty record. *)
Definition fresh (w : World) : World := mkWorld (now w) [] (opts w).

(** ** Assumptions about the cluster *)

(** Every [method] request to [ep] is answered, and [_query] turns the
    answer into a value satisfying [P]. *)
Definition answers (E : Env) (method : string) (ep : Endpoint)
           (P : PyVal -> Prop) : Prop :=
  forall t h data,
    exists v, snd (query_result method (reply (http E t h method ep data))) = Ok v
              /\ P v.

(** The inventory is [vms], whenever it is asked for. *)
Definition lists (E : Env) (vms : list PyVal) : Prop :=
  answers E "GET" EpClusterResources (fun v => v = PList vms).

(** The status of a VM is, respectively is not, [status] whenever polled. *)
Definition always_reports (E : Env) (node kind vmid status : PyVal) : Prop :=
  answers E "GET" (EpVmStatusCurrent node kind vmid)
          (fun v => exists s, Py.getitem v (PStr "status") = Ok s
                              /\ Py.eq s status = true).

Definition never_reports (E : Env) (node kind vmid status : PyVal) : Prop :=
  answers E "GET" (EpVmStatusCurrent node kind vmid)
          (fun v => exists s, Py.getitem v (PStr "status") = Ok s
                              /\ Py.eq s status = false).

Definition poller_timeout : Exn :=
  SaltCloudExecutionTimeout "Timeout to wait for VM status reached.".

(** ** Guest-agent reports

    A report as the guest agent sends it: interfaces with a hardware
    address and a list of typed addresses, in report order. *)
Record Interface : Type := mkInterface {
  if_name : string;
  hardware_address : string;
  ip_addresses : list (string * string)     (* (ip-address-type, ip-address) *)
}.

Definition encode_address (a : string * string) : PyVal :=
  PDict [(PStr "ip-address-type", PStr (fst a)); (PStr "ip-address", PStr (snd a))].

Definition encode_interface (i : Interface) : PyVal :=
  PDict [(PStr "name", PStr (if_name i));
         (PStr "hardware-address", PStr (hardware_address i));
         (PStr "ip-addresses", PList (map encode_address (ip_addresses i)))].

Definition encode_report (nics : list Interface) : PyVal :=
  PDict [(PStr "result", PList (map encode_interface nics))].

Definition ipv4_of (addresses : list (string * string)) : list string :=
  map snd (filter (fun a => String.eqb (fst a) "ipv4") addresses).

(** The IPv4 addresses on interfaces whose hardware address is not the
    all-zero one, in report order. *)
Definition bootstrap_candidates (nics : list Interface) : list string :=
  flat_map (fun i => if String.eqb (hardware_address i) "00:00:00:00:00:00"
                     then [] else ipv4_of (ip_addresses i)) nics.

(** The world after [__opts__["ssh_host"] = a]. *)
Definition with_ssh_host (w : World) (a : string) : World :=
  mkWorld (now w) (trace w) (Py.dict_set (opts w) (PStr "ssh_host") (PStr a)).

(** ** A laboratory cluster

    A cluster whose answers depend on the endpoint only: a fixed inventory,
    one status for every VM, fixed answers of the guest agent and of the
    creation endpoint, and a fixed latency. *)
Module Lab.

Definition json (v : PyVal) : Transport :=
  Responded 200 (Some (PDict [(PStr "data", v)])).

Definition machine (vmid : Z) (name status : string) : PyVal :=
  PDict [(PStr "vmid", PInt vmid); (PStr "name", PStr name);
         (PStr "node", PStr "pve1"); (PStr "type", PStr "qemu");
         (PStr "status", PStr status)].

Record Cluster : Type := mkCluster {
  inventory : list PyVal;
  status : string;
  on_clone : Transport;
  agent : PyVal
}.

Definition serve (c : Cluster) (ep : Endpoint) : Transport :=
  match ep with
  | EpClusterResources => json (PList (inventory c))
  | EpClusterNextId => json (PStr "107")
  | EpVm _ _ _ => json PNone
  | EpVmConfig _ _ _ => json (PDict [(PStr "ipconfig0", PStr "ip=192.168.1.5/24")])
  | EpVmStatusCurrent _ _ _ => json (PDict [(PStr "status", PStr (status c))])
  | EpVmStatus _ _ _ _ => json (PStr "UPID:pve1:task")
  | EpVmClone _ _ _ => on_clone c
  | EpVmAgentInterfaces _ _ _ => json (agent c)
  end.

(** The answers of [ipaddress] on the addresses used below. *)
Definition ipaddress (v : PyVal) : option IPAddress :=
  match v with
  | PStr s =>
      if String.eqb s "192.168.1.5/24" then Some (mkIP "192.168.1.5" true)
      else if String.eqb s "8.8.8.8/32" then Some (mkIP "8.8.8.8" false)
      else None
  | _ => None
  end.

Definition env (c : Cluster) (ms : positive) : Env :=
  mkEnv (fun _ _ _ ep _ => mkExchange (serve c ep) ms)
        ipaddress
        (fun _ vm_ _ => vm_)
        (fun _ _ _ _ _ => (Ok (PBool true), 1%positive))
        (fun _ _ => Ok (PDict [(PStr "deployed", PBool true)])).

Definition three : list PyVal :=
  [machine 100 "tmpl-a" "stopped"; machine 105 "vm1" "running";
   machine 103 "db-1" "running"].

(** [vm1] stays in the state "running". *)
Definition stuck : Env :=
  env (mkCluster three "running" (json (PStr "UPID:pve1:clone")) PNone) 250.

(** Requests to the creation endpoint fail in transit. *)
Definition lossy : Env :=
  env (mkCluster three "running" RaisedRequestException PNone) 250.

(** [vm1] is stopped, and is reported so at every poll. *)
Definition halted : Env :=
  env (mkCluster [machine 105 "vm1" "stopped"] "stopped"
                 (json (PStr "UPID:pve1:clone")) PNone) 250.

Definition w0 : World :=
  mkWorld 0 [] [(PStr "sock_dir", PStr "/var/run/salt/master");
                (PStr "transport", PStr "zeromq")].

Definition vm1 : PyVal := machine 105 "vm1" "running".

(** [create] arguments: a profile without and with clone options. *)
Definition profile : PyVal :=
  PDict [(PStr "name", PStr "web-1"); (PStr "image", PStr "tmpl-a")].

Definition clone_profile : PyVal :=
  PDict [(PStr "name", PStr "web-1"); (PStr "image", PStr "tmpl-a");
         (PStr "clone", PDict [(PStr "vmid", PInt 100); (PStr "newid", PInt 200);
                               (PStr "name", PStr "web-1")])].

(** Guest-agent reports. *)
Definition loopback : Interface :=
  mkInterface "lo" "00:00:00:00:00:00" [("ipv4", "127.0.0.1")].

(** Two usable interfaces: the first IPv4 address in report order is
    10.0.0.5. *)
Definition two_addresses : list Interface :=
  [loopback;
   mkInterface "eth0" "bc:24:11:00:00:01" [("ipv4", "10.0.0.5"); ("ipv6", "fe80::1")];
   mkInterface "eth1" "bc:24:11:00:00:02" [("ipv4", "10.0.0.6")]].

(** No IPv4 address outside the loopback interface. *)
Definition no_ipv4 : list Interface :=
  [loopback; mkInterface "eth0" "bc:24:11:00:00:01" [("ipv6", "fe80::1")]].

(** [vm_] as [create] holds it when the report arrives. *)
Definition pending : PyVal :=
  PDict [(PStr "name", PStr "tmpl-a"); (PStr "image", PStr "tmpl-a");
         (PStr "create", PDict [(PStr "node", PStr "pve1"); (PStr "vmid", PInt 100);
                                (PStr "newid", PInt 104); (PStr "name", PStr "web-1")])].

End Lab.

(** ** Notions used in the statements *)

(** [evolves allowed w w']: from [w] to [w'] the clock did not go back,
    [__opts__] was left alone, and the record grew by events that all
    satisfy [allowed]. *)
Definition evolves (allowed : Event -> bool) (w w' : World) : Prop :=
  now w <= now w' /\ opts w' = opts w /\
  exists evs, trace w' = (evs ++ trace w)%list /\ forallb allowed evs = true.

(** Every execution of [m] is such an extension. *)
Definition emits (allowed : Event -> bool) {A} (m : M A) : Prop :=
  forall E w, evolves allowed w (snd (m E w)).

Definition is_request (ev : Event) : bool :=
  match ev with
  | EvRequest _ _ _ _ => true
  | _ => false
  end.

(** [allowed] lets every [method] request to [ep] through. *)
Definition permits (allowed : Event -> bool) (method : string) (ep : Endpoint) : Prop :=
  forall data r, allowed (EvRequest method ep data r) = true.

Definition not_delete (ev : Event) : bool := negb (is_delete ev).
Definition not_status_poll (ev : Event) : bool := negb (is_status_poll ev).
Definition anything (ev : Event) : bool := true.

(** Computations none of whose executions uses up a loop's budget. *)
Definition total {A} (m : M A) : Prop :=
  forall E w, fst (m E w) <> Diverge.

(** Computations that leave only allowed events and never return. *)
Definition halts (allowed : Event -> bool) {A} (m : M A) : Prop :=
  emits allowed m /\ forall E w v, fst (m E w) <> Ok v.

(** ** More of the driver *)

(** [reconfigure(name, kwargs)] *)
Definition reconfigure (name kwargs : PyVal) : M PyVal :=
  vm <- _get_vm_by_name name (seconds 1) 2 None ;;
  a <- lift (vm_address vm) ;;
  let '(node, kind, vmid) := a in
  _query "PUT" (EpVmConfig node kind vmid) kwargs ;;;
  ret (PDict [(PStr "success", PBool true); (PStr "action", PStr "reconfigure")]).

(** The body of the loop of [_get_vm_by_name] (lines 618-627) and the body
    of the loop of [list_nodes_full] (lines 359-363), by name. *)
Definition get_vm_by_name_round (name : PyVal) (interval : Z) (message : option string)
           (counter : Z) : M (Step Z PyVal) :=
  vms <- _query "GET" EpClusterResources PNone ;;
  l <- lift (Py.iter vms) ;;
  found <- lift (scan_by_name l name) ;;
  match found with
  | Some vm => ret (Return vm)
  | None =>
      match message with
      | Some _ => log "info" "Waiting for cloning to finish [%d/%d]"
      | None => ret tt
      end ;;;
      time_sleep interval ;;;
      ret (Continue (counter + 1))
  end.

Definition list_nodes_full_entry (vm : PyVal) (ret_ : list (PyVal * PyVal))
  : M (list (PyVal * PyVal)) :=
  name <- lift (Py.getitem vm (PStr "name")) ;;
  a <- lift (vm_address vm) ;;
  let '(node, kind, vmid) := a in
  config <- _query "GET" (EpVmConfig node kind vmid) PNone ;;
  ret_ <- lift (store ret_ name vm) ;;
  vm' <- lift (Py.setitem vm (PStr "config") config) ;;
  lift (store ret_ name vm').

(** The exceptions and results the driver builds. *)
Definition not_found_by_name (name : PyVal) : Exn :=
  SaltCloudNotFound "The specified VM with name '{name}' could not be found." name.

Definition not_found_by_id (vmid : PyVal) : Exn :=
  SaltCloudNotFound "The specified VM with vmid '{vmid}' could not be found." vmid.

Definition not_found_by_instance_name (name : PyVal) : Exn :=
  SaltCloudNotFound "The specified VM named '{name}' could not be found." name.

Definition cloning_timeout : Exn :=
  SaltCloudExecutionTimeout "Timeout to wait for VM cloning reached".

Definition reconfigured : PyVal :=
  PDict [(PStr "success", PBool true); (PStr "action", PStr "reconfigure")].

(** ** More to read off a record *)

Definition is_log (ev : Event) : bool :=
  match ev with
  | EvLog _ _ => true
  | _ => false
  end.

Definition is_probe (ev : Event) : bool :=
  match ev with
  | EvProbe _ _ => true
  | _ => false
  end.

Definition is_agent_request (ev : Event) : bool :=
  match ev with
  | EvRequest _ (EpVmAgentInterfaces _ _ _) _ _ => true
  | _ => false
  end.

(** How many events of a record satisfy [p]. *)
Definition count (p : Event -> bool) (tr : list Event) : nat :=
  List.length (filter p tr).

(** The lengths of the sleeps of a record. *)
Definition slept (tr : list Event) : list Z :=
  flat_map (fun ev => match ev with EvSleep ms => [ms] | _ => [] end) tr.

(** The requests of a record, without the answers they got. *)
Definition sent (tr : list Event) : list (string * Endpoint * PyVal) :=
  flat_map (fun ev => match ev with
                      | EvRequest m ep data _ => [(m, ep, data)]
                      | _ => []
                      end) tr.

Definition inventory_request : string * Endpoint * PyVal :=
  ("GET", EpClusterResources, PNone).

Definition query_error_log : Event := EvLog "error" "Error in query to %s\n%s\n%s\n".

(** The world after one request that took [d] milliseconds and was not
    logged, and after one that failed in transit and was. *)
Definition after_request (w : World) (method : string) (ep : Endpoint)
           (data : PyVal) (r : Transport) (d : positive) : World :=
  mkWorld (now w + Z.pos d) (EvRequest method ep data r :: trace w) (opts w).

Definition after_lost_request (w : World) (method : string) (ep : Endpoint)
           (data : PyVal) (d : positive) : World :=
  mkWorld (now w + Z.pos d)
          (query_error_log :: EvRequest method ep data RaisedRequestException :: trace w)
          (opts w).

(** Events of the part of [create] that comes before the guest agent is
    asked. *)
Definition before_agent (ev : Event) : bool :=
  negb (is_delete ev) && negb (is_agent_request ev).

(** Computations none of whose executions returns. *)
Definition never_returns {A} (m : M A) : Prop :=
  forall E w v, fst (m E w) <> Ok v.

(** ** More assumptions about the cluster *)

(** [vm[key] == value], respectively [vm[key] != value], without an
    exception. *)
Definition has_field (key : string) (value vm : PyVal) : Prop :=
  exists x, Py.getitem vm (PStr key) = Ok x /\ Py.eq x value = true.

Definition has_other_field (key : string) (value vm : PyVal) : Prop :=
  exists x, Py.getitem vm (PStr key) = Ok x /\ Py.eq x value = false.

(** [vm["name"]] is the string [s]. *)
Definition named (s : string) (vm : PyVal) : Prop :=
  Py.getitem vm (PStr "name") = Ok (PStr s).

(** An inventory entry as the cluster sends it: a dictionary with a name
    and the three fields the paths are built from. *)
Definition listable (vm : PyVal) : Prop :=
  exists d s a, vm = PDict d /\ named s vm /\ vm_address vm = Ok a.

(** The configuration of every VM can be read, and satisfies [P]. *)
Definition configured (E : Env) (P : PyVal -> Prop) : Prop :=
  forall node kind vmid, answers E "GET" (EpVmConfig node kind vmid) P.

(** Every [method] request to [ep] fails in transit. *)
Definition loses (E : Env) (method : string) (ep : Endpoint) : Prop :=
  forall t h data, reply (http E t h method ep data) = RaisedRequestException.

(** ** Stringlists

    What [_stringlist_to_dictionary] is meant to read: settings
    [key=value], joined by commas. *)

(** How often the character [c] occurs in [s]. *)
Fixpoint occurrences (c : ascii) (s : string) : nat :=
  match s with
  | EmptyString => 0
  | String x rest => (if Ascii.eqb x c then 1 else 0) + occurrences c rest
  end.





(** Every item between commas is empty or holds exactly one "=". *)
Definition is_stringlist (s : string) : bool :=
  forallb (fun item => String.eqb item EmptyString || Nat.eqb (occurrences "=" item) 1)
          (Py.split "," s).

(** ** The entries [_parse_ips] looks at *)

Definition ip_prefix (vm_type : PyVal) : string :=
  if Py.eq vm_type (PStr "lxc") then "net" else "ipconfig".

Definition selected (prefix : string) (items : list (PyVal * PyVal)) : list PyVal :=
  flat_map (fun kv => match fst kv with
                      | PStr k => if String.prefix prefix k then [snd kv] else []
                      | _ => []
                      end) items.

Definition string_keyed (items : list (PyVal * PyVal)) : Prop :=
  Forall (fun kv => exists k, fst kv = PStr k) items.





(** The first entry, if any, is a string that is not a stringlist. *)
Definition starts_unsplittable (ip_configs : list PyVal) : bool :=
  match ip_configs with
  | PStr s :: _ => negb (is_stringlist s)
  | _ => false
  end.

(** ** More laboratory clusters *)
Module Bench.

Definition collaborators (answer : Z -> list Event -> string -> Endpoint -> PyVal -> Exchange)
  : Env :=
  mkEnv answer
        Lab.ipaddress
        (fun _ vm_ _ => vm_)
        (fun _ _ _ _ _ => (Ok (PBool false), 1%positive))
        (fun _ _ => Ok (PDict [])).

(** Nothing answers, and the SSH port stays closed. *)
Definition offline : Env :=
  collaborators (fun _ _ _ _ _ => mkExchange RaisedRequestException 250).

(** Reads are answered as on [Lab.stuck]; every other request fails in
    transit. *)
Definition read_only : Env :=
  collaborators
    (fun _ _ method ep _ =>
       if String.eqb method "GET"
       then mkExchange
              (Lab.serve (Lab.mkCluster Lab.three "running" RaisedRequestException PNone) ep)
              250
       else mkExchange RaisedRequestException 250).

(** Every request is answered with status 500 and no JSON. *)
Definition failing : Env :=
  collaborators (fun _ _ _ _ _ => mkExchange (Responded 500 None) 250).

(** [__opts__] once an address has been chosen. *)
Definition w1 : World :=
  mkWorld 0 [] [(PStr "sock_dir", PStr "/var/run/salt/master");
                (PStr "transport", PStr "zeromq");
                (PStr "ssh_host", PStr "10.0.0.5")].

(** Two VMs of one name, on different nodes. *)
Definition twin (vmid : Z) (node : string) : PyVal :=
  PDict [(PStr "vmid", PInt vmid); (PStr "name", PStr "web");
         (PStr "node", PStr node); (PStr "type", PStr "qemu");
         (PStr "status", PStr "running")].

Definition twins : list PyVal := [twin 101 "pve1"; twin 102 "pve2"].

Definition twin_cluster : Env :=
  Lab.env (Lab.mkCluster twins "running" (Lab.json PNone) PNone) 250.

(** An entry whose name is [None], after one that is named, and the
    listing [list_nodes] makes of the two. *)
Definition nameless : PyVal :=
  PDict [(PStr "vmid", PInt 110); (PStr "name", PNone);
         (PStr "node", PStr "pve1"); (PStr "type", PStr "qemu");
         (PStr "status", PStr "stopped")].

Definition half_named : Env :=
  Lab.env (Lab.mkCluster [Lab.vm1; nameless] "running" (Lab.json PNone) PNone) 250.

Definition nameless_listing : list (PyVal * PyVal) :=
  [(PNone, PDict [(PStr "id", PStr "110"); (PStr "image", PStr EmptyString);
                  (PStr "size", PStr EmptyString); (PStr "state", PStr "stopped");
                  (PStr "private_ips", PList [PStr "192.168.1.5"]);
                  (PStr "public_ips", PList [])])].

(** A profile whose image the cluster does not list. *)
Definition ghost_profile : list (PyVal * PyVal) :=
  [(PStr "name", PStr "web-1"); (PStr "image", PStr "ghost")].

End Bench.

(** * Properties *)

(** Pairs are elaborated against the type expected of them, so that a
    [Result] stands where the [Outcome] of a run is expected. *)
#[local] Arguments pair {A B} & a b.

(** ** The monad, step by step *)

Lemma bind_ok {A B} (m : M A) (k : A -> M B) E w a w1 :
  m E w = (Ok a, w1) -> bind m k E w = k a E w1.
Proof. intros H; unfold bind; rewrite H; reflexivity. Qed.

Lemma bind_raise {A B} (m : M A) (k : A -> M B) E w e w1 :
  m E w = (Raise e, w1) -> bind m k E w = (Raise e, w1).
Proof. intros H; unfold bind; rewrite H; reflexivity. Qed.

Lemma bind_ok_inv {A B} (m : M A) (k : A -> M B) E w b w2 :
  bind m k E w = (Ok b, w2) ->
  exists a w1, m E w = (Ok a, w1) /\ k a E w1 = (Ok b, w2).
Proof.
  unfold bind; destruct (m E w) as [[[a | e] |] w1]; intros H;
    try discriminate; eauto.
Qed.

Lemma lift_ok_inv {A} (o : Result A) E w a w1 :
  lift o E w = (Ok a, w1) -> o = Ok a /\ w1 = w.
Proof. unfold lift; intros H; inversion H; auto. Qed.

Lemma time_time_inv E w t w1 :
  time_time E w = (Ok t, w1) -> t = now w /\ w1 = w.
Proof. unfold time_time; intros H; inversion H; auto. Qed.

Lemma surjective_run {A} (r : Outcome A * World) : r = (fst r, snd r).
Proof. destruct r; reflexivity. Qed.

Lemma evolves_refl allowed w : evolves allowed w w.
Proof.
  unfold evolves; repeat split; try lia.
  exists []; split; reflexivity.
Qed.

Lemma evolves_monotone allowed w w' : evolves allowed w w' -> now w <= now w'.
Proof. intros [H _]; exact H. Qed.

Lemma evolves_trans allowed w1 w2 w3 :
  evolves allowed w1 w2 -> evolves allowed w2 w3 -> evolves allowed w1 w3.
Proof.
  intros (Hn & Ho & l & Ht & Hl) (Hn' & Ho' & l' & Ht' & Hl').
  unfold evolves; repeat split; try lia; try congruence.
  exists (l' ++ l)%list; split.
  - rewrite Ht', Ht, app_assoc; reflexivity.
  - rewrite forallb_app, Hl, Hl'; reflexivity.
Qed.

Lemma evolves_event allowed w ev dt :
  allowed ev = true -> 0 <= dt ->
  evolves allowed w (mkWorld (now w + dt) (ev :: trace w) (opts w)).
Proof.
  intros Ha Hd; unfold evolves; simpl; repeat split; try lia.
  exists [ev]; split; [reflexivity | simpl; rewrite Ha; reflexivity].
Qed.

Lemma evolves_absent (bad allowed : Event -> bool) w w' :
  (forall ev, allowed ev = true -> bad ev = false) ->
  evolves allowed w w' ->
  existsb bad (trace w) = false -> existsb bad (trace w') = false.
Proof.
  intros Hb (_ & _ & l & Ht & Hl) Hw; rewrite Ht, existsb_app, Hw, orb_false_r.
  clear Ht; induction l as [| ev l IH]; simpl in *; [reflexivity |].
  apply andb_true_iff in Hl as [He Hl]; rewrite (Hb _ He), (IH Hl); reflexivity.
Qed.

Section Emits.

Variable allowed : Event -> bool.
Hypothesis quiet : forall ev, is_request ev = false -> allowed ev = true.

Lemma emits_ret {A} (a : A) : emits allowed (ret a).
Proof. intros E w; apply evolves_refl. Qed.

Lemma emits_raise {A} e : emits allowed (@raise A e).
Proof. intros E w; apply evolves_refl. Qed.

Lemma emits_lift {A} (o : Result A) : emits allowed (lift o).
Proof. intros E w; apply evolves_refl. Qed.

Lemma emits_ask : emits allowed ask.
Proof. intros E w; apply evolves_refl. Qed.

Lemma emits_time_time : emits allowed time_time.
Proof. intros E w; apply evolves_refl. Qed.

Lemma emits_opts_get k : emits allowed (opts_get k).
Proof.
  intros E w; unfold opts_get.
  destruct (Py.dict_get (opts w) (PStr k)); apply evolves_refl.
Qed.

Lemma emits_bind {A B} (m : M A) (k : A -> M B) :
  emits allowed m -> (forall a, emits allowed (k a)) -> emits allowed (bind m k).
Proof.
  intros Hm Hk E w; unfold bind.
  specialize (Hm E w); destruct (m E w) as [[[a | e] |] w1]; simpl in *; auto.
  eapply evolves_trans; [exact Hm | apply Hk].
Qed.

Lemma emits_record ev : allowed ev = true -> emits allowed (record ev).
Proof.
  intros Ha E w; unfold record; simpl.
  replace (now w) with (now w + 0) at 1 by lia.
  apply evolves_event; [assumption | lia].
Qed.

Lemma emits_tick ms : 0 <= ms -> emits allowed (tick ms).
Proof.
  intros Hd E w; unfold tick, evolves; simpl; repeat split; try lia.
  exists []; split; reflexivity.
Qed.

Lemma emits_time_sleep ms : emits allowed (time_sleep ms).
Proof.
  unfold time_sleep; destruct (ms <? 0) eqn:Hneg.
  - apply emits_raise.
  - apply emits_bind; [apply emits_record, quiet; reflexivity |].
    intros _; apply emits_tick; lia.
Qed.

Lemma emits_log level msg : emits allowed (log level msg).
Proof. apply emits_record, quiet; reflexivity. Qed.

Lemma emits_fire_event what tag args : emits allowed (fire_event what tag args).
Proof.
  unfold fire_event; repeat (apply emits_bind; [apply emits_opts_get | intros _]).
  apply emits_record, quiet; reflexivity.
Qed.

Lemma emits_query method ep data :
  permits allowed method ep -> emits allowed (_query method ep data).
Proof.
  intros Hp E w; unfold _query.
  set (x := http E (now w) (trace w) method ep data).
  destruct (query_result method (reply x)) as [[|] res]; simpl;
    unfold evolves; simpl; repeat split; try lia.
  - exists [EvLog "error" "Error in query to %s\n%s\n%s\n";
            EvRequest method ep data (reply x)].
    split; [reflexivity |]; simpl.
    rewrite Hp, quiet; reflexivity.
  - exists [EvRequest method ep data (reply x)].
    split; [reflexivity |]; simpl; rewrite Hp; reflexivity.
Qed.

Lemma emits_while_loop {St R} (cond : St -> M bool) (body : St -> M (Step St R)) :
  (forall s, emits allowed (cond s)) -> (forall s, emits allowed (body s)) ->
  forall budget s, emits allowed (while_loop budget cond body s).
Proof.
  intros Hc Hb; induction budget as [| n IH]; intros s; simpl.
  - intros E w; apply evolves_refl.
  - apply emits_bind; [apply Hc |]; intros [|]; [| apply emits_ret].
    apply emits_bind; [apply Hb |]; intros [s' | v]; [apply IH | apply emits_ret].
Qed.

Lemma emits_while_time_lt {St R} deadline (body : St -> M (Step St R)) s :
  (forall s, emits allowed (body s)) -> emits allowed (while_time_lt deadline body s).
Proof.
  intros Hb E w; unfold while_time_lt.
  apply emits_while_loop; [| exact Hb].
  intros s0; unfold before; apply emits_bind;
    [apply emits_time_time | intros t; apply emits_ret].
Qed.

Lemma emits_for_each {St} (body : PyVal -> St -> M St) :
  (forall x s, emits allowed (body x s)) ->
  forall l s, emits allowed (for_each l body s).
Proof.
  intros Hb; induction l as [| x l IH]; intros s; simpl.
  - apply emits_ret.
  - apply emits_bind; [apply Hb | exact (IH)].
Qed.

End Emits.

(** Decompose a computation along its binds, loops and case distinctions. *)
Ltac emit_structure :=
  repeat first
    [ apply emits_ret
    | apply emits_raise
    | apply emits_lift
    | apply emits_ask
    | apply emits_time_time
    | apply emits_opts_get
    | apply emits_bind; [| intro]
    | apply emits_while_time_lt; [assumption | intro]
    | apply emits_for_each; [intros |]
    | match goal with
      | |- emits _ (match ?x with _ => _ end) => destruct x
      end ].

Section EmitsDriver.

Variable allowed : Event -> bool.
Hypothesis quiet : forall ev, is_request ev = false -> allowed ev = true.

Ltac emit :=
  repeat first
    [ progress emit_structure
    | apply emits_time_sleep; assumption
    | apply emits_log; assumption
    | apply emits_fire_event; assumption
    | apply emits_query; [assumption | solve [auto]] ].

Lemma emits_get_vm_by_name name interval max message :
  permits allowed "GET" EpClusterResources ->
  emits allowed (_get_vm_by_name name interval max message).
Proof.
  intros Hinv; unfold _get_vm_by_name.
  apply emits_bind; [| intros [s | vm]; emit].
  apply emits_while_loop; [intros s; emit | intros s].
  emit.
Qed.

Lemma emits_get_vm_by_id vmid :
  permits allowed "GET" EpClusterResources ->
  emits allowed (_get_vm_by_id vmid).
Proof. intros Hinv; unfold _get_vm_by_id; emit. Qed.

Lemma emits_set_vm_status name status kwargs :
  permits allowed "GET" EpClusterResources ->
  (forall node kind vmid, permits allowed "POST" (EpVmStatus node kind vmid status)) ->
  emits allowed (_set_vm_status name status kwargs).
Proof.
  intros Hinv Hpost; unfold _set_vm_status.
  apply emits_bind; [apply emits_get_vm_by_name; assumption | intros vm].
  emit.
Qed.

Lemma emits_stop name kwargs call :
  permits allowed "GET" EpClusterResources ->
  (forall node kind vmid, permits allowed "POST" (EpVmStatus node kind vmid "stop")) ->
  emits allowed (stop name kwargs call).
Proof.
  intros Hinv Hpost; unfold stop.
  destruct (negb (Py.eq call (PStr "action"))); [apply emits_raise |].
  apply emits_bind; [apply emits_set_vm_status; assumption | intros _; emit].
Qed.

Lemma emits_fetch_status vm :
  (forall node kind vmid, permits allowed "GET" (EpVmStatusCurrent node kind vmid)) ->
  emits allowed (fetch_status vm).
Proof. intros Hst; unfold fetch_status; emit. Qed.

Lemma emits_wait_for_vm_status name status timeout interval :
  permits allowed "GET" EpClusterResources ->
  (forall node kind vmid, permits allowed "GET" (EpVmStatusCurrent node kind vmid)) ->
  emits allowed (_wait_for_vm_status name status timeout interval).
Proof.
  intros Hinv Hst; unfold _wait_for_vm_status.
  apply emits_bind; [apply emits_get_vm_by_name; assumption | intros vm].
  pose proof (emits_fetch_status vm Hst) as Hf.
  assert (H1 : forall s, emits allowed (fetch_once vm s))
    by (intros s; unfold fetch_once; emit; exact Hf).
  assert (H2 : forall s, emits allowed (fetch_twice vm s))
    by (intros s; unfold fetch_twice; emit; exact Hf).
  assert (H3 : forall s, emits allowed (fetch_and_compare vm status interval s)).
  { intros s; unfold fetch_and_compare.
    apply emits_bind; [exact Hf | intros r].
    apply emits_bind; [apply emits_lift | intros st].
    destruct (Py.eq st status); emit. }
  repeat (apply emits_bind;
          [first [apply emits_time_time
                 | apply emits_while_time_lt; assumption] | intro]).
  emit.
Qed.

End EmitsDriver.

(** ** Loops on the clock *)

Lemma while_time_lt_unfold {St R} deadline (body : St -> M (Step St R)) s E w :
  while_time_lt deadline body s E w =
  while_loop (S (Z.to_nat (deadline - now w))) (before deadline) body s E w.
Proof. reflexivity. Qed.

Lemma while_loop_S {St R} n (cond : St -> M bool) (body : St -> M (Step St R)) s :
  while_loop (S n) cond body s =
  (c <- cond s ;;
   if c then
     r <- body s ;;
     match r with
     | Continue s' => while_loop n cond body s'
     | Return v => ret (Return v)
     end
   else ret (Continue s)).
Proof. reflexivity. Qed.

Lemma before_run deadline {St} (s : St) E w :
  before deadline s E w = (Ok (now w <? deadline), w).
Proof. reflexivity. Qed.

(** A loop on the clock that is left at its head is left at or after the
    deadline. *)
Lemma while_loop_before_exit {St R} deadline (body : St -> M (Step St R)) :
  forall budget s E w s' w',
    while_loop budget (before deadline) body s E w = (Ok (Continue s'), w') ->
    deadline <= now w'.
Proof.
  induction budget as [| n IH]; intros s E w s' w' H.
  - discriminate.
  - rewrite while_loop_S in H.
    rewrite (bind_ok _ _ _ _ _ _ (before_run deadline s E w)) in H.
    destruct (now w <? deadline) eqn:Hlt.
    + apply bind_ok_inv in H as (r & w1 & Hb & H).
      destruct r as [s1 | v]; [eapply IH; exact H | discriminate].
    + inversion H; subst; apply Z.ltb_ge; exact Hlt.
Qed.

(** A body that never executes [return] leaves the loop at its head. *)
Lemma while_loop_falls_through {St R} (cond : St -> M bool) (body : St -> M (Step St R)) :
  (forall s E w r w', body s E w = (Ok r, w') -> exists s', r = Continue s') ->
  forall budget s E w r w',
    while_loop budget cond body s E w = (Ok r, w') -> exists s', r = Continue s'.
Proof.
  intros Hbody; induction budget as [| n IH]; intros s E w r w' H.
  - discriminate.
  - rewrite while_loop_S in H.
    apply bind_ok_inv in H as (c & w1 & Hc & H).
    destruct c.
    + apply bind_ok_inv in H as (r1 & w2 & Hb & H).
      destruct (Hbody _ _ _ _ _ Hb) as [s1 ->]; eapply IH; exact H.
    + inversion H; eauto.
Qed.

Lemma while_time_lt_exit {St R} deadline (body : St -> M (Step St R)) :
  (forall s E w r w', body s E w = (Ok r, w') -> exists s', r = Continue s') ->
  forall s E w r w',
    while_time_lt deadline body s E w = (Ok r, w') -> deadline <= now w'.
Proof.
  intros Hbody s E w r w' H; rewrite while_time_lt_unfold in H.
  destruct (while_loop_falls_through _ _ Hbody _ _ _ _ _ _ H) as [s' ->].
  eapply while_loop_before_exit; exact H.
Qed.

(** At or after the deadline the body is not entered. *)
Lemma while_time_lt_past {St R} deadline (body : St -> M (Step St R)) s E w :
  deadline <= now w ->
  while_time_lt deadline body s E w = (Ok (Continue s), w).
Proof.
  intros Hd; rewrite while_time_lt_unfold, while_loop_S.
  rewrite (bind_ok _ _ _ _ _ _ (before_run deadline s E w)).
  apply Z.ltb_ge in Hd; rewrite Hd; reflexivity.
Qed.

Lemma fetch_once_continues vm s E w r w' :
  fetch_once vm s E w = (Ok r, w') -> exists s', r = Continue s'.
Proof.
  unfold fetch_once; intros H.
  apply bind_ok_inv in H as (? & ? & _ & H); inversion H; eauto.
Qed.

Lemma fetch_twice_continues vm s E w r w' :
  fetch_twice vm s E w = (Ok r, w') -> exists s', r = Continue s'.
Proof.
  unfold fetch_twice; intros H.
  apply bind_ok_inv in H as (? & ? & _ & H).
  apply bind_ok_inv in H as (? & ? & _ & H); inversion H; eauto.
Qed.

(** The last three loops of [_wait_for_vm_status] share the [start_time] of
    the loop before them: once that loop is over, none of them is entered. *)
Lemma wait_tail_times_out vm status interval deadline E w :
  deadline <= now w ->
  (while_time_lt deadline (fetch_twice vm) tt ;;;
   r <- while_time_lt deadline (fetch_and_compare vm status interval) tt ;;
   match r with
   | Return v => ret v
   | Continue _ => raise poller_timeout
   end) E w = (Raise poller_timeout, w).
Proof.
  intros Hd.
  rewrite (bind_ok _ _ _ _ _ _ (while_time_lt_past deadline _ tt E w Hd)).
  rewrite (bind_ok _ _ _ _ _ _ (while_time_lt_past deadline _ tt E w Hd)).
  reflexivity.
Qed.

(** [_wait_for_vm_status] has no execution that returns. *)
Lemma wait_for_vm_status_never_returns name status timeout interval E w v :
  fst (_wait_for_vm_status name status timeout interval E w) <> Ok v.
Proof.
  intros H.
  rewrite (surjective_run (_wait_for_vm_status _ _ _ _ E w)) in H; simpl in H.
  remember (snd (_wait_for_vm_status name status timeout interval E w)) as wf eqn:Hwf.
  assert (Hrun : _wait_for_vm_status name status timeout interval E w = (Ok v, wf))
    by (rewrite (surjective_run (_wait_for_vm_status _ _ _ _ E w)), H, Hwf; reflexivity).
  clear H Hwf; unfold _wait_for_vm_status in Hrun.
  apply bind_ok_inv in Hrun as (vm & w1 & _ & Hrun).
  do 7 (apply bind_ok_inv in Hrun as (? & ? & _ & Hrun);
        apply bind_ok_inv in Hrun as (? & ? & _ & Hrun)).
  apply bind_ok_inv in Hrun as (st & w2 & Ht & Hrun).
  apply time_time_inv in Ht as [-> ->].
  apply bind_ok_inv in Hrun as (r & w3 & Hloop & Hrun).
  apply (while_time_lt_exit _ _ (fetch_twice_continues vm)) in Hloop.
  pose proof (wait_tail_times_out vm status interval _ E w3 Hloop) as Htail.
  unfold poller_timeout in Htail; rewrite Htail in Hrun; discriminate.
Qed.

(** ** Executions against a cluster that answers *)

Ltac splits := repeat match goal with |- _ /\ _ => split end.

Lemma query_run method ep data E w :
  fst (_query method ep data E w)
  = snd (query_result method (reply (http E (now w) (trace w) method ep data))) /\
  now (snd (_query method ep data E w))
  = now w + Z.pos (latency (http E (now w) (trace w) method ep data)).
Proof.
  unfold _query.
  destruct (query_result method (reply (http E (now w) (trace w) method ep data)))
    as [[|] res]; simpl; auto.
Qed.

Section Answered.

Variable allowed : Event -> bool.
Hypothesis quiet : forall ev, is_request ev = false -> allowed ev = true.
Variable E : Env.

Lemma query_answered method ep (P : PyVal -> Prop) data w :
  permits allowed method ep ->
  answers E method ep P ->
  exists v w', _query method ep data E w = (Ok v, w') /\ P v /\
               now w < now w' /\ evolves allowed w w'.
Proof.
  intros Hp Ha.
  destruct (Ha (now w) (trace w) data) as (v & Hv & HP).
  destruct (query_run method ep data E w) as [Hf Hn].
  pose proof (emits_query allowed quiet method ep data Hp E w) as He.
  exists v, (snd (_query method ep data E w)); splits; auto; try lia.
  rewrite (surjective_run (_query method ep data E w)), Hf, Hv; reflexivity.
Qed.

Lemma get_vm_by_name_finds vms name vm interval max message w :
  permits allowed "GET" EpClusterResources ->
  lists E vms ->
  scan_by_name vms name = Ok (Some vm) ->
  exists w', _get_vm_by_name name interval max message E w = (Ok vm, w') /\
             now w < now w' /\ evolves allowed w w'.
Proof.
  intros Hp Hl Hs.
  destruct (query_answered "GET" EpClusterResources _ PNone w Hp Hl)
    as (v & w' & Hq & -> & Hn & He).
  exists w'; splits; auto.
  unfold _get_vm_by_name.
  change (S (Z.to_nat (60 - 0))) with 61%nat; rewrite while_loop_S.
  unfold bind at 1; unfold bind at 1; simpl.
  unfold bind at 1; unfold bind at 1; rewrite Hq.
  unfold bind at 1; simpl; unfold bind at 1; simpl; rewrite Hs; reflexivity.
Qed.

Lemma fetch_status_answered vm node kind vmid (P : PyVal -> Prop) w :
  permits allowed "GET" (EpVmStatusCurrent node kind vmid) ->
  vm_address vm = Ok (node, kind, vmid) ->
  answers E "GET" (EpVmStatusCurrent node kind vmid) P ->
  exists v w', fetch_status vm E w = (Ok v, w') /\ P v /\
               now w < now w' /\ evolves allowed w w'.
Proof.
  intros Hp Ha Hs.
  destruct (query_answered "GET" _ P PNone w Hp Hs) as (v & w' & Hq & HP & Hn & He).
  exists v, w'; splits; auto.
  unfold fetch_status, bind, lift; rewrite Ha; exact Hq.
Qed.

(** A loop on the clock whose body always goes round and always takes
    time runs to its deadline. *)
Lemma while_loop_before_runs {St R} deadline (body : St -> M (Step St R)) :
  (forall s w, exists s' w', body s E w = (Ok (Continue s'), w') /\
                             now w < now w' /\ evolves allowed w w') ->
  forall budget s w,
    (Z.to_nat (deadline - now w) < budget)%nat ->
    exists s' w', while_loop budget (before deadline) body s E w
                  = (Ok (Continue s'), w') /\
                  deadline <= now w' /\ evolves allowed w w'.
Proof.
  intros Hbody; induction budget as [| n IH]; intros s w Hn; [lia |].
  rewrite while_loop_S, (bind_ok _ _ _ _ _ _ (before_run deadline s E w)).
  destruct (now w <? deadline) eqn:Hlt.
  - apply Z.ltb_lt in Hlt.
    destruct (Hbody s w) as (s1 & w1 & Hb & Hadv & He).
    rewrite (bind_ok _ _ _ _ _ _ Hb).
    destruct (IH s1 w1) as (s2 & w2 & Hrun & Hd & He2); [lia |].
    exists s2, w2; splits; auto.
    eapply evolves_trans; eassumption.
  - apply Z.ltb_ge in Hlt.
    exists s, w; splits; auto using evolves_refl.
Qed.

Lemma while_time_lt_runs {St R} deadline (body : St -> M (Step St R)) s w :
  (forall s w, exists s' w', body s E w = (Ok (Continue s'), w') /\
                             now w < now w' /\ evolves allowed w w') ->
  exists s' w', while_time_lt deadline body s E w = (Ok (Continue s'), w') /\
                deadline <= now w' /\ evolves allowed w w'.
Proof.
  intros Hbody; rewrite while_time_lt_unfold.
  apply while_loop_before_runs; [exact Hbody | lia].
Qed.

Section Polling.

Variables (vms : list PyVal) (name vm node kind vmid : PyVal).
Hypothesis inventory_allowed : permits allowed "GET" EpClusterResources.
Hypothesis poll_allowed : permits allowed "GET" (EpVmStatusCurrent node kind vmid).
Hypothesis listed : lists E vms.
Hypothesis found : scan_by_name vms name = Ok (Some vm).
Hypothesis address : vm_address vm = Ok (node, kind, vmid).
Hypothesis polled : answers E "GET" (EpVmStatusCurrent node kind vmid) (fun _ => True).

Lemma fetch_once_runs s w :
  exists s' w', fetch_once vm s E w = (Ok (Continue s'), w') /\
                now w < now w' /\ evolves allowed w w'.
Proof.
  destruct (fetch_status_answered vm node kind vmid _ w poll_allowed address polled)
    as (v & w1 & H1 & _ & Hn & He).
  exists tt, w1; splits; auto.
  unfold fetch_once; rewrite (bind_ok _ _ _ _ _ _ H1); reflexivity.
Qed.

Lemma fetch_twice_runs s w :
  exists s' w', fetch_twice vm s E w = (Ok (Continue s'), w') /\
                now w < now w' /\ evolves allowed w w'.
Proof.
  destruct (fetch_status_answered vm node kind vmid _ w poll_allowed address polled)
    as (v & w1 & H1 & _ & Hn & He).
  destruct (fetch_status_answered vm node kind vmid _ w1 poll_allowed address polled)
    as (v2 & w2 & H2 & _ & Hn2 & He2).
  exists tt, w2; splits; try lia.
  - unfold fetch_twice.
    rewrite (bind_ok _ _ _ _ _ _ H1), (bind_ok _ _ _ _ _ _ H2); reflexivity.
  - eapply evolves_trans; eassumption.
Qed.

(** One of the loops that take a new [start_time], followed by [k]. *)
Lemma timed_loop_runs (body : unit -> M (Step unit PyVal)) {B} (k : M B) timeout w
      (Q : Outcome B * World -> Prop) :
  (forall s w, exists s' w', body s E w = (Ok (Continue s'), w') /\
                             now w < now w' /\ evolves allowed w w') ->
  (forall w', now w + timeout <= now w' -> evolves allowed w w' -> Q (k E w')) ->
  Q ((start_time <- time_time ;;
      while_time_lt (start_time + timeout) body tt ;;; k) E w).
Proof.
  intros Hbody Hk.
  destruct (while_time_lt_runs (now w + timeout) body tt w Hbody)
    as (s' & w' & Hrun & Hd & He).
  unfold bind at 1; simpl; rewrite (bind_ok _ _ _ _ _ _ Hrun).
  apply Hk; assumption.
Qed.

(** Against a cluster that lists the VM and answers the polls,
    [_wait_for_vm_status] raises its timeout, whatever the polls say,
    and not before eight timeouts have passed. *)
Lemma wait_for_vm_status_runs_out status timeout interval w :
  exists w',
    _wait_for_vm_status name status timeout interval E w
    = (Raise poller_timeout, w') /\
    now w + 8 * timeout < now w' /\ now w < now w' /\
    evolves allowed w w'.
Proof.
  unfold _wait_for_vm_status.
  destruct (get_vm_by_name_finds vms name vm (seconds 5) 12
              (Some "Waiting for VM to be ready") w inventory_allowed listed found)
    as (w1 & H1 & Hn1 & He1).
  rewrite (bind_ok _ _ _ _ _ _ H1).
  pose proof fetch_once_runs as Ho; pose proof fetch_twice_runs as Ht.
  apply timed_loop_runs; [exact Ho | intros w2 Hn2 He2].
  apply timed_loop_runs; [exact Ho | intros w3 Hn3 He3].
  apply timed_loop_runs; [exact Ht | intros w4 Hn4 He4].
  apply timed_loop_runs; [exact Ho | intros w5 Hn5 He5].
  apply timed_loop_runs; [exact Ho | intros w6 Hn6 He6].
  apply timed_loop_runs; [exact Ho | intros w7 Hn7 He7].
  apply timed_loop_runs; [exact Ho | intros w8 Hn8 He8].
  unfold bind at 1, time_time at 1.
  destruct (while_time_lt_runs (now w8 + timeout) (fetch_twice vm) tt w8 Ht)
    as (s9 & w9 & Hrun & Hn9 & He9).
  rewrite (bind_ok _ _ _ _ _ _ Hrun).
  fold poller_timeout; rewrite (wait_tail_times_out vm status interval _ E w9 Hn9).
  assert (Hall : evolves allowed w w9)
    by (repeat (eapply evolves_trans; [eassumption |]); apply evolves_refl).
  apply evolves_monotone in He2, He3, He4, He5, He6, He7, He8, He9.
  exists w9; splits; trivial; lia.
Qed.

End Polling.

End Answered.

Lemma not_delete_quiet ev : is_request ev = false -> not_delete ev = true.
Proof. destruct ev; simpl; intros H; try reflexivity; discriminate. Qed.

Lemma not_status_poll_quiet ev : is_request ev = false -> not_status_poll ev = true.
Proof. destruct ev; simpl; intros H; try reflexivity; discriminate. Qed.

Lemma anything_quiet ev : is_request ev = false -> anything ev = true.
Proof. reflexivity. Qed.

Lemma answers_weaken E method ep (P Q : PyVal -> Prop) :
  (forall v, P v -> Q v) -> answers E method ep P -> answers E method ep Q.
Proof.
  intros HPQ Ha t h data; destruct (Ha t h data) as (v & Hv & HP); eauto.
Qed.

Lemma emits_bind_never allowed {A B} (m : M A) (k : A -> M B) :
  emits allowed m -> (forall E w v, fst (m E w) <> Ok v) -> emits allowed (bind m k).
Proof.
  intros Hm Hno E w; unfold bind.
  specialize (Hm E w); specialize (Hno E w).
  destruct (m E w) as [[[a | e] |] w1]; simpl in *; auto.
  exfalso; eapply Hno; reflexivity.
Qed.

Lemma evolves_from_fresh allowed (bad : Event -> bool) w w' :
  (forall ev, allowed ev = true -> bad ev = false) ->
  evolves allowed (fresh w) w' -> existsb bad (trace w') = false.
Proof.
  intros Hb He; eapply evolves_absent; [exact Hb | exact He | reflexivity].
Qed.

(** ** The status poller *)

(** C1 (the code departs from it).  The claim: a call of
    [_wait_for_vm_status] made when the VM already has the target status
    returns success at the first check.  The code: against a cluster that
    lists the VM and reports the target status at every poll, the call
    raises [SaltCloudExecutionTimeout], and at least eight times [timeout]
    have passed when it does. *)
Theorem wait_for_vm_status_at_target_times_out
        (E : Env) (w : World) (vms : list PyVal)
        (name vm node kind vmid status : PyVal) (timeout interval : Z) :
  lists E vms ->
  scan_by_name vms name = Ok (Some vm) ->
  vm_address vm = Ok (node, kind, vmid) ->
  always_reports E node kind vmid status ->
  fst (_wait_for_vm_status name status timeout interval E w) = Raise poller_timeout /\
  now w + 8 * timeout < now (snd (_wait_for_vm_status name status timeout interval E w)).
Proof.
  intros Hl Hs Ha Hr.
  destruct (wait_for_vm_status_runs_out anything anything_quiet E vms name vm node kind vmid
              ltac:(intros ? ?; reflexivity) ltac:(intros ? ?; reflexivity)
              Hl Hs Ha (answers_weaken _ _ _ _ _ (fun _ _ => I) Hr)
              status timeout interval w) as (w' & Hrun & Ht & _).
  rewrite Hrun; split; [reflexivity | exact Ht].
Qed.

(** C7 (the code departs from it).  The claim: a call whose target status
    is never observed fails with [SaltCloudExecutionTimeout] no earlier
    than [timeout] and no later than [timeout + interval] after it was
    entered.  The code: against a cluster that lists the VM and never
    reports the target status, the call does raise the timeout, but more
    than eight times [timeout] after it was entered, which is later than
    [timeout + interval] whenever [interval] is at most seven timeouts. *)
Theorem wait_for_vm_status_overruns_its_timeout
        (E : Env) (w : World) (vms : list PyVal)
        (name vm node kind vmid status : PyVal) (timeout interval : Z) :
  lists E vms ->
  scan_by_name vms name = Ok (Some vm) ->
  vm_address vm = Ok (node, kind, vmid) ->
  never_reports E node kind vmid status ->
  interval <= 7 * timeout ->
  fst (_wait_for_vm_status name status timeout interval E w) = Raise poller_timeout /\
  timeout + interval
  < now (snd (_wait_for_vm_status name status timeout interval E w)) - now w.
Proof.
  intros Hl Hs Ha Hr Hi.
  destruct (wait_for_vm_status_runs_out anything anything_quiet E vms name vm node kind vmid
              ltac:(intros ? ?; reflexivity) ltac:(intros ? ?; reflexivity)
              Hl Hs Ha (answers_weaken _ _ _ _ _ (fun _ _ => I) Hr)
              status timeout interval w) as (w' & Hrun & Ht & Hm & _).
  rewrite Hrun; split; [reflexivity | simpl; lia].
Qed.

(** ** Stopping and destroying *)

Lemma set_vm_status_never_polls name status kwargs :
  emits not_status_poll (_set_vm_status name status kwargs).
Proof.
  apply emits_set_vm_status;
    [exact not_status_poll_quiet | intros ? ?; reflexivity | intros ? ? ? ? ?; reflexivity].
Qed.

(** C6 (the code departs from it).  The claim: [stop] submits the stop
    action and then waits through the status poller for "stopped".  The
    code: no execution of [stop] sends a single status poll. *)
Theorem stop_never_polls_status (E : Env) (w : World) (name kwargs call : PyVal) :
  status_polled (trace (snd (stop name kwargs call E (fresh w)))) = false.
Proof.
  apply (evolves_from_fresh not_status_poll is_status_poll w).
  - intros ev H; unfold not_status_poll in H; apply negb_true_iff in H; exact H.
  - apply emits_stop;
      [exact not_status_poll_quiet | intros ? ?; reflexivity
      | intros ? ? ? ? ?; reflexivity].
Qed.

(** No execution of [destroy] sends a DELETE: the wait that precedes it
    does not return. *)
Lemma destroy_emits_no_delete name kwargs call :
  emits not_delete (destroy name kwargs call).
Proof.
  pose proof not_delete_quiet as Hq.
  assert (Hinv : permits not_delete "GET" EpClusterResources) by (intros ? ?; reflexivity).
  unfold destroy; destruct (Py.eq call (PStr "function")); [apply emits_raise |].
  apply emits_bind;
    [apply emits_stop; auto; intros ? ? ? ? ?; reflexivity | intros _].
  apply emits_bind; [apply emits_fire_event; exact Hq | intros _].
  apply emits_bind; [apply emits_get_vm_by_name; assumption | intros vm].
  apply emits_bind_never.
  - apply emits_wait_for_vm_status; auto; intros ? ? ? ? ?; reflexivity.
  - intros E w v; apply wait_for_vm_status_never_returns.
Qed.

Lemma fire_event_runs what tag args E w sock transport :
  Py.dict_get (opts w) (PStr "sock_dir") = Some sock ->
  Py.dict_get (opts w) (PStr "transport") = Some transport ->
  fire_event what tag args E w
  = (Ok tt, mkWorld (now w) (EvFire what tag args :: trace w) (opts w)).
Proof.
  intros Hs Ht; unfold fire_event, bind, opts_get; rewrite Hs, Ht; reflexivity.
Qed.

Section Destroying.

Variables (E : Env) (vms : list PyVal) (name vm node kind vmid : PyVal).
Hypothesis listed : lists E vms.
Hypothesis found : scan_by_name vms name = Ok (Some vm).
Hypothesis address : vm_address vm = Ok (node, kind, vmid).
Hypothesis stop_accepted :
  answers E "POST" (EpVmStatus node kind vmid "stop") (fun _ => True).

Lemma set_vm_status_stop_runs kwargs w :
  exists w', _set_vm_status name "stop" kwargs E w = (Ok tt, w') /\
             evolves not_delete w w'.
Proof.
  destruct (get_vm_by_name_finds not_delete not_delete_quiet E vms name vm
              (seconds 1) 2 None w ltac:(intros ? ?; reflexivity) listed found)
    as (w1 & H1 & _ & He1).
  destruct (query_answered not_delete not_delete_quiet E "POST"
              (EpVmStatus node kind vmid "stop") _ kwargs w1
              ltac:(intros ? ?; reflexivity) stop_accepted)
    as (v & w2 & H2 & _ & _ & He2).
  exists w2; split; [| eapply evolves_trans; eassumption].
  unfold _set_vm_status.
  rewrite (bind_ok _ _ _ _ _ _ H1).
  unfold bind at 1, lift at 1; rewrite address.
  rewrite (bind_ok _ _ _ _ _ _ H2); reflexivity.
Qed.

Lemma stop_by_action_runs kwargs w :
  exists w', stop name kwargs (PStr "action") E w
             = (Ok (action_result "stopped" "stop"), w') /\
             evolves not_delete w w'.
Proof.
  destruct (set_vm_status_stop_runs kwargs w) as (w1 & H1 & He1).
  exists w1; split; [| exact He1].
  unfold stop.
  replace (negb (Py.eq (PStr "action") (PStr "action"))) with false by reflexivity.
  rewrite (bind_ok _ _ _ _ _ _ H1); reflexivity.
Qed.

(** Called as an action, [destroy] gets as far as the wait, which gives up
    whatever the polls report. *)
Lemma destroy_by_action_gives_up kwargs w sock transport :
  Py.dict_get (opts w) (PStr "sock_dir") = Some sock ->
  Py.dict_get (opts w) (PStr "transport") = Some transport ->
  answers E "GET" (EpVmStatusCurrent node kind vmid) (fun _ => True) ->
  exists w', destroy name kwargs (PStr "action") E w = (Raise poller_timeout, w') /\
             now w + 8 * seconds 20 < now w'.
Proof.
  intros Hsock Htr Hpoll.
  destruct (stop_by_action_runs kwargs w) as (w1 & H1 & (Hn1 & Ho1 & _)).
  assert (Hf : forall what tag args,
             fire_event what tag args E w1
             = (Ok tt, mkWorld (now w1) (EvFire what tag args :: trace w1) (opts w1)))
    by (intros; eapply fire_event_runs; rewrite Ho1; eassumption).
  destruct (get_vm_by_name_finds anything anything_quiet E vms name vm
              (seconds 1) 2 None
              (mkWorld (now w1)
                 (EvFire "destroying instance"
                         ("salt/cloud/" ++ PyStr.str name ++ "/destroying")
                         (PDict [(PStr "name", name)]) :: trace w1) (opts w1))
              ltac:(intros ? ?; reflexivity) listed found)
    as (w3 & H3 & Hn3 & _).
  destruct (wait_for_vm_status_runs_out anything anything_quiet E vms name vm
              node kind vmid
              ltac:(intros ? ?; reflexivity) ltac:(intros ? ?; reflexivity)
              listed found address Hpoll (PStr "stopped") (seconds 20) (seconds 2) w3)
    as (w4 & H4 & Hn4 & _).
  exists w4; split; [| simpl in Hn3; lia].
  unfold destroy.
  replace (Py.eq (PStr "action") (PStr "function")) with false by reflexivity.
  rewrite (bind_ok _ _ _ _ _ _ H1), (bind_ok _ _ _ _ _ _ (Hf _ _ _)).
  rewrite (bind_ok _ _ _ _ _ _ H3), (bind_raise _ _ _ _ _ _ H4); reflexivity.
Qed.

End Destroying.

(** C3 (the code departs from it).  The claim: [destroy(name)] sends the
    DELETE only after the wait has seen the status "stopped", and raises
    [SaltCloudExecutionTimeout] without a DELETE when the status never
    gets there.  The code: called as the claim and the docstring call it,
    without a calling convention, [destroy] passes its own guard and hands
    its [call] on to [stop], whose guard refuses it: [SaltCloudSystemExit]
    is raised and the world is as it was, whatever the state of the VM.
    Under no calling convention does an execution send a DELETE.  Called
    as an action for a VM that the cluster lists and whose stop request it
    accepts, [destroy] raises the poller's timeout, more than eight times
    20 s after it was entered, whatever the status polls report: also when
    they report "stopped" every time. *)
Theorem destroy_never_deletes (E : Env) (w : World) (name kwargs call : PyVal) :
  destroy name kwargs PNone E (fresh w)
  = (Raise (SaltCloudSystemExit "The stop action must be called with -a or --action."),
     fresh w) /\
  delete_issued (trace (snd (destroy name kwargs call E (fresh w)))) = false /\
  forall vms vm node kind vmid sock transport,
    lists E vms ->
    scan_by_name vms name = Ok (Some vm) ->
    vm_address vm = Ok (node, kind, vmid) ->
    answers E "POST" (EpVmStatus node kind vmid "stop") (fun _ => True) ->
    Py.dict_get (opts w) (PStr "sock_dir") = Some sock ->
    Py.dict_get (opts w) (PStr "transport") = Some transport ->
    answers E "GET" (EpVmStatusCurrent node kind vmid) (fun _ => True) ->
    fst (destroy name kwargs (PStr "action") E (fresh w)) = Raise poller_timeout /\
    now w + 8 * seconds 20 < now (snd (destroy name kwargs (PStr "action") E (fresh w))).
Proof.
  split; [reflexivity | split].
  - apply (evolves_from_fresh not_delete is_delete w).
    + intros ev H; unfold not_delete in H; apply negb_true_iff in H; exact H.
    + apply destroy_emits_no_delete.
  - intros vms vm node kind vmid sock transport Hl Hs Ha Hp Hsock Htr Hpoll.
    destruct (destroy_by_action_gives_up E vms name vm node kind vmid Hl Hs Ha Hp
                kwargs (fresh w) sock transport Hsock Htr Hpoll) as (w' & Hrun & Hn).
    rewrite Hrun; split; [reflexivity | exact Hn].
Qed.

(** ** The theorems above, on the laboratory cluster *)

Lemma wait_for_vm_status_at_target_times_out_witness :
  always_reports Lab.stuck (PStr "pve1") (PStr "qemu") (PInt 105) (PStr "running") /\
  fst (_wait_for_vm_status (PStr "vm1") (PStr "running") (seconds 3) (seconds 1)
         Lab.stuck Lab.w0) = Raise poller_timeout /\
  now Lab.w0 + 8 * seconds 3
  < now (snd (_wait_for_vm_status (PStr "vm1") (PStr "running") (seconds 3) (seconds 1)
                Lab.stuck Lab.w0)).
Proof.
  assert (H : always_reports Lab.stuck (PStr "pve1") (PStr "qemu") (PInt 105)
                             (PStr "running")).
  { intros t h data; eexists; split; [reflexivity |].
    eexists; split; reflexivity. }
  split; [exact H |].
  apply (wait_for_vm_status_at_target_times_out Lab.stuck Lab.w0 Lab.three
           (PStr "vm1") Lab.vm1 (PStr "pve1") (PStr "qemu") (PInt 105)).
  - intros t h data; eexists; split; reflexivity.
  - reflexivity.
  - reflexivity.
  - exact H.
Defined.

Lemma wait_for_vm_status_overruns_its_timeout_witness :
  never_reports Lab.stuck (PStr "pve1") (PStr "qemu") (PInt 105) (PStr "stopped") /\
  fst (_wait_for_vm_status (PStr "vm1") (PStr "stopped") (seconds 20) (seconds 2)
         Lab.stuck Lab.w0) = Raise poller_timeout /\
  seconds 20 + seconds 2
  < now (snd (_wait_for_vm_status (PStr "vm1") (PStr "stopped") (seconds 20) (seconds 2)
                Lab.stuck Lab.w0)) - now Lab.w0.
Proof.
  assert (H : never_reports Lab.stuck (PStr "pve1") (PStr "qemu") (PInt 105)
                            (PStr "stopped")).
  { intros t h data; eexists; split; [reflexivity |].
    eexists; split; reflexivity. }
  split; [exact H |].
  apply (wait_for_vm_status_overruns_its_timeout Lab.stuck Lab.w0 Lab.three
           (PStr "vm1") Lab.vm1 (PStr "pve1") (PStr "qemu") (PInt 105)).
  - intros t h data; eexists; split; reflexivity.
  - reflexivity.
  - reflexivity.
  - exact H.
  - vm_compute; discriminate.
Defined.

(** On that cluster the wait of 20 s, polled every 2 s, ends after 160 s. *)
Example wait_for_vm_status_overruns :
  now (snd (_wait_for_vm_status (PStr "vm1") (PStr "stopped") (seconds 20) (seconds 2)
              Lab.stuck Lab.w0)) - now Lab.w0 = 160250.
Proof. vm_compute; reflexivity. Qed.

(** [destroy("vm1")] while vm1 stays "running", and [destroy("vm1",
    call="action")] for a vm1 that is "stopped" all along. *)
Lemma destroy_never_deletes_witness :
  never_reports Lab.stuck (PStr "pve1") (PStr "qemu") (PInt 105) (PStr "stopped") /\
  destroy (PStr "vm1") PNone PNone Lab.stuck (fresh Lab.w0)
  = (Raise (SaltCloudSystemExit "The stop action must be called with -a or --action."),
     fresh Lab.w0) /\
  always_reports Lab.halted (PStr "pve1") (PStr "qemu") (PInt 105) (PStr "stopped") /\
  delete_issued
    (trace (snd (destroy (PStr "vm1") PNone (PStr "action") Lab.halted (fresh Lab.w0))))
  = false /\
  fst (destroy (PStr "vm1") PNone (PStr "action") Lab.halted (fresh Lab.w0))
  = Raise poller_timeout /\
  now Lab.w0 + 8 * seconds 20
  < now (snd (destroy (PStr "vm1") PNone (PStr "action") Lab.halted (fresh Lab.w0))).
Proof.
  destruct (destroy_never_deletes Lab.stuck Lab.w0 (PStr "vm1") PNone PNone)
    as [Hrefused _].
  destruct (destroy_never_deletes Lab.halted Lab.w0 (PStr "vm1") PNone (PStr "action"))
    as (_ & Hnone & Hgives_up).
  split; [| split; [exact Hrefused | split; [| split; [exact Hnone |]]]].
  - intros t h data; eexists; split; [reflexivity |].
    eexists; split; reflexivity.
  - intros t h data; eexists; split; [reflexivity |].
    eexists; split; reflexivity.
  - apply (Hgives_up [Lab.machine 105 "vm1" "stopped"] (Lab.machine 105 "vm1" "stopped")
                     (PStr "pve1") (PStr "qemu") (PInt 105)
                     (PStr "/var/run/salt/master") (PStr "zeromq")).
    + intros t h data; eexists; split; reflexivity.
    + reflexivity.
    + reflexivity.
    + intros t h data; eexists; split; [reflexivity | exact I].
    + reflexivity.
    + reflexivity.
    + intros t h data; eexists; split; [reflexivity | exact I].
Defined.

(** ** Listing *)

Lemma list_nodes_entry_skips d n acc E w :
  Py.dict_get d (PStr "name") = Some n -> n <> PNone ->
  list_nodes_entry (PDict d) acc E w = (Ok acc, w).
Proof.
  intros Hd Hn; unfold list_nodes_entry, bind, lift; simpl.
  rewrite Hd; simpl.
  destruct n; try reflexivity; contradiction.
Qed.

Lemma list_nodes_loop_skips vms acc E w :
  Forall (fun vm => exists d n, vm = PDict d /\
                                Py.dict_get d (PStr "name") = Some n /\ n <> PNone) vms ->
  for_each vms list_nodes_entry acc E w = (Ok acc, w).
Proof.
  induction 1 as [| vm vms (d & n & -> & Hd & Hn) _ IH]; simpl; [reflexivity |].
  rewrite (bind_ok _ _ _ _ _ _ (list_nodes_entry_skips d n acc E w Hd Hn)); exact IH.
Qed.

(** C9.  When the inventory is a list of entries that all carry a name
    other than [None], [list_nodes] returns the empty dictionary, having
    sent nothing but the inventory request. *)
Theorem list_nodes_skips_named_entries (E : Env) (w : World) (call : PyVal)
        (vms : list PyVal) :
  fst (_query "GET" EpClusterResources PNone E w) = Ok (PList vms) ->
  Forall (fun vm => exists d n, vm = PDict d /\
                                Py.dict_get d (PStr "name") = Some n /\ n <> PNone) vms ->
  list_nodes call E w
  = (Ok (PDict []), snd (_query "GET" EpClusterResources PNone E w)).
Proof.
  intros Hq Hall; unfold list_nodes.
  assert (Hrun : _query "GET" EpClusterResources PNone E w
                 = (Ok (PList vms), snd (_query "GET" EpClusterResources PNone E w)))
    by (rewrite (surjective_run (_query _ _ _ E w)) at 1; rewrite Hq; reflexivity).
  rewrite (bind_ok _ _ _ _ _ _ Hrun).
  unfold bind at 1, lift at 1; simpl Py.iter; cbv iota.
  rewrite (bind_ok _ _ _ _ _ _ (list_nodes_loop_skips vms [] E _ Hall)); reflexivity.
Qed.

Lemma list_nodes_skips_named_entries_witness :
  list_nodes PNone Lab.stuck Lab.w0
  = (Ok (PDict []), snd (_query "GET" EpClusterResources PNone Lab.stuck Lab.w0)).
Proof.
  apply (list_nodes_skips_named_entries Lab.stuck Lab.w0 PNone Lab.three).
  - reflexivity.
  - repeat constructor;
      (eexists; eexists; split; [reflexivity | split; [reflexivity | discriminate]]).
Defined.

(** ** Parsing addresses *)



(** An entry that cannot be split into [key=value] pairs raises inside the
    [try] block before [ip_with_netmask] is assigned; as the first entry it
    makes the handler itself raise. *)
Lemma parse_ip_config_unbound ip_config st E w :
  ip_with_netmask st = None ->
  _stringlist_to_dictionary ip_config = Raise ValueError ->
  parse_ip_config ip_config st E w = (Raise UnboundLocalError, w).
Proof.
  intros Hu Hd; unfold parse_ip_config, bind, ask, ignore_invalid_ip.
  rewrite Hd, Hu; reflexivity.
Qed.

Example parse_ips_classifies :
  fst (_parse_ips (PDict [(PStr "ipconfig0", PStr "ip=192.168.1.5/24,gw=192.168.1.1");
                          (PStr "ipconfig1", PStr "ip=8.8.8.8/32");
                          (PStr "ipconfig2", PStr "ip=not-an-ip")])
                  (PStr "qemu") Lab.stuck Lab.w0)
  = Ok ([PStr "192.168.1.5"], [PStr "8.8.8.8"]).
Proof. reflexivity. Qed.

(** C8 (the code departs from it).  The claim: a malformed entry such as
    "not-an-ip" is skipped and logged, and no exception reaches the caller
    of [_parse_ips].  The code: when that entry is the first one of the
    configuration, [UnboundLocalError] reaches the caller, in every
    environment. *)
Theorem parse_ips_malformed_entry_escapes (E : Env) (w : World) :
  _parse_ips (PDict [(PStr "ipconfig0", PStr "not-an-ip")]) (PStr "qemu") E w
  = (Raise UnboundLocalError, w).
Proof. reflexivity. Qed.

(** ** Creating *)

(** The id the fresh path computes, for an inventory listed with integer
    ids: the id of the entry listed last, plus one. *)
Lemma sorted_ints (ids : list Z) : exists l, Py.sorted (map PInt ids) = Ok l.
Proof.
  assert (Hins : forall z l, Forall (fun v => exists i, v = PInt i) l ->
                   exists l', Py.insert_sorted (PInt z) l = Ok l' /\
                              Forall (fun v => exists i, v = PInt i) l').
  { intros z l Hl; induction Hl as [| x l [i ->] Hl IH]; simpl.
    - eexists; split; [reflexivity | repeat constructor; eauto].
    - destruct (z <? i).
      + eexists; split; [reflexivity | repeat constructor; eauto].
      + destruct IH as (l' & -> & Hl'); simpl.
        eexists; split; [reflexivity | constructor; eauto]. }
  assert (Hs : exists l, Py.sorted (map PInt ids) = Ok l /\
                         Forall (fun v => exists i, v = PInt i) l).
  { induction ids as [| z ids (l & Hl & Hf)]; simpl.
    - eexists; split; [reflexivity | constructor].
    - rewrite Hl; simpl; apply Hins; exact Hf. }
  destruct Hs as (l & Hl & _); eauto.
Qed.

Lemma seq_index_last {A} (l : list A) (x d : A) :
  Py.seq_index (l ++ [x]) (-1) = Some x.
Proof.
  unfold Py.seq_index; rewrite length_app; simpl List.length.
  replace (-1 <? 0) with true by reflexivity.
  replace (-1 + Z.of_nat (List.length l + 1)) with (Z.of_nat (List.length l)) by lia.
  replace ((0 <=? Z.of_nat (List.length l)) &&
           (Z.of_nat (List.length l) <? Z.of_nat (List.length l + 1))) with true
    by (symmetry; apply andb_true_iff; split; [apply Z.leb_le | apply Z.ltb_lt]; lia).
  rewrite Nat2Z.id, nth_error_app2, Nat.sub_diag by lia; reflexivity.
Qed.

Lemma collect_vmids_listed (entries : list (list (PyVal * PyVal))) (ids : list Z) :
  Forall2 (fun d i => Py.dict_get d (PStr "vmid") = Some (PInt i)) entries ids ->
  collect_vmids (map PDict entries) = Ok (map PInt ids).
Proof.
  induction 1 as [| d i entries ids Hd _ IH]; simpl; [reflexivity |].
  rewrite Hd; simpl; rewrite IH; reflexivity.
Qed.

Lemma fresh_newid_is_last_plus_one entries ids last_id :
  Forall2 (fun d i => Py.dict_get d (PStr "vmid") = Some (PInt i)) entries
          (ids ++ [last_id]) ->
  fresh_newid (PList (map PDict entries)) = Ok (PInt (last_id + 1)).
Proof.
  intros H; unfold fresh_newid; simpl Py.iter; simpl obind at 1.
  rewrite (collect_vmids_listed _ _ H); simpl obind at 1.
  destruct (sorted_ints (ids ++ [last_id])) as [l ->]; simpl obind at 1.
  unfold Py.getitem; rewrite map_app; simpl map.
  rewrite (seq_index_last _ _ PNone); reflexivity.
Qed.

(** C2 (the code departs from it).  The claim: the fresh path computes the
    new id as the maximum of the inventory ids plus one, 106 for the ids
    [100, 105, 103].  The code: for that inventory the computed id, and the
    [newid] of the creation request [create] sends, is 104. *)
Theorem create_fresh_newid_is_not_the_maximum :
  map (fun vm => Py.getitem vm (PStr "vmid")) Lab.three
  = [Ok (PInt 100); Ok (PInt 105); Ok (PInt 103)] /\
  fresh_newid (PList Lab.three) = Ok (PInt 104) /\
  match submitted_clone (trace (snd (create Lab.profile Lab.stuck Lab.w0))) with
  | Some data => Py.getitem data (PStr "newid")
  | None => Raise KeyError
  end = Ok (PInt 104).
Proof. split; [| split]; vm_compute; reflexivity. Qed.

(** The loop of lines 895-901 assigns [ssh_host] once for every candidate
    address, in report order, and raises nothing. *)
Lemma for_each_cons {St} x l (body : PyVal -> St -> M St) s :
  for_each (x :: l) body s = (s' <- body x s ;; for_each l body s').
Proof. reflexivity. Qed.

Lemma note_ipv4_loop addresses E w :
  for_each (map encode_address addresses) note_ipv4 tt E w
  = (Ok tt, fold_left with_ssh_host (ipv4_of addresses) w).
Proof.
  revert w; induction addresses as [| [kind value] l IH]; intros w; [reflexivity |].
  simpl map; rewrite for_each_cons.
  unfold ipv4_of; simpl filter.
  assert (Hstep : note_ipv4 (encode_address (kind, value)) tt E w
                  = (Ok tt, if String.eqb kind "ipv4" then with_ssh_host w value else w)).
  { unfold note_ipv4, bind, lift, opts_set, ret; simpl.
    destruct (String.eqb kind "ipv4"); reflexivity. }
  rewrite (bind_ok _ _ _ _ _ _ Hstep), IH.
  destruct (String.eqb kind "ipv4"); reflexivity.
Qed.

Lemma select_ssh_host_loop nics E w :
  for_each (map encode_interface nics) note_interface tt E w
  = (Ok tt, fold_left with_ssh_host (bootstrap_candidates nics) w).
Proof.
  revert w; induction nics as [| [name mac addresses] nics IH]; intros w; [reflexivity |].
  simpl map; rewrite for_each_cons.
  unfold bootstrap_candidates; simpl flat_map; fold (bootstrap_candidates nics).
  assert (Hstep : note_interface (encode_interface (mkInterface name mac addresses)) tt E w
                  = (Ok tt, if String.eqb mac "00:00:00:00:00:00" then w
                            else fold_left with_ssh_host (ipv4_of addresses) w)).
  { unfold note_interface, bind at 1, lift at 1; simpl Py.getitem; cbv iota.
    change (Py.eq (PStr mac) (PStr "00:00:00:00:00:00"))
      with (String.eqb mac "00:00:00:00:00:00").
    destruct (String.eqb mac "00:00:00:00:00:00"); simpl negb; cbv iota; [reflexivity |].
    unfold bind at 1, lift at 1; simpl Py.getitem; cbv iota.
    unfold bind at 1, lift at 1; simpl Py.iter; cbv iota.
    apply note_ipv4_loop. }
  rewrite (bind_ok _ _ _ _ _ _ Hstep), IH.
  destruct (String.eqb mac "00:00:00:00:00:00"); [reflexivity |].
  rewrite fold_left_app; reflexivity.
Qed.

(** For every report, lines 886-901 complete without an exception, and
    [ssh_host] has been assigned every candidate in turn. *)
Lemma select_ssh_host_runs vm_ nics E w :
  (require_result vm_ (encode_report nics) ;;; select_ssh_host (encode_report nics)) E w
  = (Ok tt, fold_left with_ssh_host (bootstrap_candidates nics) w).
Proof.
  unfold require_result, select_ssh_host, encode_report.
  unfold bind at 1, bind at 1, lift at 1; simpl Py.contains; cbv iota.
  simpl negb; cbv iota; unfold ret at 1; cbv beta iota.
  unfold bind at 1, lift at 1; simpl Py.getitem; cbv iota.
  unfold bind at 1, lift at 1; simpl Py.iter; cbv iota.
  apply select_ssh_host_loop.
Qed.


(** *** Dictionaries under assignment *)

Lemma eq_PStr_true k s : Py.eq k (PStr s) = true -> k = PStr s.
Proof.
  destruct k; simpl; try discriminate.
  intros H; apply String.eqb_eq in H; subst; reflexivity.
Qed.

Lemma dict_get_set_same d k v :
  Py.eq k k = true -> Py.dict_get (Py.dict_set d k v) k = Some v.
Proof.
  intros Hk; induction d as [| [k' v'] d IH]; simpl.
  - rewrite Hk; reflexivity.
  - destruct (Py.eq k' k) eqn:He; simpl; rewrite He; [reflexivity | exact IH].
Qed.

Lemma dict_get_set_other d s1 s v :
  s1 <> s ->
  Py.dict_get (Py.dict_set d (PStr s1) v) (PStr s) = Py.dict_get d (PStr s).
Proof.
  intros Hne; apply String.eqb_neq in Hne.
  induction d as [| [k' v'] d IH]; simpl.
  - rewrite Hne; reflexivity.
  - destruct (Py.eq k' (PStr s1)) eqn:H1; simpl.
    + apply eq_PStr_true in H1; subst k'; simpl; rewrite Hne; reflexivity.
    + destruct (Py.eq k' (PStr s)); [reflexivity | exact IH].
Qed.

Lemma get_after_setitem x s1 v x' s :
  Py.setitem x (PStr s1) v = Ok x' -> s1 <> s ->
  Py.get x' (PStr s) = Py.get x (PStr s).
Proof.
  destruct x; simpl; try discriminate.
  intros H Hne; inversion H; subst; simpl.
  rewrite dict_get_set_other by exact Hne; reflexivity.
Qed.

Lemma get_after_setitem2 x s1 s2 v x' s :
  setitem2 x s1 s2 v = Ok x' -> s1 <> s ->
  Py.get x' (PStr s) = Py.get x (PStr s).
Proof.
  unfold setitem2.
  destruct (Py.getitem x (PStr s1)) as [inner |]; simpl; try discriminate.
  destruct (Py.setitem inner (PStr s2) v) as [inner' |]; simpl; try discriminate.
  apply get_after_setitem.
Qed.

(** The candidate assigned last is the one that stays. *)
Lemma ssh_host_after_candidates candidates last_one w :
  Py.dict_get (opts (fold_left with_ssh_host (candidates ++ [last_one]) w))
              (PStr "ssh_host")
  = Some (PStr last_one).
Proof.
  rewrite fold_left_app; simpl.
  apply dict_get_set_same; reflexivity.
Qed.

(** C5 (the code departs from it).  The claim: the bootstrap address is the
    first IPv4 address on an interface whose hardware address is not all
    zeros, and a report without one makes [create] fail with
    [SaltCloudNotFound].  The code (lines 886-901), for every report: the
    lines complete without an exception; when there are candidates,
    [ssh_host] ends up as the last of them; when there are none, nothing
    is changed. *)
Theorem create_selects_last_ipv4_address
        (vm_ : PyVal) (nics : list Interface) (E : Env) (w : World) :
  fst ((require_result vm_ (encode_report nics) ;;;
        select_ssh_host (encode_report nics)) E w) = Ok tt /\
  (forall earlier last_one,
      bootstrap_candidates nics = (earlier ++ [last_one])%list ->
      Py.dict_get (opts (snd ((require_result vm_ (encode_report nics) ;;;
                               select_ssh_host (encode_report nics)) E w)))
                  (PStr "ssh_host")
      = Some (PStr last_one)) /\
  (bootstrap_candidates nics = [] ->
   snd ((require_result vm_ (encode_report nics) ;;;
         select_ssh_host (encode_report nics)) E w) = w).
Proof.
  rewrite select_ssh_host_runs; simpl fst; simpl snd.
  split; [reflexivity | split].
  - intros earlier last_one ->; apply ssh_host_after_candidates.
  - intros ->; reflexivity.
Qed.

Lemma create_selects_last_ipv4_address_witness :
  bootstrap_candidates Lab.two_addresses = ["10.0.0.5"; "10.0.0.6"] /\
  Py.dict_get (opts (snd ((require_result Lab.pending (encode_report Lab.two_addresses) ;;;
                           select_ssh_host (encode_report Lab.two_addresses))
                            Lab.stuck Lab.w0)))
              (PStr "ssh_host")
  = Some (PStr "10.0.0.6") /\
  bootstrap_candidates Lab.no_ipv4 = [] /\
  (require_result Lab.pending (encode_report Lab.no_ipv4) ;;;
   select_ssh_host (encode_report Lab.no_ipv4)) Lab.stuck Lab.w0
  = (Ok tt, Lab.w0).
Proof.
  destruct (create_selects_last_ipv4_address Lab.pending Lab.two_addresses
              Lab.stuck Lab.w0) as (_ & Hlast & _).
  destruct (create_selects_last_ipv4_address Lab.pending Lab.no_ipv4
              Lab.stuck Lab.w0) as (Hok & _ & Hnone).
  split; [reflexivity | split; [| split; [reflexivity |]]].
  - apply (Hlast ["10.0.0.5"] "10.0.0.6"); reflexivity.
  - rewrite (surjective_run (_ Lab.stuck Lab.w0)), Hok, (Hnone eq_refl); reflexivity.
Defined.

Lemma halts_bind_here allowed {A B} (m : M A) (k : A -> M B) :
  halts allowed m -> halts allowed (bind m k).
Proof.
  intros [He Hn]; split; [apply emits_bind_never; assumption |].
  intros E w v; unfold bind; specialize (Hn E w).
  destruct (m E w) as [[[a | e] |] w1]; simpl in *; try discriminate.
  exfalso; eapply Hn; reflexivity.
Qed.

Lemma halts_bind_later allowed {A B} (m : M A) (k : A -> M B) :
  emits allowed m -> (forall a, halts allowed (k a)) -> halts allowed (bind m k).
Proof.
  intros He Hk; split.
  - apply emits_bind; [exact He | intros a; apply Hk].
  - intros E w v; unfold bind.
    destruct (m E w) as [[[a | e] |] w1]; simpl; try discriminate.
    apply Hk.
Qed.

Lemma halts_bind_lift allowed {A B} (o : Result A) (k : A -> M B) :
  (forall a, o = Ok a -> halts allowed (k a)) -> halts allowed (bind (lift o) k).
Proof.
  intros Hk; split.
  - intros E w; unfold bind, lift; destruct o as [a | e]; simpl;
      try apply evolves_refl.
    apply (Hk a eq_refl).
  - intros E w v; unfold bind, lift; destruct o as [a | e]; simpl;
      try discriminate.
    apply (Hk a eq_refl).
Qed.

(** [clone] ends in an unconditional [raise]. *)
Lemma clone_never_returns kwargs call E w v : fst (clone kwargs call E w) <> Ok v.
Proof.
  intros H.
  assert (Hrun : clone kwargs call E w = (Ok v, snd (clone kwargs call E w)))
    by (rewrite (surjective_run (clone kwargs call E w)) at 1; rewrite H; reflexivity).
  unfold clone in Hrun.
  do 5 apply bind_ok_inv in Hrun as (? & ? & _ & Hrun).
  discriminate.
Qed.

Lemma clone_halts kwargs call : halts not_status_poll (clone kwargs call).
Proof.
  split; [| intros E w v; apply clone_never_returns].
  pose proof not_status_poll_quiet as Hq.
  unfold clone.
  apply emits_bind; [apply emits_lift | intros vmid].
  apply emits_bind;
    [apply emits_get_vm_by_id; [exact Hq | intros ? ?; reflexivity] | intros vm].
  apply emits_bind; [apply emits_lift | intros node].
  apply emits_bind; [apply emits_lift | intros kind].
  apply emits_bind;
    [apply emits_query; [exact Hq | intros ? ?; reflexivity] | intros _].
  apply emits_raise.
Qed.

Lemma create_with_clone_options_halts vm_ c :
  Py.get vm_ (PStr "clone") = Ok c -> Py.truthy c = true ->
  halts not_status_poll (create vm_).
Proof.
  intros Hc Ht; pose proof not_status_poll_quiet as Hq; unfold create.
  repeat first
    [ apply halts_bind_lift; intros ? ?
    | apply halts_bind_later;
      [ solve [ apply emits_ask
              | apply emits_get_vm_by_name; [exact Hq | intros ? ?; reflexivity]
              | apply emits_query; [exact Hq | intros ? ?; reflexivity]
              | apply emits_fire_event; exact Hq ]
      | intro ] ].
  repeat match goal with
         | H : setitem2 ?x _ _ _ = Ok ?y, H' : Py.get ?y (PStr "clone") = _ |- _ =>
             rewrite (get_after_setitem2 _ _ _ _ _ "clone" H) in H' by discriminate
         | H : Py.setitem ?x _ _ = Ok ?y, H' : Py.get ?y (PStr "clone") = _ |- _ =>
             rewrite (get_after_setitem _ _ _ _ "clone" H) in H' by discriminate
         end.
  match goal with
  | H : Py.get vm_ (PStr "clone") = Ok ?co |- _ =>
      rewrite Hc in H; inversion H; subst co
  end.
  rewrite Ht.
  apply halts_bind_here, halts_bind_here, clone_halts.
Qed.

(** C4 (the code departs from it).  The claim: on the clone path, once the
    clone request is submitted, [create] goes on to wait for "running".
    The code: when clone options are supplied, no execution of [create]
    returns, and none sends a status poll: [clone] raises after its
    request. *)
Theorem create_with_clone_options_never_polls
        (E : Env) (w : World) (vm_ c : PyVal) :
  Py.get vm_ (PStr "clone") = Ok c ->
  Py.truthy c = true ->
  (forall v, fst (create vm_ E (fresh w)) <> Ok v) /\
  status_polled (trace (snd (create vm_ E (fresh w)))) = false.
Proof.
  intros Hc Ht.
  destruct (create_with_clone_options_halts vm_ c Hc Ht) as [He Hn].
  split; [intros v; apply Hn |].
  apply (evolves_from_fresh not_status_poll is_status_poll w); [| apply He].
  intros ev H; unfold not_status_poll in H; apply negb_true_iff in H; exact H.
Qed.

Lemma create_with_clone_options_never_polls_witness :
  fst (create Lab.clone_profile Lab.stuck (fresh Lab.w0))
  = Raise (SaltCloudExecutionTimeout "Timeout to wait for VM cloning reached") /\
  (forall v, fst (create Lab.clone_profile Lab.stuck (fresh Lab.w0)) <> Ok v) /\
  status_polled (trace (snd (create Lab.clone_profile Lab.stuck (fresh Lab.w0)))) = false.
Proof.
  split; [reflexivity |].
  apply (create_with_clone_options_never_polls Lab.stuck Lab.w0 Lab.clone_profile
           (PDict [(PStr "vmid", PInt 100); (PStr "newid", PInt 200);
                   (PStr "name", PStr "web-1")])).
  - reflexivity.
  - reflexivity.
Defined.

(** *** The fresh path, step by step *)

Lemma bind_lift_ok {A B} (o : Result A) (k : A -> M B) a E w :
  o = Ok a -> bind (lift o) k E w = k a E w.
Proof. intros ->; reflexivity. Qed.

Lemma getitem_dict d k v : Py.dict_get d k = Some v -> Py.getitem (PDict d) k = Ok v.
Proof. intros H; simpl; rewrite H; reflexivity. Qed.

Lemma setitem2_dict d s1 s2 c v :
  Py.dict_get d (PStr s1) = Some (PDict c) ->
  setitem2 (PDict d) s1 s2 v
  = Ok (PDict (Py.dict_set d (PStr s1) (PDict (Py.dict_set c (PStr s2) v)))).
Proof. intros H; unfold setitem2; simpl; rewrite H; reflexivity. Qed.

Lemma getitem2_dict d s1 s2 c v :
  Py.dict_get d (PStr s1) = Some (PDict c) ->
  Py.dict_get c (PStr s2) = Some v ->
  getitem2 (PDict d) s1 s2 = Ok v.
Proof. intros H H2; unfold getitem2; simpl; rewrite H; simpl; rewrite H2; reflexivity. Qed.

Lemma pop2_dict d s1 s2 c v :
  Py.dict_get d (PStr s1) = Some (PDict c) ->
  Py.dict_get c (PStr s2) = Some v ->
  pop2 (PDict d) s1 s2
  = Ok (PDict (Py.dict_set d (PStr s1) (PDict (Py.dict_remove c (PStr s2))))).
Proof. intros H H2; unfold pop2; simpl; rewrite H; simpl; rewrite H2; reflexivity. Qed.

Lemma dict_get_remove_other d s1 s :
  s1 <> s ->
  Py.dict_get (Py.dict_remove d (PStr s1)) (PStr s) = Py.dict_get d (PStr s).
Proof.
  intros Hne; apply String.eqb_neq in Hne.
  induction d as [| [k' v'] d IH]; simpl; [reflexivity |].
  destruct (Py.eq k' (PStr s1)) eqn:H1; simpl.
  - apply eq_PStr_true in H1; subst k'; simpl; rewrite Hne; reflexivity.
  - destruct (Py.eq k' (PStr s)); [reflexivity | exact IH].
Qed.

Ltac dict_norm :=
  repeat first [ rewrite dict_get_set_same by reflexivity
               | rewrite dict_get_set_other by discriminate
               | rewrite dict_get_remove_other by discriminate ].

Lemma create_fresh_exits (E : Env) (w : World) (D c : list (PyVal * PyVal))
      (vms : list PyVal) (image_name newname node vmid newid full : PyVal) :
  Py.dict_get D (PStr "name") = Some newname ->
  Py.dict_get D (PStr "image") = Some image_name ->
  Py.dict_get D (PStr "create") = Some (PDict c) ->
  Py.dict_get c (PStr "full") = Some full ->
  Py.dict_get c (PStr "node") = Some node ->
  Py.dict_get c (PStr "vmid") = Some vmid ->
  lists E vms ->
  fresh_newid (PList vms) = Ok newid ->
  answers E "POST" (EpVmClone node (PStr "qemu") vmid) (fun v => v = PNone) ->
  exists w', create_fresh (PDict D) E w = (Raise SystemExit, w').
Proof.
  intros Hname Himage Hcreate Hfull Hnode Hvmid Hl Hnew Hlost.
  unfold create_fresh.
  erewrite bind_lift_ok by (apply getitem_dict; eassumption).
  erewrite bind_lift_ok by (apply getitem_dict; eassumption).
  erewrite bind_lift_ok by reflexivity.
  erewrite bind_lift_ok
    by (eapply (setitem2_dict _ "create" "name"); dict_norm; eassumption).
  erewrite bind_lift_ok
    by (eapply (pop2_dict _ "create" "full");
        [dict_norm; reflexivity | dict_norm; eassumption]).
  destruct (query_answered anything anything_quiet E "GET" EpClusterResources _ PNone w
              ltac:(intros ? ?; reflexivity) Hl) as (vmlist & w4 & H4 & -> & _).
  rewrite (bind_ok _ _ _ _ _ _ H4).
  erewrite bind_lift_ok by eassumption.
  erewrite bind_lift_ok
    by (eapply (setitem2_dict _ "create" "newid"); dict_norm; reflexivity).
  erewrite bind_lift_ok
    by (eapply getitem2_dict; [dict_norm; reflexivity | dict_norm; eassumption]).
  erewrite bind_lift_ok
    by (eapply getitem2_dict; [dict_norm; reflexivity | dict_norm; eassumption]).
  erewrite bind_lift_ok by (apply getitem_dict; dict_norm; reflexivity).
  match goal with |- context [_query "POST" ?ep ?data] =>
    destruct (query_answered anything anything_quiet E "POST" ep _ data w4
              ltac:(intros ? ?; reflexivity) Hlost) as (res & w5 & H5 & -> & _)
  end.
  rewrite (bind_ok _ _ _ _ _ _ H5).
  exists w5; reflexivity.
Qed.



(** C10.  On the fresh path, when the creation request gets no answer and
    [_query] hands back [None], [create] raises [SystemExit] (the effect of
    [sys.exit()]), not one of the driver's typed errors.  The assumptions
    describe an execution that reaches the request: the profile names the
    VM and its image and carries no clone options, the cluster lists the
    image, answers the request for the next id, and the inventory yields an
    id. *)
Theorem create_exits_when_creation_request_is_lost
        (E : Env) (w : World) (d : list (PyVal * PyVal)) (vms : list PyVal)
        (image_name newname image node vmid newid sock transport : PyVal) :
  Py.dict_get d (PStr "image") = Some image_name ->
  Py.dict_get d (PStr "name") = Some newname ->
  Py.truthy (match Py.dict_get d (PStr "clone") with Some c => c | None => PNone end)
  = false ->
  lists E vms ->
  scan_by_name vms image_name = Ok (Some image) ->
  Py.getitem image (PStr "node") = Ok node ->
  Py.getitem image (PStr "vmid") = Ok vmid ->
  answers E "GET" EpClusterNextId (fun _ => True) ->
  Py.dict_get (opts w) (PStr "sock_dir") = Some sock ->
  Py.dict_get (opts w) (PStr "transport") = Some transport ->
  fresh_newid (PList vms) = Ok newid ->
  answers E "POST" (EpVmClone node (PStr "qemu") vmid) (fun v => v = PNone) ->
  fst (create (PDict d) E w) = Raise SystemExit.
Proof.
  intros Himage Hname Hclone Hl Hscan Hnode Hvmid Hnext Hsock Htr Hnew Hlost.
  unfold create.
  erewrite bind_lift_ok by (simpl; rewrite Himage; reflexivity).
  destruct (get_vm_by_name_finds anything anything_quiet E vms image_name image
              (seconds 1) 2 None w ltac:(intros ? ?; reflexivity) Hl Hscan)
    as (w1 & H1 & _ & (_ & Ho1 & _)).
  rewrite (bind_ok _ _ _ _ _ _ H1).
  erewrite bind_lift_ok by reflexivity.
  erewrite bind_lift_ok by eassumption.
  erewrite bind_lift_ok
    by (eapply (setitem2_dict _ "create" "node"); dict_norm; reflexivity).
  erewrite bind_lift_ok by eassumption.
  erewrite bind_lift_ok
    by (eapply (setitem2_dict _ "create" "vmid"); dict_norm; reflexivity).
  destruct (query_answered anything anything_quiet E "GET" EpClusterNextId _ PNone w1
              ltac:(intros ? ?; reflexivity) Hnext)
    as (nextid & w2 & H2 & _ & _ & (_ & Ho2 & _)).
  rewrite (bind_ok _ _ _ _ _ _ H2).
  erewrite bind_lift_ok
    by (eapply (setitem2_dict _ "create" "newid"); dict_norm; reflexivity).
  erewrite bind_lift_ok
    by (eapply (setitem2_dict _ "create" "full"); dict_norm; reflexivity).
  erewrite bind_lift_ok by (apply getitem_dict; dict_norm; eassumption).
  erewrite bind_lift_ok
    by (eapply (setitem2_dict _ "create" "name"); dict_norm; reflexivity).
  unfold bind at 1, ask at 1.
  assert (Hf : forall what tag args,
             fire_event what tag args E w2
             = (Ok tt, mkWorld (now w2) (EvFire what tag args :: trace w2) (opts w2)))
    by (intros; eapply fire_event_runs; rewrite Ho2, Ho1; eassumption).
  rewrite (bind_ok _ _ _ _ _ _ (Hf _ _ _)).
  erewrite bind_lift_ok by (simpl Py.get; dict_norm; reflexivity).
  rewrite Hclone.
  match goal with
  | |- context [create_fresh (PDict ?D) ] =>
      match goal with
      | |- context [bind _ _ E ?w3] =>
          destruct (create_fresh_exits E w3 D _ vms image_name newname node vmid newid
                      (PBool true)
                      ltac:(dict_norm; eassumption) ltac:(dict_norm; eassumption)
                      ltac:(dict_norm; reflexivity)
                      ltac:(dict_norm; reflexivity) ltac:(dict_norm; reflexivity)
                      ltac:(dict_norm; reflexivity) Hl Hnew Hlost) as (w4 & H4)
      end
  end.
  rewrite (bind_raise _ _ _ _ _ _ H4); reflexivity.
Qed.

Lemma create_exits_when_creation_request_is_lost_witness :
  answers Lab.lossy "POST" (EpVmClone (PStr "pve1") (PStr "qemu") (PInt 100))
          (fun v => v = PNone) /\
  fst (create Lab.profile Lab.lossy Lab.w0) = Raise SystemExit.
Proof.
  assert (H : answers Lab.lossy "POST" (EpVmClone (PStr "pve1") (PStr "qemu") (PInt 100))
                      (fun v => v = PNone))
    by (intros t h data; eexists; split; reflexivity).
  split; [exact H |].
  apply (create_exits_when_creation_request_is_lost Lab.lossy Lab.w0
           [(PStr "name", PStr "web-1"); (PStr "image", PStr "tmpl-a")]
           Lab.three (PStr "tmpl-a") (PStr "web-1") (Lab.machine 100 "tmpl-a" "stopped")
           (PStr "pve1") (PInt 100) (PInt 104)
           (PStr "/var/run/salt/master") (PStr "zeromq")).
  - reflexivity.
  - reflexivity.
  - reflexivity.
  - intros t h data; eexists; split; reflexivity.
  - reflexivity.
  - reflexivity.
  - reflexivity.
  - intros t h data; eexists; split; [reflexivity | exact I].
  - reflexivity.
  - reflexivity.
  - reflexivity.
  - exact H.
Defined.

(** ** No execution uses up a loop's budget

    [Diverge] is produced by a loop that has used up its budget, and by
    nothing else.  The budgets are chosen so that this does not happen:
    the loops on the clock are given the distance to their deadline in
    milliseconds and every round they complete takes at least one, and the
    loop of [_get_vm_by_name] counts to 60. *)

Lemma total_ret {A} (a : A) : total (ret a).
Proof. intros E w; discriminate. Qed.

Lemma total_raise {A} e : total (@raise A e).
Proof. intros E w; discriminate. Qed.

Lemma total_lift {A} (o : Result A) : total (lift o).
Proof. intros E w; discriminate. Qed.

Lemma total_ask : total ask.
Proof. intros E w; discriminate. Qed.

Lemma total_time_time : total time_time.
Proof. intros E w; discriminate. Qed.

Lemma total_record ev : total (record ev).
Proof. intros E w; discriminate. Qed.

Lemma total_tick ms : total (tick ms).
Proof. intros E w; discriminate. Qed.

Lemma total_opts_get k : total (opts_get k).
Proof.
  intros E w; unfold opts_get.
  destruct (Py.dict_get (opts w) (PStr k)); discriminate.
Qed.

Lemma total_opts_set k v : total (opts_set k v).
Proof. intros E w; discriminate. Qed.

Lemma total_query method ep data : total (_query method ep data).
Proof.
  intros E w; unfold _query.
  destruct (query_result method (reply (http E (now w) (trace w) method ep data)));
    discriminate.
Qed.

Lemma total_wait_for_port host port timeout : total (wait_for_port host port timeout).
Proof.
  intros E w; unfold wait_for_port.
  destruct (cloud_wait_for_port E (now w) (trace w) host port timeout); discriminate.
Qed.

Lemma total_bootstrap vm_ : total (bootstrap vm_).
Proof. intros E w; discriminate. Qed.

Lemma total_bind {A B} (m : M A) (k : A -> M B) :
  total m -> (forall a, total (k a)) -> total (bind m k).
Proof.
  intros Hm Hk E w; unfold bind; specialize (Hm E w).
  destruct (m E w) as [[[a | e] |] w1]; simpl in *;
    [apply Hk | discriminate | exfalso; apply Hm; reflexivity].
Qed.

Lemma total_for_each {St} (body : PyVal -> St -> M St) :
  (forall x s, total (body x s)) -> forall l s, total (for_each l body s).
Proof.
  intros Hb; induction l as [| x l IH]; intros s; simpl.
  - apply total_ret.
  - apply total_bind; [apply Hb | exact IH].
Qed.

(** A loop whose rounds decrease a measure stays within any budget above
    the measure. *)
Lemma while_loop_total {St R} (cond : St -> M bool) (body : St -> M (Step St R))
      (measure : St -> World -> nat) :
  (forall s, total (cond s)) ->
  (forall s, total (body s)) ->
  (forall s E w w1 s' w2,
      cond s E w = (Ok true, w1) -> body s E w1 = (Ok (Continue s'), w2) ->
      (measure s' w2 < measure s w)%nat) ->
  forall budget s E w,
    (measure s w < budget)%nat ->
    fst (while_loop budget cond body s E w) <> Diverge.
Proof.
  intros Hc Hb Hdec; induction budget as [| n IH]; intros s E w Hm; [lia |].
  rewrite while_loop_S; unfold bind at 1.
  pose proof (Hc s E w) as Hcs.
  destruct (cond s E w) as [[[[|] | e] |] w1] eqn:Hcond; simpl in *;
    try discriminate; try contradiction.
  unfold bind at 1; pose proof (Hb s E w1) as Hbs.
  destruct (body s E w1) as [[[[s' | v] | e] |] w2] eqn:Hbody; simpl in *;
    try discriminate; try contradiction.
  apply IH; specialize (Hdec _ _ _ _ _ _ Hcond Hbody); lia.
Qed.

Lemma while_time_lt_total {St R} deadline (body : St -> M (Step St R)) s :
  (forall s, total (body s)) ->
  (forall s E w s' w', body s E w = (Ok (Continue s'), w') -> now w < now w') ->
  total (while_time_lt deadline body s).
Proof.
  intros Hb Hadv E w; rewrite while_time_lt_unfold.
  apply (while_loop_total _ _ (fun _ w => Z.to_nat (deadline - now w))).
  - intros s0 E0 w0; discriminate.
  - exact Hb.
  - intros s0 E0 w0 w1 s' w2 Hc Hbody; rewrite before_run in Hc.
    inversion Hc; subst w1.
    match goal with H : (now w0 <? deadline) = true |- _ => apply Z.ltb_lt in H end.
    specialize (Hadv _ _ _ _ _ Hbody); lia.
  - lia.
Qed.

(** A request takes time, and nothing turns the clock back. *)
Lemma query_advances method ep data E w v w' :
  _query method ep data E w = (Ok v, w') -> now w < now w'.
Proof.
  intros H; destruct (query_run method ep data E w) as [_ Hn].
  rewrite H in Hn; simpl in Hn; lia.
Qed.

Lemma fetch_status_advances vm E w v w' :
  fetch_status vm E w = (Ok v, w') -> now w < now w'.
Proof.
  unfold fetch_status; intros H.
  apply bind_ok_inv in H as ([[node kind] vmid] & w1 & Hl & H).
  apply lift_ok_inv in Hl as [_ ->].
  eapply query_advances; exact H.
Qed.

Ltac total_step :=
  lazymatch goal with
  | |- total (ret _) => apply total_ret
  | |- total (raise _) => apply total_raise
  | |- total (lift _) => apply total_lift
  | |- total ask => apply total_ask
  | |- total time_time => apply total_time_time
  | |- total (record _) => apply total_record
  | |- total (tick _) => apply total_tick
  | |- total (opts_get _) => apply total_opts_get
  | |- total (opts_set _ _) => apply total_opts_set
  | |- total (_query _ _ _) => apply total_query
  | |- total (wait_for_port _ _ _) => apply total_wait_for_port
  | |- total (bootstrap _) => apply total_bootstrap
  | |- total (bind _ _) => apply total_bind; [| intro]
  | |- total (for_each _ _ _) => apply total_for_each; intros
  | |- total (match ?x with _ => _ end) => destruct x
  | |- total (let _ := _ in _) => cbv zeta
  end.

Ltac total_structure := repeat total_step.

Lemma total_time_sleep ms : total (time_sleep ms).
Proof. unfold time_sleep; total_structure. Qed.

Lemma total_log level msg : total (log level msg).
Proof. apply total_record. Qed.

Lemma total_fire_event what tag args : total (fire_event what tag args).
Proof. unfold fire_event; total_structure. Qed.

Lemma total_get_vm_by_name name interval max message :
  total (_get_vm_by_name name interval max message).
Proof.
  unfold _get_vm_by_name.
  apply total_bind; [| intros [s | vm]; total_structure].
  intros E w.
  apply (while_loop_total _ _ (fun counter _ => Z.to_nat (60 - counter))).
  - intros s; apply total_ret.
  - intros s; total_structure; first [apply total_log | apply total_time_sleep].
  - intros counter E0 w0 w1 counter' w2 Hc Hb.
    assert (Hlt : counter < 60)
      by (apply Z.ltb_lt; unfold ret in Hc; inversion Hc; reflexivity).
    assert (w1 = w0) by (unfold ret in Hc; inversion Hc; reflexivity); subst w1.
    apply bind_ok_inv in Hb as (vms & w3 & _ & Hb).
    apply bind_ok_inv in Hb as (l & w4 & _ & Hb).
    apply bind_ok_inv in Hb as ([vm |] & w5 & _ & Hb); [discriminate |].
    apply bind_ok_inv in Hb as (? & ? & _ & Hb).
    apply bind_ok_inv in Hb as (? & ? & _ & Hb).
    inversion Hb; lia.
  - simpl; lia.
Qed.

Lemma total_get_vm_by_id vmid : total (_get_vm_by_id vmid).
Proof. unfold _get_vm_by_id; total_structure. Qed.

Lemma total_set_vm_status name status kwargs : total (_set_vm_status name status kwargs).
Proof.
  unfold _set_vm_status.
  apply total_bind; [apply total_get_vm_by_name | intro]; total_structure.
Qed.

Lemma total_fetch_status vm : total (fetch_status vm).
Proof. unfold fetch_status; total_structure. Qed.

Lemma fetch_once_advances vm s E w s' w' :
  fetch_once vm s E w = (Ok (Continue s'), w') -> now w < now w'.
Proof.
  unfold fetch_once; intros H.
  apply bind_ok_inv in H as (v & w1 & Hf & H); inversion H; subst.
  eapply fetch_status_advances; exact Hf.
Qed.

Lemma fetch_twice_advances vm s E w s' w' :
  fetch_twice vm s E w = (Ok (Continue s'), w') -> now w < now w'.
Proof.
  unfold fetch_twice; intros H.
  apply bind_ok_inv in H as (v & w1 & Hf & H).
  apply bind_ok_inv in H as (v2 & w2 & Hf2 & H); inversion H; subst.
  apply fetch_status_advances in Hf; apply fetch_status_advances in Hf2; lia.
Qed.

Lemma fetch_and_compare_advances vm status interval s E w s' w' :
  fetch_and_compare vm status interval s E w = (Ok (Continue s'), w') -> now w < now w'.
Proof.
  unfold fetch_and_compare; intros H.
  apply bind_ok_inv in H as (v & w1 & Hf & H).
  apply fetch_status_advances in Hf.
  apply bind_ok_inv in H as (st & w2 & Hl & H).
  apply lift_ok_inv in Hl as [_ ->].
  destruct (Py.eq st status); [discriminate |].
  pose proof (emits_bind anything _ _ (emits_time_sleep anything anything_quiet interval)
                (fun _ => emits_ret anything (@Continue unit PyVal tt)) E w1) as Hm.
  rewrite H in Hm; apply evolves_monotone in Hm; simpl in Hm; lia.
Qed.

Lemma total_wait_for_vm_status name status timeout interval :
  total (_wait_for_vm_status name status timeout interval).
Proof.
  unfold _wait_for_vm_status.
  apply total_bind; [apply total_get_vm_by_name | intros vm].
  assert (H1 : forall d, total (while_time_lt d (fetch_once vm) tt)).
  { intros d; apply while_time_lt_total;
      [intros s; unfold fetch_once; total_structure; apply total_fetch_status
      | apply fetch_once_advances]. }
  assert (H2 : forall d, total (while_time_lt d (fetch_twice vm) tt)).
  { intros d; apply while_time_lt_total;
      [intros s; unfold fetch_twice; total_structure; apply total_fetch_status
      | apply fetch_twice_advances]. }
  assert (H3 : forall d, total (while_time_lt d (fetch_and_compare vm status interval) tt)).
  { intros d; apply while_time_lt_total; [| apply fetch_and_compare_advances].
    intros s; unfold fetch_and_compare.
    apply total_bind; [apply total_fetch_status | intro].
    apply total_bind; [apply total_lift | intro].
    match goal with |- total (if ?c then _ else _) => destruct c end;
      total_structure; apply total_time_sleep. }
  repeat (apply total_bind;
          [first [apply total_time_time | apply H1 | apply H2 | apply H3] | intro]).
  total_structure.
Qed.

Lemma total_start name kwargs call : total (start name kwargs call).
Proof.
  unfold start; destruct (negb (Py.eq call (PStr "action"))); [apply total_raise |].
  apply total_bind; [apply total_set_vm_status | intro].
  apply total_bind; [apply total_wait_for_vm_status | intro]; apply total_ret.
Qed.

Lemma total_stop name kwargs call : total (stop name kwargs call).
Proof.
  unfold stop; destruct (negb (Py.eq call (PStr "action"))); [apply total_raise |].
  apply total_bind; [apply total_set_vm_status | intro]; apply total_ret.
Qed.

Lemma total_shutdown name kwargs call : total (shutdown name kwargs call).
Proof.
  unfold shutdown; destruct (negb (Py.eq call (PStr "action"))); [apply total_raise |].
  apply total_bind; [apply total_set_vm_status | intro].
  apply total_bind; [apply total_wait_for_vm_status | intro]; apply total_ret.
Qed.

Lemma total_destroy name kwargs call : total (destroy name kwargs call).
Proof.
  unfold destroy; destruct (Py.eq call (PStr "function")); [apply total_raise |].
  apply total_bind; [apply total_stop | intro].
  apply total_bind; [apply total_fire_event | intro].
  apply total_bind; [apply total_get_vm_by_name | intro].
  apply total_bind; [apply total_wait_for_vm_status | intro].
  total_structure; apply total_fire_event.
Qed.

Lemma total_clone kwargs call : total (clone kwargs call).
Proof.
  unfold clone.
  apply total_bind; [apply total_lift | intro].
  apply total_bind; [apply total_get_vm_by_id | intro].
  total_structure.
Qed.

Lemma total_wait_for_ip name timeout interval : total (_wait_for_ip name timeout interval).
Proof.
  unfold _wait_for_ip.
  apply total_bind; [apply total_get_vm_by_name | intros vm].
  apply total_bind; [apply total_time_time | intros start_time].
  apply total_bind; [apply total_log | intro].
  apply total_bind; [apply total_wait_for_vm_status | intro].
  apply total_bind; [| intros [s | res]; total_structure].
  apply while_time_lt_total.
  - intros s; total_structure; first [apply total_log | apply total_time_sleep].
  - intros s E w s' w' H.
    apply bind_ok_inv in H as ([[node kind] vmid] & w1 & Hl & H).
    apply lift_ok_inv in Hl as [_ ->].
    apply bind_ok_inv in H as (response & w2 & Hq & H).
    apply query_advances in Hq.
    destruct (negb (Py.eq response (PInt 500))).
    + apply bind_ok_inv in H as ([[node' kind'] vmid'] & w3 & _ & H).
      apply bind_ok_inv in H as (? & ? & _ & H).
      apply bind_ok_inv in H as (? & ? & _ & H).
      apply bind_ok_inv in H as (? & ? & _ & H); discriminate.
    + pose proof (emits_bind anything _ _ (emits_time_sleep anything anything_quiet interval)
                    (fun _ => emits_ret anything (@Continue unit PyVal tt)) E w2) as Hm.
      rewrite H in Hm; apply evolves_monotone in Hm; simpl in Hm; lia.
Qed.

Lemma total_parse_ips vm_config vm_type : total (_parse_ips vm_config vm_type).
Proof.
  unfold _parse_ips; destruct vm_config; try apply total_raise.
  apply total_bind; [apply total_lift | intro].
  apply total_bind; [| intro; apply total_ret].
  apply total_for_each; intros x s.
  unfold parse_ip_config, ignore_invalid_ip; total_structure; apply total_log.
Qed.

Lemma total_list_nodes call : total (list_nodes call).
Proof.
  unfold list_nodes.
  apply total_bind; [apply total_query | intro].
  apply total_bind; [apply total_lift | intro].
  apply total_bind; [| intro; apply total_ret].
  apply total_for_each; intros vm acc; unfold list_nodes_entry.
  repeat first
    [ apply total_parse_ips
    | progress total_structure ].
Qed.

Lemma total_list_nodes_full call : total (list_nodes_full call).
Proof. unfold list_nodes_full; total_structure. Qed.

Lemma total_show_instance name call : total (show_instance name call).
Proof.
  unfold show_instance; destruct (negb (Py.eq call (PStr "action")));
    [apply total_raise |].
  apply total_bind; [apply total_list_nodes_full | intro]; total_structure.
Qed.

Lemma total_create_fresh vm_ : total (create_fresh vm_).
Proof. unfold create_fresh; total_structure. Qed.

Lemma total_require_result vm_ res : total (require_result vm_ res).
Proof. unfold require_result; total_structure; apply total_log. Qed.

Lemma total_select_ssh_host res : total (select_ssh_host res).
Proof. unfold select_ssh_host, note_interface, note_ipv4; total_structure. Qed.

Lemma total_probe_ssh rounds : total (probe_ssh rounds).
Proof.
  induction rounds as [| x rounds IH]; simpl; [apply total_ret |].
  apply total_bind; [apply total_opts_get | intro].
  apply total_bind; [apply total_wait_for_port | intros answer].
  destruct answer as [| [|] | | | | |]; try apply total_ret;
    (apply total_bind; [apply total_raise | intro; exact IH]).
Qed.

Lemma total_create vm_ : total (create vm_).
Proof.
  unfold create.
  repeat first
    [ apply total_get_vm_by_name
    | apply total_fire_event
    | apply total_clone
    | apply total_create_fresh
    | apply total_start
    | apply total_wait_for_vm_status
    | apply total_wait_for_ip
    | apply total_require_result
    | apply total_select_ssh_host
    | apply total_probe_ssh
    | apply total_show_instance
    | progress total_structure ].
Qed.

(** Every operation of the driver stays within the budgets of its loops,
    in every environment: [Diverge] is the outcome of none of them. *)
Theorem driver_is_total :
  (forall name status timeout interval,
      total (_wait_for_vm_status name status timeout interval)) /\
  (forall name kwargs call, total (start name kwargs call)) /\
  (forall name kwargs call, total (stop name kwargs call)) /\
  (forall name kwargs call, total (shutdown name kwargs call)) /\
  (forall name kwargs call, total (destroy name kwargs call)) /\
  (forall kwargs call, total (clone kwargs call)) /\
  (forall call, total (list_nodes call)) /\
  (forall vm_, total (create vm_)).
Proof.
  repeat split;
    auto using total_wait_for_vm_status, total_start, total_stop, total_shutdown,
      total_destroy, total_clone, total_list_nodes, total_create.
Qed.

(** * Further properties of the driver

    What follows is read off the code alone.  The properties are numbered
    X1, X2, ... *)

(** ** Looking a VM up *)

Lemma scan_by_name_first earlier vm later name :
  Forall (has_other_field "name" name) earlier ->
  has_field "name" name vm ->
  scan_by_name (earlier ++ vm :: later) name = Ok (Some vm).
Proof.
  intros He (x & Hx & Hy); induction He as [| e earlier (y & Hy1 & Hy2) _ IH]; simpl.
  - rewrite Hx; simpl; rewrite Hy; reflexivity.
  - rewrite Hy1; simpl; rewrite Hy2; exact IH.
Qed.

Lemma scan_by_name_none vms name :
  Forall (has_other_field "name" name) vms -> scan_by_name vms name = Ok None.
Proof.
  induction 1 as [| e vms (y & Hy1 & Hy2) _ IH]; simpl; [reflexivity |].
  rewrite Hy1; simpl; rewrite Hy2; exact IH.
Qed.

Lemma scan_by_id_first earlier vm later vmid :
  Forall (has_other_field "vmid" vmid) earlier ->
  has_field "vmid" vmid vm ->
  scan_by_id (earlier ++ vm :: later) vmid = Ok (Some vm).
Proof.
  intros He (x & Hx & Hy); induction He as [| e earlier (y & Hy1 & Hy2) _ IH]; simpl.
  - rewrite Hx; simpl; rewrite Hy; reflexivity.
  - rewrite Hy1; simpl; rewrite Hy2; exact IH.
Qed.

Lemma scan_by_id_none vms vmid :
  Forall (has_other_field "vmid" vmid) vms -> scan_by_id vms vmid = Ok None.
Proof.
  induction 1 as [| e vms (y & Hy1 & Hy2) _ IH]; simpl; [reflexivity |].
  rewrite Hy1; simpl; rewrite Hy2; exact IH.
Qed.

Lemma sent_app a b : sent (a ++ b) = (sent a ++ sent b)%list.
Proof. apply flat_map_app. Qed.

Lemma slept_app a b : slept (a ++ b) = (slept a ++ slept b)%list.
Proof. apply flat_map_app. Qed.

Lemma count_app p a b : count p (a ++ b) = (count p a + count p b)%nat.
Proof. unfold count; rewrite filter_app, length_app; reflexivity. Qed.

Lemma repeat_snoc {A} (x : A) n : (repeat x n ++ [x])%list = repeat x (S n).
Proof.
  change [x] with (repeat x 1); rewrite <- repeat_app; f_equal; lia.
Qed.

(** A read that is answered with a value other than [None] is not logged:
    the record grows by the request alone. *)
Lemma query_get_run E ep (P : PyVal -> Prop) data w :
  answers E "GET" ep P -> (forall v, P v -> v <> PNone) ->
  exists v r d, _query "GET" ep data E w = (Ok v, after_request w "GET" ep data r d) /\ P v.
Proof.
  intros Ha Hn; destruct (Ha (now w) (trace w) data) as (v & Hv & HP).
  exists v, (reply (http E (now w) (trace w) "GET" ep data)),
         (latency (http E (now w) (trace w) "GET" ep data)).
  split; [| exact HP].
  unfold _query, after_request.
  destruct (query_result "GET" (reply (http E (now w) (trace w) "GET" ep data)))
    as [logs res] eqn:Hq; simpl in Hv; subst res.
  destruct logs; [| reflexivity].
  exfalso; apply (Hn v HP).
  unfold query_result in Hq; simpl in Hq.
  destruct (reply (http E (now w) (trace w) "GET" ep data)); inversion Hq; reflexivity.
Qed.

Lemma inventory_run E vms w :
  lists E vms ->
  exists r d, _query "GET" EpClusterResources PNone E w
              = (Ok (PList vms), after_request w "GET" EpClusterResources PNone r d).
Proof.
  intros Hl.
  destruct (query_get_run E EpClusterResources _ PNone w Hl) as (v & r & d & Hq & ->);
    [intros v ->; discriminate |].
  exists r, d; exact Hq.
Qed.

(** A request that is answered, with what it adds to the record. *)
Lemma query_answered_sent E method ep (P : PyVal -> Prop) data w :
  answers E method ep P ->
  exists v w' evs,
    _query method ep data E w = (Ok v, w') /\ P v /\
    trace w' = (evs ++ trace w)%list /\ sent evs = [(method, ep, data)] /\
    opts w' = opts w /\ now w < now w'.
Proof.
  intros Ha; destruct (Ha (now w) (trace w) data) as (v & Hv & HP).
  unfold _query.
  destruct (query_result method (reply (http E (now w) (trace w) method ep data)))
    as [[|] res]; simpl in Hv; subst res.
  - eexists; eexists;
      exists [query_error_log;
              EvRequest method ep data (reply (http E (now w) (trace w) method ep data))].
    repeat split; simpl; auto; lia.
  - eexists; eexists;
      exists [EvRequest method ep data (reply (http E (now w) (trace w) method ep data))].
    repeat split; simpl; auto; lia.
Qed.

Lemma lost_get_run E ep data w :
  reply (http E (now w) (trace w) "GET" ep data) = RaisedRequestException ->
  _query "GET" ep data E w
  = (Ok PNone,
     after_lost_request w "GET" ep data (latency (http E (now w) (trace w) "GET" ep data))).
Proof. intros H; unfold _query; rewrite H; reflexivity. Qed.

Lemma get_vm_by_name_unfold name interval max message :
  _get_vm_by_name name interval max message
  = (r <- while_loop 61 (fun counter => ret (counter <? 60))
            (get_vm_by_name_round name interval message) 0 ;;
     match r with
     | Return vm => ret vm
     | Continue _ => raise (not_found_by_name name)
     end).
Proof. reflexivity. Qed.

(** One round that finds nothing: a request, a log line when there is a
    message, and a sleep. *)
Lemma get_vm_by_name_round_misses E vms name interval message counter w :
  lists E vms -> scan_by_name vms name = Ok None -> 0 <= interval ->
  exists w' evs,
    get_vm_by_name_round name interval message counter E w
    = (Ok (Continue (counter + 1)), w') /\
    trace w' = (evs ++ trace w)%list /\ opts w' = opts w /\
    sent evs = [inventory_request] /\
    slept evs = [interval] /\
    count is_log evs = (match message with Some _ => 1 | None => 0 end)%nat /\
    now w + interval + 1 <= now w'.
Proof.
  intros Hl Hs Hi.
  destruct (inventory_run E vms w Hl) as (r & d & Hq).
  assert (Hsleep : (interval <? 0) = false) by (apply Z.ltb_ge; exact Hi).
  unfold get_vm_by_name_round.
  rewrite (bind_ok _ _ _ _ _ _ Hq).
  unfold bind at 1, lift at 1; simpl Py.iter; cbv iota.
  unfold bind at 1, lift at 1; rewrite Hs; cbv iota.
  destruct message as [m |].
  - eexists; exists [EvSleep interval;
                     EvLog "info" "Waiting for cloning to finish [%d/%d]";
                     EvRequest "GET" EpClusterResources PNone r].
    unfold bind, log, record, time_sleep; rewrite Hsleep.
    unfold bind, record, tick, ret; simpl.
    repeat split; simpl; lia.
  - eexists; exists [EvSleep interval; EvRequest "GET" EpClusterResources PNone r].
    unfold bind, ret, time_sleep; rewrite Hsleep.
    unfold bind, record, tick, ret; simpl.
    repeat split; simpl; lia.
Qed.

Lemma get_vm_by_name_rounds E vms name interval message :
  lists E vms -> scan_by_name vms name = Ok None -> 0 <= interval ->
  forall (n : nat) budget counter w,
    counter = 60 - Z.of_nat n -> (n < budget)%nat -> (n <= 60)%nat ->
    exists w' evs,
      while_loop budget (fun counter => ret (counter <? 60))
                 (get_vm_by_name_round name interval message) counter E w
      = (Ok (Continue 60), w') /\
      trace w' = (evs ++ trace w)%list /\ opts w' = opts w /\
      sent evs = repeat inventory_request n /\
      slept evs = repeat interval n /\
      count is_log evs = (match message with Some _ => n | None => 0 end)%nat /\
      now w + Z.of_nat n * (interval + 1) <= now w'.
Proof.
  intros Hl Hs Hi; induction n as [| n IH]; intros budget counter w Hc Hb Hn.
  - destruct budget as [| b]; [lia |].
    exists w, []; rewrite while_loop_S; subst counter.
    unfold bind, ret; simpl.
    repeat split; try lia; destruct message; reflexivity.
  - destruct budget as [| b]; [lia |].
    rewrite while_loop_S.
    assert (Hlt : (counter <? 60) = true) by (apply Z.ltb_lt; lia).
    unfold bind at 1, ret at 1; rewrite Hlt.
    destruct (get_vm_by_name_round_misses E vms name interval message counter w Hl Hs Hi)
      as (w1 & evs1 & Hr & Ht1 & Ho1 & Hc1 & Hsl1 & Hlg1 & Hn1).
    rewrite (bind_ok _ _ _ _ _ _ Hr).
    destruct (IH b (counter + 1) w1) as (w2 & evs2 & Hr2 & Ht2 & Ho2 & Hc2 & Hsl2 & Hlg2 & Hn2);
      try lia.
    exists w2, (evs2 ++ evs1)%list; rewrite Hr2.
    split; [reflexivity |].
    split; [rewrite Ht2, Ht1, app_assoc; reflexivity |].
    split; [congruence |].
    rewrite sent_app, slept_app, count_app, Hc1, Hc2, Hsl1, Hsl2, Hlg1, Hlg2, !repeat_snoc.
    split; [reflexivity |].
    split; [reflexivity |].
    split; [destruct message; lia | lia].
Qed.

Lemma get_vm_by_name_gives_up E vms name interval max message w :
  lists E vms -> scan_by_name vms name = Ok None -> 0 <= interval ->
  exists w' evs,
    _get_vm_by_name name interval max message E w = (Raise (not_found_by_name name), w') /\
    trace w' = (evs ++ trace w)%list /\
    sent evs = repeat inventory_request 60 /\
    slept evs = repeat interval 60 /\
    count is_log evs = (match message with Some _ => 60 | None => 0 end)%nat /\
    now w + 60 * (interval + 1) <= now w'.
Proof.
  intros Hl Hnone Hi.
  destruct (get_vm_by_name_rounds E vms name interval message Hl Hnone Hi 60 61 0 w)
    as (w' & evs & Hr & Ht & _ & Hc & Hs & Hg & Hn); try lia.
  exists w', evs; rewrite get_vm_by_name_unfold, (bind_ok _ _ _ _ _ _ Hr).
  repeat split; auto.
Qed.

(** X1.  When the cluster answers every inventory request with a list that
    holds no VM of the wanted name, [_get_vm_by_name] gives up with
    [SaltCloudNotFound] after exactly 60 requests and 60 sleeps of
    [interval], whatever [max] it was given; with a message it logs once
    a round. *)
Theorem get_vm_by_name_gives_up_after_sixty_rounds
        (E : Env) (w : World) (vms : list PyVal) (name : PyVal)
        (interval max : Z) (message : option string) :
  lists E vms ->
  Forall (has_other_field "name" name) vms ->
  0 <= interval ->
  exists w' evs,
    _get_vm_by_name name interval max message E w = (Raise (not_found_by_name name), w') /\
    trace w' = (evs ++ trace w)%list /\
    sent evs = repeat inventory_request 60 /\
    slept evs = repeat interval 60 /\
    count is_log evs = (match message with Some _ => 60 | None => 0 end)%nat /\
    now w + 60 * (interval + 1) <= now w'.
Proof.
  intros Hl Hnone Hi.
  apply (get_vm_by_name_gives_up E vms); auto using scan_by_name_none.
Qed.

Lemma get_vm_by_name_gives_up_after_sixty_rounds_witness :
  exists w' evs,
    _get_vm_by_name (PStr "ghost") (seconds 1) 2 None Lab.stuck Lab.w0
    = (Raise (not_found_by_name (PStr "ghost")), w') /\
    trace w' = (evs ++ trace Lab.w0)%list /\
    sent evs = repeat inventory_request 60 /\
    slept evs = repeat (seconds 1) 60 /\
    count is_log evs = 0%nat /\
    now Lab.w0 + 60 * (seconds 1 + 1) <= now w'.
Proof.
  apply (get_vm_by_name_gives_up_after_sixty_rounds Lab.stuck Lab.w0 Lab.three
           (PStr "ghost") (seconds 1) 2 None).
  - intros t h data; eexists; split; reflexivity.
  - repeat constructor; (eexists; split; reflexivity).
  - vm_compute; discriminate.
Defined.

Lemma get_vm_by_name_found_run E vms name vm interval max message w :
  lists E vms -> scan_by_name vms name = Ok (Some vm) ->
  exists r d,
    _get_vm_by_name name interval max message E w
    = (Ok vm, after_request w "GET" EpClusterResources PNone r d).
Proof.
  intros Hl Hs.
  destruct (inventory_run E _ w Hl) as (r & d & Hq).
  exists r, d.
  rewrite get_vm_by_name_unfold, while_loop_S.
  unfold bind at 1; unfold bind at 1, ret at 1.
  replace (0 <? 60) with true by reflexivity.
  unfold bind at 1, get_vm_by_name_round.
  rewrite (bind_ok _ _ _ _ _ _ Hq).
  unfold bind at 1, lift at 1; simpl Py.iter; cbv iota.
  unfold bind at 1, lift at 1.
  rewrite Hs; reflexivity.
Qed.

(** X2.  [_get_vm_by_name] returns the first entry of the inventory whose
    name is the wanted one, after a single request, without sleeping or
    logging, and whatever comes after that entry in the inventory. *)
Theorem get_vm_by_name_returns_first_match
        (E : Env) (w : World) (earlier later : list PyVal) (vm name : PyVal)
        (interval max : Z) (message : option string) :
  lists E (earlier ++ vm :: later) ->
  Forall (has_other_field "name" name) earlier ->
  has_field "name" name vm ->
  exists r d,
    _get_vm_by_name name interval max message E w
    = (Ok vm, after_request w "GET" EpClusterResources PNone r d).
Proof.
  intros Hl He Hv.
  apply (get_vm_by_name_found_run E (earlier ++ vm :: later)); [exact Hl |].
  apply scan_by_name_first; assumption.
Qed.

Lemma get_vm_by_name_returns_first_match_witness :
  exists r d,
    _get_vm_by_name (PStr "web") (seconds 5) 12 (Some "Waiting for VM to be ready")
                    Bench.twin_cluster Lab.w0
    = (Ok (Bench.twin 101 "pve1"),
       after_request Lab.w0 "GET" EpClusterResources PNone r d).
Proof.
  apply (get_vm_by_name_returns_first_match Bench.twin_cluster Lab.w0
           [] [Bench.twin 102 "pve2"] (Bench.twin 101 "pve1") (PStr "web")).
  - intros t h data; eexists; split; reflexivity.
  - constructor.
  - eexists; split; reflexivity.
Defined.

Lemma get_vm_by_id_run E vms vmid w :
  lists E vms ->
  exists r d,
    _get_vm_by_id vmid E w
    = (match scan_by_id vms vmid with
       | Ok (Some vm) => Ok vm
       | Ok None => Raise (not_found_by_id vmid)
       | Raise e => Raise e
       end, after_request w "GET" EpClusterResources PNone r d).
Proof.
  intros Hl.
  destruct (inventory_run E _ w Hl) as (r & d & Hq).
  exists r, d.
  unfold _get_vm_by_id.
  rewrite (bind_ok _ _ _ _ _ _ Hq).
  unfold bind at 1, lift at 1; simpl Py.iter; cbv iota.
  unfold bind at 1, lift at 1.
  destruct (scan_by_id vms vmid) as [[vm |] | e]; reflexivity.
Qed.

(** X3.  When the inventory request fails in transit, [_query] hands back
    [None], and both lookups raise [TypeError] on iterating it: the
    failure is neither retried nor reported as [SaltCloudNotFound]. *)
Theorem lookups_raise_type_error_when_inventory_request_is_lost
        (E : Env) (w : World) (name vmid : PyVal)
        (interval max : Z) (message : option string) :
  reply (http E (now w) (trace w) "GET" EpClusterResources PNone)
  = RaisedRequestException ->
  exists d,
    _get_vm_by_name name interval max message E w
    = (Raise TypeError, after_lost_request w "GET" EpClusterResources PNone d) /\
    _get_vm_by_id vmid E w
    = (Raise TypeError, after_lost_request w "GET" EpClusterResources PNone d).
Proof.
  intros Hlost; pose proof (lost_get_run E EpClusterResources PNone w Hlost) as Hq.
  eexists; split.
  - rewrite get_vm_by_name_unfold, while_loop_S.
    unfold bind at 1; unfold bind at 1, ret at 1.
    replace (0 <? 60) with true by reflexivity.
    unfold bind at 1, get_vm_by_name_round.
    rewrite (bind_ok _ _ _ _ _ _ Hq); reflexivity.
  - unfold _get_vm_by_id; rewrite (bind_ok _ _ _ _ _ _ Hq); reflexivity.
Qed.

Lemma lookups_raise_type_error_when_inventory_request_is_lost_witness :
  exists d,
    _get_vm_by_name (PStr "vm1") (seconds 1) 2 None Bench.offline Lab.w0
    = (Raise TypeError, after_lost_request Lab.w0 "GET" EpClusterResources PNone d) /\
    _get_vm_by_id (PInt 105) Bench.offline Lab.w0
    = (Raise TypeError, after_lost_request Lab.w0 "GET" EpClusterResources PNone d).
Proof.
  apply (lookups_raise_type_error_when_inventory_request_is_lost
           Bench.offline Lab.w0 (PStr "vm1") (PInt 105) (seconds 1) 2 None).
  reflexivity.
Defined.

(** X4.  [_get_vm_by_id] asks for the inventory once and does not wait:
    it returns the first entry with the wanted id, and raises
    [SaltCloudNotFound] at once when no entry has it. *)
Theorem get_vm_by_id_looks_once (E : Env) (w : World) (vms : list PyVal) (vmid : PyVal) :
  lists E vms ->
  exists r d,
    snd (_get_vm_by_id vmid E w) = after_request w "GET" EpClusterResources PNone r d /\
    (Forall (has_other_field "vmid" vmid) vms ->
     fst (_get_vm_by_id vmid E w) = Raise (not_found_by_id vmid)) /\
    (forall earlier vm later,
        vms = (earlier ++ vm :: later)%list ->
        Forall (has_other_field "vmid" vmid) earlier ->
        has_field "vmid" vmid vm ->
        fst (_get_vm_by_id vmid E w) = Ok vm).
Proof.
  intros Hl; destruct (get_vm_by_id_run E vms vmid w Hl) as (r & d & Hrun).
  exists r, d; rewrite Hrun; split; [reflexivity | split].
  - intros Hnone; rewrite (scan_by_id_none vms vmid Hnone); reflexivity.
  - intros earlier vm later -> He Hv.
    rewrite (scan_by_id_first earlier vm later vmid He Hv); reflexivity.
Qed.

Lemma get_vm_by_id_looks_once_witness :
  fst (_get_vm_by_id (PInt 999) Lab.stuck Lab.w0) = Raise (not_found_by_id (PInt 999)) /\
  fst (_get_vm_by_id (PInt 105) Lab.stuck Lab.w0) = Ok Lab.vm1 /\
  sent (trace (snd (_get_vm_by_id (PInt 999) Lab.stuck Lab.w0))) = [inventory_request].
Proof.
  assert (Hl : lists Lab.stuck Lab.three)
    by (intros t h data; eexists; split; reflexivity).
  destruct (get_vm_by_id_looks_once Lab.stuck Lab.w0 Lab.three (PInt 999) Hl)
    as (r & d & Hw & Hnone & _).
  destruct (get_vm_by_id_looks_once Lab.stuck Lab.w0 Lab.three (PInt 105) Hl)
    as (r' & d' & _ & _ & Hsome).
  split; [| split].
  - apply Hnone; repeat constructor; (eexists; split; reflexivity).
  - apply (Hsome [Lab.machine 100 "tmpl-a" "stopped"] Lab.vm1
                 [Lab.machine 103 "db-1" "running"]).
    + reflexivity.
    + repeat constructor; (eexists; split; reflexivity).
    + eexists; split; reflexivity.
  - rewrite Hw; reflexivity.
Defined.

(** ** Calling conventions *)

(** X5.  The guards on the calling convention refuse before anything is
    sent: [start], [stop], [shutdown] and [show_instance] called otherwise
    than as an action, and [list_nodes_full] called as an action, raise
    [SaltCloudSystemExit] and leave the world as it was; so does [destroy]
    under any other convention than action, through its own guard or the
    guard of [stop]. *)
Theorem calling_convention_guards_send_nothing
        (E : Env) (w : World) (name kwargs call : PyVal) :
  (Py.eq call (PStr "action") = false ->
   start name kwargs call E w
   = (Raise (SaltCloudSystemExit "The start action must be called with -a or --action."), w) /\
   stop name kwargs call E w
   = (Raise (SaltCloudSystemExit "The stop action must be called with -a or --action."), w) /\
   shutdown name kwargs call E w
   = (Raise (SaltCloudSystemExit "The shutdown action must be called with -a or --action."),
      w) /\
   show_instance name call E w
   = (Raise (SaltCloudSystemExit
               "The show_instance action must be called with -a or --action."), w) /\
   exists msg, destroy name kwargs call E w = (Raise (SaltCloudSystemExit msg), w)) /\
  (Py.eq call (PStr "action") = true ->
   list_nodes_full call E w
   = (Raise (SaltCloudSystemExit
               "The list_nodes_full function must be called with -f or --function."), w)).
Proof.
  split; intros Hc.
  - unfold start, stop, shutdown, show_instance, destroy, stop; rewrite Hc; simpl negb.
    repeat split.
    destruct (Py.eq call (PStr "function")); eexists; reflexivity.
  - unfold list_nodes_full; rewrite Hc; reflexivity.
Qed.

Lemma calling_convention_guards_send_nothing_witness :
  start (PStr "vm1") PNone PNone Lab.stuck Lab.w0
  = (Raise (SaltCloudSystemExit "The start action must be called with -a or --action."),
     Lab.w0) /\
  (exists msg, destroy (PStr "vm1") PNone (PStr "function") Lab.stuck Lab.w0
               = (Raise (SaltCloudSystemExit msg), Lab.w0)) /\
  list_nodes_full (PStr "action") Lab.stuck Lab.w0
  = (Raise (SaltCloudSystemExit
              "The list_nodes_full function must be called with -f or --function."),
     Lab.w0).
Proof.
  destruct (calling_convention_guards_send_nothing Lab.stuck Lab.w0 (PStr "vm1") PNone PNone)
    as [Hnone _].
  destruct (calling_convention_guards_send_nothing Lab.stuck Lab.w0 (PStr "vm1") PNone
              (PStr "function")) as [Hfun _].
  destruct (calling_convention_guards_send_nothing Lab.stuck Lab.w0 (PStr "vm1") PNone
              (PStr "action")) as [_ Haction].
  split; [apply (Hnone eq_refl) |].
  split; [apply (Hfun eq_refl) | apply (Haction eq_refl)].
Defined.

(** ** Operations that wait for a status *)

Lemma never_returns_bind_here {A B} (m : M A) (k : A -> M B) :
  never_returns m -> never_returns (bind m k).
Proof.
  intros Hn E w v; unfold bind; specialize (Hn E w).
  destruct (m E w) as [[[a | e] |] w1]; simpl in *; try discriminate.
  exfalso; eapply Hn; reflexivity.
Qed.

Lemma never_returns_bind_later {A B} (m : M A) (k : A -> M B) :
  (forall a, never_returns (k a)) -> never_returns (bind m k).
Proof.
  intros Hk E w v; unfold bind.
  destruct (m E w) as [[[a | e] |] w1]; simpl; try discriminate.
  apply Hk.
Qed.

Lemma never_returns_raise {A} e : never_returns (@raise A e).
Proof. intros E w v; discriminate. Qed.

Lemma wait_for_vm_status_is_final name status timeout interval :
  never_returns (_wait_for_vm_status name status timeout interval).
Proof. intros E w v; apply wait_for_vm_status_never_returns. Qed.

Lemma start_never_returns name kwargs call : never_returns (start name kwargs call).
Proof.
  unfold start; destruct (negb (Py.eq call (PStr "action")));
    [apply never_returns_raise |].
  apply never_returns_bind_later; intros _.
  apply never_returns_bind_here, wait_for_vm_status_is_final.
Qed.

Lemma shutdown_never_returns name kwargs call : never_returns (shutdown name kwargs call).
Proof.
  unfold shutdown; destruct (negb (Py.eq call (PStr "action")));
    [apply never_returns_raise |].
  apply never_returns_bind_later; intros _.
  apply never_returns_bind_here, wait_for_vm_status_is_final.
Qed.

Lemma destroy_never_returns name kwargs call : never_returns (destroy name kwargs call).
Proof.
  unfold destroy; destruct (Py.eq call (PStr "function"));
    [apply never_returns_raise |].
  do 3 (apply never_returns_bind_later; intro).
  apply never_returns_bind_here, wait_for_vm_status_is_final.
Qed.

Lemma wait_for_ip_never_returns name timeout interval :
  never_returns (_wait_for_ip name timeout interval).
Proof.
  unfold _wait_for_ip.
  do 3 (apply never_returns_bind_later; intro).
  apply never_returns_bind_here, wait_for_vm_status_is_final.
Qed.

(** X6.  No execution of [start], [shutdown] or [destroy] returns: each
    of them calls [_wait_for_vm_status], which ends in an exception in
    every execution, so the success dictionaries of [start] and [shutdown]
    and the "destroyed instance" event are out of reach. *)
Theorem start_shutdown_destroy_never_return
        (E : Env) (w : World) (name kwargs call : PyVal) :
  (forall v, fst (start name kwargs call E w) <> Ok v) /\
  (forall v, fst (shutdown name kwargs call E w) <> Ok v) /\
  (forall v, fst (destroy name kwargs call E w) <> Ok v).
Proof.
  split; [| split]; intros v;
    [apply start_never_returns | apply shutdown_never_returns | apply destroy_never_returns].
Qed.

(** ** Changing the status of a VM *)

Section Listed.

Variables (E : Env) (vms : list PyVal) (name vm node kind vmid : PyVal).
Hypothesis listed : lists E vms.
Hypothesis found : scan_by_name vms name = Ok (Some vm).
Hypothesis address : vm_address vm = Ok (node, kind, vmid).

Lemma set_vm_status_sent status kwargs w :
  answers E "POST" (EpVmStatus node kind vmid status) (fun _ => True) ->
  exists w' evs,
    _set_vm_status name status kwargs E w = (Ok tt, w') /\
    trace w' = (evs ++ trace w)%list /\
    sent evs = [("POST", EpVmStatus node kind vmid status, kwargs); inventory_request] /\
    opts w' = opts w /\ now w < now w'.
Proof.
  intros Hpost.
  destruct (get_vm_by_name_found_run E vms name vm (seconds 1) 2 None w listed found)
    as (r & d & H1).
  destruct (query_answered_sent E "POST" (EpVmStatus node kind vmid status) _ kwargs
              (after_request w "GET" EpClusterResources PNone r d) Hpost)
    as (v & w2 & evs & H2 & _ & Ht & Hs & Ho & Hn).
  exists w2, (evs ++ [EvRequest "GET" EpClusterResources PNone r])%list.
  unfold _set_vm_status.
  rewrite (bind_ok _ _ _ _ _ _ H1).
  unfold bind at 1, lift at 1; rewrite address.
  rewrite (bind_ok _ _ _ _ _ _ H2).
  repeat split.
  - rewrite Ht, <- app_assoc; reflexivity.
  - rewrite sent_app, Hs; reflexivity.
  - rewrite Ho; reflexivity.
  - simpl in Hn; lia.
Qed.

End Listed.

(** X7.  [stop] does not wait: for a VM that the cluster lists, it sends
    the inventory request and one POST to the VM's [status/stop] carrying
    the caller's [kwargs], and returns its success dictionary whatever
    answer [_query] handed back. *)
Theorem stop_sends_one_request_and_reports_success
        (E : Env) (w : World) (vms : list PyVal) (name vm node kind vmid kwargs : PyVal) :
  lists E vms ->
  scan_by_name vms name = Ok (Some vm) ->
  vm_address vm = Ok (node, kind, vmid) ->
  answers E "POST" (EpVmStatus node kind vmid "stop") (fun _ => True) ->
  exists w' evs,
    stop name kwargs (PStr "action") E w = (Ok (action_result "stopped" "stop"), w') /\
    trace w' = (evs ++ trace w)%list /\
    sent evs = [("POST", EpVmStatus node kind vmid "stop", kwargs); inventory_request].
Proof.
  intros Hl Hs Ha Hp.
  destruct (set_vm_status_sent E vms name vm node kind vmid Hl Hs Ha "stop" kwargs w Hp)
    as (w' & evs & Hrun & Ht & Hsent & _).
  exists w', evs; unfold stop.
  replace (negb (Py.eq (PStr "action") (PStr "action"))) with false by reflexivity.
  rewrite (bind_ok _ _ _ _ _ _ Hrun); auto.
Qed.

Lemma stop_sends_one_request_and_reports_success_witness :
  exists w' evs,
    stop (PStr "vm1") (PDict [(PStr "timeout", PInt 30)]) (PStr "action")
         Bench.read_only Lab.w0
    = (Ok (action_result "stopped" "stop"), w') /\
    trace w' = (evs ++ trace Lab.w0)%list /\
    sent evs = [("POST", EpVmStatus (PStr "pve1") (PStr "qemu") (PInt 105) "stop",
                 PDict [(PStr "timeout", PInt 30)]);
                inventory_request].
Proof.
  apply (stop_sends_one_request_and_reports_success Bench.read_only Lab.w0 Lab.three
           (PStr "vm1") Lab.vm1).
  - intros t h data; eexists; split; reflexivity.
  - reflexivity.
  - reflexivity.
  - intros t h data; eexists; split; [reflexivity | exact I].
Defined.

(** X8.  For a name that the inventory does not hold, every operation that
    starts from the name fails in the same way: [start], [stop],
    [shutdown], [destroy] and [reconfigure], and [create] for a profile
    whose image has that name, raise the [SaltCloudNotFound] of the lookup
    after 60 inventory requests a second apart, and send nothing else. *)
Theorem operations_on_an_unlisted_name_raise_not_found
        (E : Env) (w : World) (vms : list PyVal) (name kwargs : PyVal) :
  lists E vms ->
  Forall (has_other_field "name" name) vms ->
  exists w' evs,
    trace w' = (evs ++ trace w)%list /\
    sent evs = repeat inventory_request 60 /\
    slept evs = repeat (seconds 1) 60 /\
    start name kwargs (PStr "action") E w = (Raise (not_found_by_name name), w') /\
    stop name kwargs (PStr "action") E w = (Raise (not_found_by_name name), w') /\
    shutdown name kwargs (PStr "action") E w = (Raise (not_found_by_name name), w') /\
    destroy name kwargs (PStr "action") E w = (Raise (not_found_by_name name), w') /\
    reconfigure name kwargs E w = (Raise (not_found_by_name name), w') /\
    (forall d, Py.dict_get d (PStr "image") = Some name ->
               create (PDict d) E w = (Raise (not_found_by_name name), w')).
Proof.
  intros Hl Hnone.
  destruct (get_vm_by_name_gives_up E vms name (seconds 1) 2 None w Hl
              (scan_by_name_none vms name Hnone) ltac:(vm_compute; discriminate))
    as (w' & evs & Hrun & Ht & Hsent & Hslept & _).
  assert (Hset : forall status,
             _set_vm_status name status kwargs E w = (Raise (not_found_by_name name), w'))
    by (intros status; unfold _set_vm_status; apply bind_raise; exact Hrun).
  assert (Hstop : stop name kwargs (PStr "action") E w
                  = (Raise (not_found_by_name name), w')).
  { unfold stop.
    replace (negb (Py.eq (PStr "action") (PStr "action"))) with false by reflexivity.
    apply bind_raise, Hset. }
  exists w', evs.
  split; [exact Ht |].
  split; [exact Hsent |].
  split; [exact Hslept |].
  split; [| split; [exact Hstop | split; [| split; [| split]]]].
  - unfold start.
    replace (negb (Py.eq (PStr "action") (PStr "action"))) with false by reflexivity.
    apply bind_raise, Hset.
  - unfold shutdown.
    replace (negb (Py.eq (PStr "action") (PStr "action"))) with false by reflexivity.
    apply bind_raise, Hset.
  - unfold destroy.
    replace (Py.eq (PStr "action") (PStr "function")) with false by reflexivity.
    apply bind_raise, Hstop.
  - unfold reconfigure; apply bind_raise; exact Hrun.
  - intros d Hd; unfold create.
    erewrite bind_lift_ok by (simpl; rewrite Hd; reflexivity).
    apply bind_raise; exact Hrun.
Qed.

Lemma operations_on_an_unlisted_name_raise_not_found_witness :
  exists w' evs,
    trace w' = (evs ++ trace Lab.w0)%list /\
    sent evs = repeat inventory_request 60 /\
    slept evs = repeat (seconds 1) 60 /\
    stop (PStr "ghost") PNone (PStr "action") Lab.stuck Lab.w0
    = (Raise (not_found_by_name (PStr "ghost")), w') /\
    create (PDict Bench.ghost_profile) Lab.stuck Lab.w0
    = (Raise (not_found_by_name (PStr "ghost")), w').
Proof.
  destruct (operations_on_an_unlisted_name_raise_not_found Lab.stuck Lab.w0 Lab.three
              (PStr "ghost") PNone)
    as (w' & evs & Ht & Hsent & Hslept & _ & Hstop & _ & _ & _ & Hcreate).
  - intros t h data; eexists; split; reflexivity.
  - repeat constructor; (eexists; split; reflexivity).
  - exists w', evs.
    split; [exact Ht |].
    split; [exact Hsent |].
    split; [exact Hslept |].
    split; [exact Hstop | exact (Hcreate Bench.ghost_profile eq_refl)].
Defined.

(** ** Waiting for a status, reconfiguring and cloning *)

(** X9.  For a VM that the cluster lists, with the status request accepted
    and the polls answered, [start] and [shutdown] raise the poller's
    timeout, whatever status the polls report, and only after more than
    eight times the 300 seconds they pass as [timeout]. *)
Theorem start_and_shutdown_time_out_after_forty_minutes
        (E : Env) (w : World) (vms : list PyVal) (name vm node kind vmid kwargs : PyVal) :
  lists E vms ->
  scan_by_name vms name = Ok (Some vm) ->
  vm_address vm = Ok (node, kind, vmid) ->
  (forall status, answers E "POST" (EpVmStatus node kind vmid status) (fun _ => True)) ->
  answers E "GET" (EpVmStatusCurrent node kind vmid) (fun _ => True) ->
  (fst (start name kwargs (PStr "action") E w) = Raise poller_timeout /\
   now w + 8 * seconds 300 < now (snd (start name kwargs (PStr "action") E w))) /\
  (fst (shutdown name kwargs (PStr "action") E w) = Raise poller_timeout /\
   now w + 8 * seconds 300 < now (snd (shutdown name kwargs (PStr "action") E w))).
Proof.
  intros Hl Hs Ha Hpost Hpoll.
  assert (Hgen : forall status target,
             exists w1 w2,
               _set_vm_status name status kwargs E w = (Ok tt, w1) /\
               _wait_for_vm_status name target (seconds 300) (seconds 1) E w1
               = (Raise poller_timeout, w2) /\
               now w + 8 * seconds 300 < now w2).
  { intros status target.
    destruct (set_vm_status_sent E vms name vm node kind vmid Hl Hs Ha status kwargs w
                (Hpost status)) as (w1 & evs & H1 & _ & _ & _ & Hn1).
    destruct (wait_for_vm_status_runs_out anything anything_quiet E vms name vm
                node kind vmid
                ltac:(intros ? ?; reflexivity) ltac:(intros ? ?; reflexivity)
                Hl Hs Ha Hpoll target (seconds 300) (seconds 1) w1)
      as (w2 & H2 & Hn2 & _).
    exists w1, w2; repeat split; auto; lia. }
  unfold start, shutdown.
  replace (negb (Py.eq (PStr "action") (PStr "action"))) with false by reflexivity.
  split.
  - destruct (Hgen "start" (PStr "running")) as (w1 & w2 & H1 & H2 & Hn).
    rewrite (bind_ok _ _ _ _ _ _ H1), (bind_raise _ _ _ _ _ _ H2).
    split; [reflexivity | exact Hn].
  - destruct (Hgen "shutdown" (PStr "stopped")) as (w1 & w2 & H1 & H2 & Hn).
    rewrite (bind_ok _ _ _ _ _ _ H1), (bind_raise _ _ _ _ _ _ H2).
    split; [reflexivity | exact Hn].
Qed.

Lemma start_and_shutdown_time_out_after_forty_minutes_witness :
  (fst (start (PStr "vm1") PNone (PStr "action") Lab.stuck Lab.w0) = Raise poller_timeout /\
   now Lab.w0 + 8 * seconds 300
   < now (snd (start (PStr "vm1") PNone (PStr "action") Lab.stuck Lab.w0))) /\
  (fst (shutdown (PStr "vm1") PNone (PStr "action") Lab.stuck Lab.w0)
   = Raise poller_timeout /\
   now Lab.w0 + 8 * seconds 300
   < now (snd (shutdown (PStr "vm1") PNone (PStr "action") Lab.stuck Lab.w0))).
Proof.
  apply (start_and_shutdown_time_out_after_forty_minutes Lab.stuck Lab.w0 Lab.three
           (PStr "vm1") Lab.vm1 (PStr "pve1") (PStr "qemu") (PInt 105) PNone).
  - intros t h data; eexists; split; reflexivity.
  - reflexivity.
  - reflexivity.
  - intros status t h data; eexists; split; [reflexivity | exact I].
  - intros t h data; eexists; split; [reflexivity | exact I].
Defined.

(** X10.  [reconfigure] reports success without looking at what became of
    its request: when the PUT fails in transit, [_query] logs the error and
    hands back [None], and [reconfigure] returns its success dictionary. *)
Theorem reconfigure_reports_success_when_request_is_lost
        (E : Env) (w : World) (vms : list PyVal) (name vm node kind vmid kwargs : PyVal) :
  lists E vms ->
  scan_by_name vms name = Ok (Some vm) ->
  vm_address vm = Ok (node, kind, vmid) ->
  loses E "PUT" (EpVmConfig node kind vmid) ->
  exists r d1 d2,
    reconfigure name kwargs E w
    = (Ok reconfigured,
       after_lost_request (after_request w "GET" EpClusterResources PNone r d1)
                          "PUT" (EpVmConfig node kind vmid) kwargs d2).
Proof.
  intros Hl Hs Ha Hlost.
  destruct (get_vm_by_name_found_run E vms name vm (seconds 1) 2 None w Hl Hs)
    as (r & d1 & H1).
  exists r, d1; eexists.
  unfold reconfigure.
  rewrite (bind_ok _ _ _ _ _ _ H1).
  unfold bind at 1, lift at 1; rewrite Ha.
  unfold bind, _query; cbv zeta; rewrite !Hlost; simpl; reflexivity.
Qed.

Lemma reconfigure_reports_success_when_request_is_lost_witness :
  exists r d1 d2,
    reconfigure (PStr "vm1") (PDict [(PStr "memory", PInt 4096)]) Bench.read_only Lab.w0
    = (Ok reconfigured,
       after_lost_request (after_request Lab.w0 "GET" EpClusterResources PNone r d1)
                          "PUT" (EpVmConfig (PStr "pve1") (PStr "qemu") (PInt 105))
                          (PDict [(PStr "memory", PInt 4096)]) d2).
Proof.
  apply (reconfigure_reports_success_when_request_is_lost Bench.read_only Lab.w0 Lab.three
           (PStr "vm1") Lab.vm1).
  - intros t h data; eexists; split; reflexivity.
  - reflexivity.
  - reflexivity.
  - intros t h data; reflexivity.
Defined.

(** X11.  [clone] sends its options to the clone endpoint of the VM that
    has the [vmid] named in them, unchanged, and then raises its timeout
    although the request was answered: it has no execution that returns. *)
Theorem clone_forwards_its_options_and_raises
        (E : Env) (w : World) (vms : list PyVal) (k : list (PyVal * PyVal))
        (vmid vm node kind call : PyVal) :
  Py.get (PDict k) (PStr "vmid") = Ok vmid ->
  lists E vms ->
  scan_by_id vms vmid = Ok (Some vm) ->
  Py.getitem vm (PStr "node") = Ok node ->
  Py.getitem vm (PStr "type") = Ok kind ->
  answers E "POST" (EpVmClone node kind vmid) (fun _ => True) ->
  exists w' evs,
    clone (PDict k) call E w = (Raise cloning_timeout, w') /\
    trace w' = (evs ++ trace w)%list /\
    sent evs = [("POST", EpVmClone node kind vmid, PDict k);
                inventory_request].
Proof.
  intros Hid Hl Hs Hnode Hkind Hpost.
  destruct (get_vm_by_id_run E vms vmid w Hl) as (r & d & H1); rewrite Hs in H1.
  destruct (query_answered_sent E "POST" (EpVmClone node kind vmid) _ (PDict k)
              (after_request w "GET" EpClusterResources PNone r d) Hpost)
    as (v & w2 & evs & H2 & _ & Ht & Hsent & _).
  exists w2, (evs ++ [EvRequest "GET" EpClusterResources PNone r])%list.
  unfold clone.
  rewrite (bind_lift_ok _ _ _ _ _ Hid), (bind_ok _ _ _ _ _ _ H1).
  rewrite (bind_lift_ok _ _ _ _ _ Hnode), (bind_lift_ok _ _ _ _ _ Hkind).
  rewrite (bind_ok _ _ _ _ _ _ H2).
  repeat split.
  - rewrite Ht, <- app_assoc; reflexivity.
  - rewrite sent_app, Hsent; reflexivity.
Qed.

Lemma clone_forwards_its_options_and_raises_witness :
  exists w' evs,
    clone (PDict [(PStr "vmid", PInt 100); (PStr "newid", PInt 200)]) PNone
          Lab.stuck Lab.w0
    = (Raise cloning_timeout, w') /\
    trace w' = (evs ++ trace Lab.w0)%list /\
    sent evs = [("POST", EpVmClone (PStr "pve1") (PStr "qemu") (PInt 100),
                 PDict [(PStr "vmid", PInt 100); (PStr "newid", PInt 200)]);
                inventory_request].
Proof.
  apply (clone_forwards_its_options_and_raises Lab.stuck Lab.w0 Lab.three
           [(PStr "vmid", PInt 100); (PStr "newid", PInt 200)]
           (PInt 100) (Lab.machine 100 "tmpl-a" "stopped")).
  - reflexivity.
  - intros t h data; eexists; split; reflexivity.
  - reflexivity.
  - reflexivity.
  - reflexivity.
  - intros t h data; eexists; split; [reflexivity | exact I].
Defined.

(** ** What [create] does not reach *)

Lemma before_agent_quiet ev : is_request ev = false -> before_agent ev = true.
Proof. destruct ev; simpl; intros H; try reflexivity; discriminate. Qed.

Lemma before_agent_permits method ep :
  (forall node kind vmid, ep <> EpVmAgentInterfaces node kind vmid) ->
  method <> "DELETE" ->
  permits before_agent method ep.
Proof.
  intros Hep Hm data r; unfold before_agent; simpl.
  apply String.eqb_neq in Hm; rewrite Hm; simpl.
  destruct ep; try reflexivity.
  exfalso; eapply Hep; reflexivity.
Qed.

Ltac permitted := apply before_agent_permits; [intros; discriminate | discriminate].






(** X13.  No execution of [_wait_for_ip] returns, and none sends a request
    to the guest agent: the wait for "running" that comes first ends in an
    exception. *)
Theorem wait_for_ip_never_asks_the_agent
        (E : Env) (w : World) (name : PyVal) (timeout interval : Z) :
  (forall v, fst (_wait_for_ip name timeout interval E (fresh w)) <> Ok v) /\
  existsb is_agent_request (trace (snd (_wait_for_ip name timeout interval E (fresh w))))
  = false.
Proof.
  split; [intros v; apply wait_for_ip_never_returns |].
  apply (evolves_from_fresh before_agent is_agent_request w).
  - intros ev H; unfold before_agent in H.
    apply andb_true_iff in H as [_ H]; apply negb_true_iff in H; exact H.
  - pose proof before_agent_quiet as Hq; unfold _wait_for_ip.
    apply emits_bind; [apply emits_get_vm_by_name; [exact Hq | permitted] | intros vm].
    apply emits_bind; [apply emits_time_time | intros t].
    apply emits_bind; [apply emits_log; exact Hq | intros _].
    apply emits_bind_never.
    + apply emits_wait_for_vm_status; [exact Hq | permitted | intros; permitted].
    + apply wait_for_vm_status_is_final.
Qed.

(** ** The probe of the SSH port *)

Lemma probe_ssh_cons x rest :
  probe_ssh (x :: rest)
  = (host <- opts_get "ssh_host" ;;
     ssh_answers <- wait_for_port host 22 300 ;;
     match ssh_answers with
     | PBool true => ret tt
     | _ => (raise AttributeError : M unit) ;;; probe_ssh rest
     end).
Proof. reflexivity. Qed.

(** X14.  The loop that is written to probe the SSH port five times
    probes it at most once: a probe that is not answered with [True] ends
    the loop with [AttributeError], raised by [time.Sleep]. *)
Theorem probe_ssh_probes_at_most_once (E : Env) (w : World) (rounds : list Z) :
  (count is_probe (trace (snd (probe_ssh rounds E (fresh w)))) <= 1)%nat /\
  (forall x rest host answer d,
      rounds = x :: rest ->
      Py.dict_get (opts w) (PStr "ssh_host") = Some host ->
      cloud_wait_for_port E (now w) [] host 22 300 = (Ok answer, d) ->
      answer <> PBool true ->
      fst (probe_ssh rounds E (fresh w)) = Raise AttributeError).
Proof.
  unfold count, fresh; split.
  - destruct rounds as [| x rest]; [simpl; lia |].
    rewrite probe_ssh_cons; unfold bind at 1, opts_get at 1; simpl opts.
    destruct (Py.dict_get (opts w) (PStr "ssh_host")) as [host |]; [| simpl; lia].
    unfold bind at 1, wait_for_port at 1; simpl now; simpl trace; simpl opts.
    destruct (cloud_wait_for_port E (now w) [] host 22 300) as [[answer | e] d];
      [| simpl; lia].
    destruct answer as [| [|] | | | | |]; simpl; lia.
  - intros x rest host answer d -> Hhost Hport Hne.
    rewrite probe_ssh_cons; unfold bind at 1, opts_get at 1; simpl opts; rewrite Hhost.
    unfold bind at 1, wait_for_port at 1; simpl now; simpl trace; simpl opts.
    rewrite Hport.
    destruct answer as [| [|] | | | | |]; try reflexivity; contradiction.
Qed.

Lemma probe_ssh_probes_at_most_once_witness :
  fst (probe_ssh [1; 2; 3; 4; 5] Bench.offline (fresh Bench.w1)) = Raise AttributeError /\
  count is_probe (trace (snd (probe_ssh [1; 2; 3; 4; 5] Bench.offline (fresh Bench.w1))))
  = 1%nat.
Proof.
  destruct (probe_ssh_probes_at_most_once Bench.offline Bench.w1 [1; 2; 3; 4; 5])
    as [_ H].
  split; [| reflexivity].
  apply (H 1 [2; 3; 4; 5] (PStr "10.0.0.5") (PBool false) 1%positive).
  - reflexivity.
  - reflexivity.
  - reflexivity.
  - discriminate.
Defined.

(** ** Requests *)

(** X15.  Every call of [_query] sends one request and blocks for the time
    the request takes.  Unless the method is RAWGET, a failure in transit
    does not reach the caller as [RequestException]: the exceptions of
    [_query] are [HTTPError], [JSONDecodeError] and [AttributeError]. *)
Theorem query_sends_one_request_and_hides_transport_failures
        (E : Env) (w : World) (method : string) (ep : Endpoint) (data : PyVal) :
  (exists evs,
      trace (snd (_query method ep data E w)) = (evs ++ trace w)%list /\
      sent evs = [(method, ep, data)]) /\
  now (snd (_query method ep data E w))
  = now w + Z.pos (latency (http E (now w) (trace w) method ep data)) /\
  (forall e,
      method <> "RAWGET" ->
      fst (_query method ep data E w) = Raise e ->
      e = HTTPError \/ e = JSONDecodeError \/ e = AttributeError).
Proof.
  split; [| split].
  - unfold _query.
    destruct (query_result method (reply (http E (now w) (trace w) method ep data)))
      as [[|] res]; simpl.
    + exists [query_error_log;
              EvRequest method ep data (reply (http E (now w) (trace w) method ep data))].
      split; reflexivity.
    + exists [EvRequest method ep data (reply (http E (now w) (trace w) method ep data))].
      split; reflexivity.
  - apply query_run.
  - intros e Hm He.
    destruct (query_run method ep data E w) as [Hf _]; rewrite Hf in He; clear Hf.
    injection He as He.
    apply String.eqb_neq in Hm; unfold query_result in He; rewrite Hm in He.
    assert (Hdata : forall c body, response_data c body = Raise e ->
                      e = HTTPError \/ e = JSONDecodeError \/ e = AttributeError).
    { intros c body; unfold response_data.
      destruct ((400 <=? c) && (c <? 600)); [intros H; inversion H; auto |].
      destruct body as [j |]; [| intros H; inversion H; auto].
      destruct j; simpl; intros H; inversion H; auto. }
    destruct (String.eqb method "GET");
      destruct (reply (http E (now w) (trace w) method ep data)) as [| | c body];
      simpl in He; try discriminate; try (inversion He; auto; fail);
      eapply Hdata; exact He.
Qed.

Lemma query_sends_one_request_and_hides_transport_failures_witness :
  fst (_query "POST" EpClusterNextId PNone Bench.offline Lab.w0) = Ok PNone /\
  fst (_query "GET" EpClusterNextId PNone Bench.failing Lab.w0) = Raise HTTPError /\
  (HTTPError = HTTPError \/ HTTPError = JSONDecodeError \/ HTTPError = AttributeError).
Proof.
  split; [reflexivity | split; [reflexivity |]].
  destruct (query_sends_one_request_and_hides_transport_failures
              Bench.failing Lab.w0 "GET" EpClusterNextId PNone) as (_ & _ & H).
  apply (H HTTPError); [discriminate | reflexivity].
Defined.

(** ** Listings *)

Lemma list_nodes_entry_keeps_none_key vm acc acc' E w w' :
  list_nodes_entry vm acc E w = (Ok acc', w') ->
  (acc = [] \/ exists v, acc = [(PNone, v)]) ->
  acc' = [] \/ exists v, acc' = [(PNone, v)].
Proof.
  unfold list_nodes_entry; intros H Hacc.
  apply bind_ok_inv in H as (has & w1 & _ & H).
  destruct (negb has); [inversion H; subst; exact Hacc |].
  apply bind_ok_inv in H as (n & w2 & Hn & H); apply lift_ok_inv in Hn as [Hn _].
  destruct (negb (is_None n)) eqn:Hnone; [inversion H; subst; exact Hacc |].
  apply bind_ok_inv in H as (n' & w3 & _ & H).
  destruct (Py.eq n' (PStr EmptyString)); [inversion H; subst; exact Hacc |].
  apply bind_ok_inv in H as (name & w4 & Hname & H).
  apply lift_ok_inv in Hname as [Hname _].
  assert (name = PNone) as ->.
  { rewrite Hn in Hname; inversion Hname; subst name.
    destruct n; try discriminate; reflexivity. }
  do 3 apply bind_ok_inv in H as (? & ? & _ & H).
  apply bind_ok_inv in H as ([[node kind] vmid] & ? & _ & H).
  do 3 apply bind_ok_inv in H as (? & ? & _ & H).
  apply lift_ok_inv in H as [H _]; simpl in H; inversion H; subst acc'.
  right; destruct Hacc as [-> | [v ->]]; simpl; eauto.
Qed.

Lemma list_nodes_loop_keeps_none_key vms : forall acc acc' E w w',
  for_each vms list_nodes_entry acc E w = (Ok acc', w') ->
  (acc = [] \/ exists v, acc = [(PNone, v)]) ->
  acc' = [] \/ exists v, acc' = [(PNone, v)].
Proof.
  induction vms as [| vm vms IH]; intros acc acc' E w w' H Hacc.
  - inversion H; subst; exact Hacc.
  - rewrite for_each_cons in H.
    apply bind_ok_inv in H as (acc1 & w1 & H1 & H).
    eapply IH; [exact H |].
    eapply list_nodes_entry_keeps_none_key; eassumption.
Qed.

(** X16.  Whatever the cluster answers, a listing that [list_nodes]
    returns has no key other than [None], hence at most one entry: an
    inventory entry gets into it only when its name is [None]. *)
Theorem list_nodes_lists_no_named_vm
        (E : Env) (w w' : World) (call : PyVal) (d : list (PyVal * PyVal)) :
  list_nodes call E w = (Ok (PDict d), w') ->
  (forall k v, In (k, v) d -> k = PNone) /\ (List.length d <= 1)%nat.
Proof.
  unfold list_nodes; intros H.
  apply bind_ok_inv in H as (vms & w1 & _ & H).
  apply bind_ok_inv in H as (l & w2 & _ & H).
  apply bind_ok_inv in H as (acc & w3 & Hloop & H).
  inversion H; subst.
  destruct (list_nodes_loop_keeps_none_key _ _ _ _ _ _ Hloop (or_introl eq_refl))
    as [-> | [v ->]]; simpl; split; try lia.
  intros k v0 [Hin | []]; inversion Hin; reflexivity.
Qed.

Lemma list_nodes_lists_no_named_vm_witness :
  list_nodes PNone Bench.half_named Lab.w0
  = (Ok (PDict Bench.nameless_listing), snd (list_nodes PNone Bench.half_named Lab.w0)) /\
  (forall k v, In (k, v) Bench.nameless_listing -> k = PNone) /\
  (List.length Bench.nameless_listing <= 1)%nat.
Proof.
  assert (H : list_nodes PNone Bench.half_named Lab.w0
              = (Ok (PDict Bench.nameless_listing),
                 snd (list_nodes PNone Bench.half_named Lab.w0)))
    by reflexivity.
  split; [exact H |].
  exact (list_nodes_lists_no_named_vm Bench.half_named Lab.w0 _ PNone
           Bench.nameless_listing H).
Defined.

Lemma list_nodes_full_unfold call :
  list_nodes_full call
  = (if Py.eq call (PStr "action") then
       raise (SaltCloudSystemExit
                "The list_nodes_full function must be called with -f or --function.")
     else
       vms <- _query "GET" EpClusterResources PNone ;;
       l <- lift (Py.iter vms) ;;
       ret_ <- for_each l list_nodes_full_entry [] ;;
       ret (PDict ret_)).
Proof. reflexivity. Qed.

Lemma first_with_key_is_lookup d name : first_with_key d name = Py.dict_get d name.
Proof. induction d as [| [k v] d IH]; simpl; [| rewrite IH]; reflexivity. Qed.

Lemma dict_get_set_twice d s v1 v2 :
  Py.dict_get (Py.dict_set (Py.dict_set d (PStr s) v1) (PStr s) v2) (PStr s) = Some v2.
Proof. apply dict_get_set_same; simpl; apply String.eqb_refl. Qed.

Lemma listable_name vm s s' : named s vm -> named s' vm -> s = s'.
Proof. unfold named; intros H H'; rewrite H in H'; inversion H'; reflexivity. Qed.

Section FullListing.

Variables (E : Env) (P : PyVal -> Prop).
Hypothesis readable : configured E P.

Lemma list_nodes_full_entry_runs d s a acc w :
  named s (PDict d) -> vm_address (PDict d) = Ok a ->
  exists cfg w',
    list_nodes_full_entry (PDict d) acc E w
    = (Ok (Py.dict_set (Py.dict_set acc (PStr s) (PDict d)) (PStr s)
                       (PDict (Py.dict_set d (PStr "config") cfg))), w') /\
    P cfg.
Proof.
  intros Hs Ha; destruct a as [[node kind] vmid].
  destruct (query_answered anything anything_quiet E "GET" (EpVmConfig node kind vmid) P
              PNone w ltac:(intros ? ?; reflexivity) (readable node kind vmid))
    as (cfg & w' & Hq & HP & _).
  exists cfg, w'; split; [| exact HP].
  unfold list_nodes_full_entry.
  rewrite (bind_lift_ok _ _ _ _ _ Hs), (bind_lift_ok _ _ _ _ _ Ha).
  rewrite (bind_ok _ _ _ _ _ _ Hq); reflexivity.
Qed.

Lemma list_nodes_full_loop vms :
  Forall listable vms ->
  forall acc w,
    exists acc' w',
      for_each vms list_nodes_full_entry acc E w = (Ok acc', w') /\
      forall s,
        (Forall (fun vm => ~ named s vm) vms ->
         Py.dict_get acc' (PStr s) = Py.dict_get acc (PStr s)) /\
        (forall earlier d later,
            vms = (earlier ++ PDict d :: later)%list ->
            named s (PDict d) ->
            Forall (fun vm => ~ named s vm) later ->
            exists cfg, P cfg /\
                        Py.dict_get acc' (PStr s)
                        = Some (PDict (Py.dict_set d (PStr "config") cfg))).
Proof.
  induction 1 as [| vm vms (d & s0 & a & -> & Hs0 & Ha) _ IH]; intros acc w.
  - exists acc, w; split; [reflexivity |].
    intros s; split; [reflexivity |].
    intros [| ? ?] ? ? Hnil; discriminate.
  - destruct (list_nodes_full_entry_runs d s0 a acc w Hs0 Ha) as (cfg & w1 & H1 & HP).
    destruct (IH (Py.dict_set (Py.dict_set acc (PStr s0) (PDict d)) (PStr s0)
                              (PDict (Py.dict_set d (PStr "config") cfg))) w1)
      as (acc' & w' & Hloop & Hacc').
    exists acc', w'; split.
    { rewrite for_each_cons, (bind_ok _ _ _ _ _ _ H1); exact Hloop. }
    intros s; destruct (Hacc' s) as [Hmiss Hhit]; split.
    + intros Hnone; inversion Hnone as [| ? ? Hvm Hrest]; subst.
      rewrite (Hmiss Hrest).
      assert (s0 <> s) by (intros ->; apply Hvm; exact Hs0).
      rewrite !dict_get_set_other by assumption; reflexivity.
    + intros earlier d' later Hvms Hd' Hlater.
      destruct earlier as [| e earlier]; simpl in Hvms; inversion Hvms; subst.
      * rewrite (Hmiss Hlater).
        rewrite (listable_name _ _ _ Hs0 Hd'), dict_get_set_twice; eauto.
      * eapply Hhit; eauto.
Qed.

Lemma list_nodes_full_runs vms w :
  lists E vms -> Forall listable vms ->
  exists acc' w',
    list_nodes_full PNone E w = (Ok (PDict acc'), w') /\
    forall s,
      (Forall (fun vm => ~ named s vm) vms -> Py.dict_get acc' (PStr s) = None) /\
      (forall earlier d later,
          vms = (earlier ++ PDict d :: later)%list ->
          named s (PDict d) ->
          Forall (fun vm => ~ named s vm) later ->
          exists cfg, P cfg /\
                      Py.dict_get acc' (PStr s)
                      = Some (PDict (Py.dict_set d (PStr "config") cfg))).
Proof.
  intros Hl Hall.
  destruct (inventory_run E vms w Hl) as (r & d & Hq).
  destruct (list_nodes_full_loop vms Hall []
              (after_request w "GET" EpClusterResources PNone r d))
    as (acc' & w' & Hloop & Hacc').
  exists acc', w'; split; [| exact Hacc'].
  rewrite list_nodes_full_unfold.
  replace (Py.eq PNone (PStr "action")) with false by reflexivity.
  rewrite (bind_ok _ _ _ _ _ _ Hq).
  unfold bind at 1, lift at 1; simpl Py.iter; cbv iota.
  rewrite (bind_ok _ _ _ _ _ _ Hloop); reflexivity.
Qed.

End FullListing.



(** X18.  When no entry of the inventory carries the wanted name,
    [show_instance] raises [SaltCloudNotFound], after the configuration of
    every VM has been read. *)
Theorem show_instance_raises_not_found_for_an_unlisted_name
        (E : Env) (w : World) (P : PyVal -> Prop) (vms : list PyVal) (s : string) :
  lists E vms ->
  Forall listable vms ->
  configured E P ->
  Forall (fun vm => ~ named s vm) vms ->
  fst (show_instance (PStr s) (PStr "action") E w)
  = Raise (not_found_by_instance_name (PStr s)).
Proof.
  intros Hl Hall Hcfg Hnone.
  destruct (list_nodes_full_runs E P Hcfg _ w Hl Hall) as (acc & w' & Hrun & Hacc).
  destruct (Hacc s) as [Hmiss _].
  unfold show_instance.
  replace (negb (Py.eq (PStr "action") (PStr "action"))) with false by reflexivity.
  rewrite (bind_ok _ _ _ _ _ _ Hrun), first_with_key_is_lookup, (Hmiss Hnone); reflexivity.
Qed.

Lemma show_instance_raises_not_found_for_an_unlisted_name_witness :
  fst (show_instance (PStr "ghost") (PStr "action") Lab.stuck Lab.w0)
  = Raise (not_found_by_instance_name (PStr "ghost")).
Proof.
  apply (show_instance_raises_not_found_for_an_unlisted_name Lab.stuck Lab.w0
           (fun _ => True) Lab.three).
  - intros t h data; eexists; split; reflexivity.
  - repeat constructor;
      (eexists; eexists; eexists; split; [reflexivity | split; reflexivity]).
  - intros node kind vmid t h data; eexists; split; [reflexivity | exact I].
  - repeat constructor; intros H; discriminate.
Defined.

(** ** Splitting and stripping *)


Lemma split_length c s : List.length (Py.split c s) = S (occurrences c s).
Proof.
  induction s as [| x s IH]; simpl; [reflexivity |].
  destruct (Ascii.eqb x c); simpl; [rewrite IH; reflexivity |].
  destruct (Py.split c s) as [| hd tl]; simpl in *; [discriminate | exact IH].
Qed.



Lemma space_is_not c x : Py.is_space c = false -> Py.is_space x = true -> Ascii.eqb x c = false.
Proof.
  intros Hc Hx; destruct (Ascii.eqb x c) eqn:He; [| reflexivity].
  apply Ascii.eqb_eq in He; subst; congruence.
Qed.

Lemma occurrences_lstrip c s :
  Py.is_space c = false -> occurrences c (Py.lstrip s) = occurrences c s.
Proof.
  intros Hc; induction s as [| x s IH]; simpl; [reflexivity |].
  destruct (Py.is_space x) eqn:Hx; [| reflexivity].
  rewrite IH, (space_is_not c x Hc Hx); reflexivity.
Qed.

Lemma occurrences_rstrip c s :
  Py.is_space c = false -> occurrences c (Py.rstrip s) = occurrences c s.
Proof.
  intros Hc; induction s as [| x s IH]; simpl; [reflexivity |].
  destruct (Py.rstrip s) as [| y r].
  - simpl in IH; rewrite <- IH.
    destruct (Py.is_space x) eqn:Hx; simpl.
    + rewrite (space_is_not c x Hc Hx); reflexivity.
    + lia.
  - rewrite <- IH; reflexivity.
Qed.

Lemma occurrences_strip c s :
  Py.is_space c = false -> occurrences c (Py.strip s) = occurrences c s.
Proof.
  intros Hc; unfold Py.strip; rewrite occurrences_rstrip, occurrences_lstrip; auto.
Qed.




Lemma equals_is_no_space : Py.is_space "=" = false.
Proof. reflexivity. Qed.









Lemma dict_of_lists_accepts pairs : forall acc,
  if forallb (fun p : list string => Nat.eqb (List.length p) 2) pairs
  then exists d, Py.dict_of_lists pairs acc = Ok d
  else Py.dict_of_lists pairs acc = Raise ValueError.
Proof.
  induction pairs as [| p pairs IH]; intros acc; simpl; [eauto |].
  destruct p as [| k [| v [| x r]]]; simpl; try reflexivity.
  apply IH.
Qed.

Lemma accepted_items items :
  forallb (fun p : list string => Nat.eqb (List.length p) 2)
          (map (fun item => Py.split "=" (Py.strip item))
               (filter (fun item => negb (String.eqb item EmptyString)) items))
  = forallb (fun item => String.eqb item EmptyString || Nat.eqb (occurrences "=" item) 1)
            items.
Proof.
  induction items as [| item items IH]; simpl; [reflexivity |].
  destruct (String.eqb item EmptyString); simpl; [exact IH |].
  rewrite split_length, occurrences_strip, IH by exact equals_is_no_space.
  reflexivity.
Qed.

Lemma stringlist_result s :
  if is_stringlist s
  then exists d, _stringlist_to_dictionary (PStr s) = Ok (PDict d)
  else _stringlist_to_dictionary (PStr s) = Raise ValueError.
Proof.
  unfold is_stringlist, _stringlist_to_dictionary.
  rewrite <- accepted_items.
  match goal with
  | |- context [Py.dict_of_lists ?pairs ?acc] =>
      pose proof (dict_of_lists_accepts pairs acc) as H;
      destruct (forallb (fun p : list string => Nat.eqb (List.length p) 2) pairs)
  end.
  - destruct H as [d ->]; eexists; reflexivity.
  - rewrite H; reflexivity.
Qed.

(** X20.  [_stringlist_to_dictionary] returns a dictionary exactly for the
    strings in which every item between commas is empty or holds one "=";
    for every other string it raises [ValueError]. *)
Theorem stringlist_to_dictionary_accepts_exactly_the_stringlists (s : string) :
  if is_stringlist s
  then exists d, _stringlist_to_dictionary (PStr s) = Ok (PDict d)
  else _stringlist_to_dictionary (PStr s) = Raise ValueError.
Proof. exact (stringlist_result s). Qed.

(** ** Addresses from a configuration *)

Lemma values_with_prefix_selected prefix items :
  string_keyed items -> values_with_prefix prefix items = Ok (selected prefix items).
Proof.
  induction 1 as [| [k v] items [s Hs] _ IH]; simpl in *; [reflexivity |].
  subst k; rewrite IH; simpl.
  destruct (String.prefix prefix s); reflexivity.
Qed.

Lemma parse_ips_unfold items vm_type :
  string_keyed items ->
  _parse_ips (PDict items) vm_type
  = (st <- for_each (selected (ip_prefix vm_type) items) parse_ip_config
                    (mkParseIps [] [] None) ;;
     ret (private_ips st, public_ips st)).
Proof.
  intros Hk; unfold _parse_ips, ip_prefix.
  destruct (Py.eq vm_type (PStr "lxc"));
    rewrite (values_with_prefix_selected _ items Hk); reflexivity.
Qed.






(** Once [ip_with_netmask] has a value, an entry that is a string is
    filed or logged, and the variable keeps a value. *)
Lemma parse_ip_config_bound s st E w :
  (ip_with_netmask st <> None \/ is_stringlist s = true) ->
  exists st' w',
    parse_ip_config (PStr s) st E w = (Ok st', w') /\ ip_with_netmask st' <> None.
Proof.
  intros Hb; pose proof (stringlist_result s) as Hs.
  unfold parse_ip_config, bind, ask.
  destruct (is_stringlist s).
  - destruct Hs as [d ->]; unfold Py.get.
    match goal with
    | |- context [ip_interface E ?a] => destruct (ip_interface E a) as [ip |]
    end.
    + destruct (is_private ip); eexists; eexists; split;
        try reflexivity; simpl; discriminate.
    + eexists; eexists; split; [reflexivity | simpl; discriminate].
  - rewrite Hs; simpl is_ValueError; cbv iota.
    destruct Hb as [Hb | Hb]; [| discriminate].
    unfold ignore_invalid_ip.
    destruct (ip_with_netmask st) as [v |] eqn:Hv; [| contradiction].
    eexists; eexists; split; [reflexivity | congruence].
Qed.

Lemma parse_ips_loop_bound E configs :
  Forall (fun c => exists s, c = PStr s) configs ->
  forall st w,
    ip_with_netmask st <> None ->
    exists st' w', for_each configs parse_ip_config st E w = (Ok st', w').
Proof.
  induction 1 as [| c configs [s ->] _ IH]; intros st w Hst.
  - exists st, w; reflexivity.
  - destruct (parse_ip_config_bound s st E w (or_introl Hst)) as (st1 & w1 & H1 & Hst1).
    destruct (IH st1 w1 Hst1) as (st' & w' & Hrun).
    exists st', w'; rewrite for_each_cons, (bind_ok _ _ _ _ _ _ H1); exact Hrun.
Qed.

(** X22.  For a configuration whose entries are strings, the one
    exception that [_parse_ips] lets out is [UnboundLocalError], and it
    does so exactly when the first entry it looks at is not a stringlist;
    an entry that is not a stringlist is skipped without an exception
    wherever else it stands. *)
Theorem parse_ips_raises_exactly_when_the_first_entry_is_no_stringlist
        (E : Env) (w : World) (items : list (PyVal * PyVal)) (vm_type : PyVal) :
  string_keyed items ->
  Forall (fun c => exists s, c = PStr s) (selected (ip_prefix vm_type) items) ->
  if starts_unsplittable (selected (ip_prefix vm_type) items)
  then _parse_ips (PDict items) vm_type E w = (Raise UnboundLocalError, w)
  else exists r w', _parse_ips (PDict items) vm_type E w = (Ok r, w').
Proof.
  intros Hk Hall; rewrite (parse_ips_unfold items vm_type Hk).
  destruct (selected (ip_prefix vm_type) items) as [| c configs].
  - simpl; eexists; eexists; reflexivity.
  - inversion Hall as [| ? ? [s ->] Hrest]; subst; simpl starts_unsplittable.
    destruct (is_stringlist s) eqn:Hs; simpl negb; cbv iota.
    + destruct (parse_ip_config_bound s (mkParseIps [] [] None) E w (or_intror Hs))
        as (st1 & w1 & H1 & Hst1).
      destruct (parse_ips_loop_bound E configs Hrest st1 w1 Hst1) as (st' & w' & Hrun).
      assert (Hloop : for_each (PStr s :: configs) parse_ip_config
                               (mkParseIps [] [] None) E w = (Ok st', w'))
        by (rewrite for_each_cons, (bind_ok _ _ _ _ _ _ H1); exact Hrun).
      rewrite (bind_ok _ _ _ _ _ _ Hloop).
      eexists; eexists; reflexivity.
    + pose proof (stringlist_result s) as Hr; rewrite Hs in Hr.
      assert (Hloop : for_each (PStr s :: configs) parse_ip_config
                               (mkParseIps [] [] None) E w = (Raise UnboundLocalError, w))
        by (rewrite for_each_cons;
            apply bind_raise, parse_ip_config_unbound; [reflexivity | exact Hr]).
      rewrite (bind_raise _ _ _ _ _ _ Hloop); reflexivity.
Qed.

Lemma parse_ips_raises_exactly_when_the_first_entry_is_no_stringlist_witness :
  _parse_ips (PDict [(PStr "ipconfig0", PStr "dhcp");
                     (PStr "ipconfig1", PStr "ip=192.168.1.5/24")])
             (PStr "qemu") Lab.stuck Lab.w0
  = (Raise UnboundLocalError, Lab.w0) /\
  exists r w',
    _parse_ips (PDict [(PStr "ipconfig1", PStr "ip=192.168.1.5/24");
                       (PStr "ipconfig0", PStr "dhcp")])
               (PStr "qemu") Lab.stuck Lab.w0
    = (Ok r, w').
Proof.
  split.
  - apply (parse_ips_raises_exactly_when_the_first_entry_is_no_stringlist
             Lab.stuck Lab.w0
             [(PStr "ipconfig0", PStr "dhcp");
              (PStr "ipconfig1", PStr "ip=192.168.1.5/24")] (PStr "qemu")).
    + repeat constructor; eexists; reflexivity.
    + repeat constructor; eexists; reflexivity.
  - apply (parse_ips_raises_exactly_when_the_first_entry_is_no_stringlist
             Lab.stuck Lab.w0
             [(PStr "ipconfig1", PStr "ip=192.168.1.5/24");
              (PStr "ipconfig0", PStr "dhcp")] (PStr "qemu")).
    + repeat constructor; eexists; reflexivity.
    + repeat constructor; eexists; reflexivity.
Defined.

(** ** Termination of the remaining operations *)

Lemma total_reconfigure name kwargs : total (reconfigure name kwargs).
Proof.
  unfold reconfigure.
  apply total_bind; [apply total_get_vm_by_name | intro]; total_structure.
Qed.

(** X23.  The lookups, the listings with full details, [reconfigure],
    [_wait_for_ip] and [_parse_ips] end in every environment: the loop of
    [_get_vm_by_name] is left after at most 60 rounds, and a loop on the
    clock is left because every request it makes takes time. *)
Theorem lookups_and_listings_are_total :
  (forall name interval max message,
      total (_get_vm_by_name name interval max message)) /\
  (forall vmid, total (_get_vm_by_id vmid)) /\
  (forall name kwargs, total (reconfigure name kwargs)) /\
  (forall call, total (list_nodes_full call)) /\
  (forall name call, total (show_instance name call)) /\
  (forall name timeout interval, total (_wait_for_ip name timeout interval)) /\
  (forall vm_config vm_type, total (_parse_ips vm_config vm_type)).
Proof.
  repeat match goal with |- _ /\ _ => split end;
    auto using total_get_vm_by_name, total_get_vm_by_id, total_reconfigure,
      total_list_nodes_full, total_show_instance, total_wait_for_ip, total_parse_ips.
Qed.
